(** * Advent of Code leaderboard helpers

    A shallow embedding of
    [bot/exts/christmas/advent_of_code/_helpers.py]: the aggregator
    ([_parse_raw_leaderboard_data]), the formatter, the sequential fetcher
    with its fallback session, the paste upload and the join-code
    assigner, followed by the properties the specification states about
    them, and by further properties of these functions, of
    [get_summary_embed] and of [time_left_to_aoc_midnight].

    Python values are modelled as the code sees them: decoded JSON
    documents, strings as sequences of code points, insertion-ordered
    dictionaries as association lists, exceptions as an error type. *)

From Stdlib Require Import Ascii String.
From Stdlib Require Import List ZArith NArith Lia Bool Permutation Sorted.
Import ListNotations.

Set Implicit Arguments.
#[local] Set Warnings "-register-all".
Local Open Scope Z_scope.

(* ===================================================================== *)
(** ** Python strings *)

(** A Python [str] is a sequence of Unicode code points. *)
Definition str := list N.

(** An ASCII literal of the source as a [str]. *)
Fixpoint u (s : string) : str :=
  match s with
  | EmptyString => []
  | String c s' => N_of_ascii c :: u s'
  end.

Fixpoint str_eqb (a b : str) : bool :=
  match a, b with
  | [], [] => true
  | x :: a', y :: b' => N.eqb x y && str_eqb a' b'
  | _, _ => false
  end.

(** Decimal digits of a natural number, most significant first. *)
Fixpoint digits_of (fuel : nat) (n : N) (acc : str) : str :=
  match fuel with
  | O => acc
  | S fuel' =>
      let acc' := (48 + n mod 10)%N :: acc in
      if (n / 10 =? 0)%N then acc' else digits_of fuel' (n / 10)%N acc'
  end.

Definition str_of_N (n : N) : str :=
  digits_of (S (N.to_nat (N.log2 n))) n [].

(** [str(n)] for a Python [int]. *)
Definition str_of_Z (z : Z) : str :=
  match z with
  | Zneg p => 45%N :: str_of_N (Npos p)
  | _ => str_of_N (Z.to_N z)
  end.

(** [sep.join(parts)]. *)
Fixpoint join (sep : str) (parts : list str) : str :=
  match parts with
  | [] => []
  | [p] => p
  | p :: rest => p ++ sep ++ join sep rest
  end.

(* ===================================================================== *)
(** ** Decoded JSON documents *)

(** What [json.loads] (and [resp.json()]) hands to the code.  JSON numbers
    are restricted to integers: the leaderboard API has no others. *)
Inductive json : Type :=
  | JNull
  | JBool (b : bool)
  | JNum (n : Z)
  | JStr (s : str)
  | JArr (items : list json)
  | JObj (members : list (str * json)).

(** Truth value of a decoded document, as tested by [if x]. *)
Definition truthy (j : json) : bool :=
  match j with
  | JNull => false
  | JBool b => b
  | JNum n => negb (n =? 0)
  | JStr s => match s with [] => false | _ => true end
  | JArr l => match l with [] => false | _ => true end
  | JObj l => match l with [] => false | _ => true end
  end.

(** Lists and dicts cannot be dictionary keys. *)
Definition hashable (j : json) : bool :=
  match j with
  | JArr _ | JObj _ => false
  | _ => true
  end.

Definition as_int (j : json) : option Z :=
  match j with
  | JNum n => Some n
  | JBool b => Some (if b then 1 else 0)
  | _ => None
  end.

(** Equality of dictionary keys: [True == 1] and [False == 0]. *)
Definition py_eqb (a b : json) : bool :=
  match a, b with
  | JStr s, JStr t => str_eqb s t
  | JNull, JNull => true
  | _, _ =>
      match as_int a, as_int b with
      | Some x, Some y => x =? y
      | _, _ => false
      end
  end.

(* ===================================================================== *)
(** ** Exceptions *)

Inductive exn : Type :=
  | KeyError
  | TypeError
  | ValueError
  | AttributeError
  | OverflowError
  | UnexpectedRedirect            (* subclass of aiohttp.ClientError *)
  | UnexpectedResponseStatus      (* subclass of aiohttp.ClientError *)
  | ClientError                   (* any other aiohttp.ClientError *)
  | FetchingLeaderboardFailed
  | OtherException.               (* raised by a library, not a ClientError *)

(** [except aiohttp.ClientError] catches the class and its subclasses. *)
Definition is_ClientError (e : exn) : bool :=
  match e with
  | UnexpectedRedirect | UnexpectedResponseStatus | ClientError => true
  | _ => false
  end.

(** A computation that returns or raises. *)
Definition Exc (A : Type) : Type := exn + A.

Definition ok {A} (a : A) : Exc A := inr a.
Definition raise {A} (e : exn) : Exc A := inl e.

Definition bindE {A B} (m : Exc A) (k : A -> Exc B) : Exc B :=
  match m with
  | inl e => inl e
  | inr a => k a
  end.

Declare Scope exc_scope.
Delimit Scope exc_scope with exc.
Notation "x <- m ;; k" := (bindE m (fun x => k))
  (at level 61, m at next level, right associativity) : exc_scope.
Notation "' pat <- m ;; k" := (bindE m (fun x => match x with pat => k end))
  (at level 61, pat pattern, m at next level, right associativity) : exc_scope.

(** A [for] loop whose body may raise: the state is threaded from left to
    right and the first exception ends the loop. *)
Fixpoint foldE {A S} (body : S -> A -> Exc S) (s : S) (l : list A) : Exc S :=
  match l with
  | [] => ok s
  | a :: l' =>
      match body s a with
      | inl e => inl e
      | inr s' => foldE body s' l'
      end
  end.

(* ===================================================================== *)
(** ** Insertion-ordered dictionaries *)

Section Dict.
Variables (K V : Type) (eqb : K -> K -> bool).

Definition dict : Type := list (K * V).

(** [d.get(k)] *)
Fixpoint dict_get (k : K) (d : dict) : option V :=
  match d with
  | [] => None
  | (k', v) :: d' => if eqb k k' then Some v else dict_get k d'
  end.

(** [k in d] *)
Definition dict_mem (k : K) (d : dict) : bool :=
  match dict_get k d with Some _ => true | None => false end.

(** [d[k] = v]: an existing key keeps its place (and its key object), a
    new key goes last. *)
Fixpoint dict_set (k : K) (v : V) (d : dict) : dict :=
  match d with
  | [] => [(k, v)]
  | (k', v') :: d' =>
      if eqb k k' then (k', v) :: d' else (k', v') :: dict_set k v d'
  end.

(** [d.pop(k, None)] *)
Fixpoint dict_pop (k : K) (d : dict) : dict :=
  match d with
  | [] => []
  | (k', v) :: d' => if eqb k k' then d' else (k', v) :: dict_pop k d'
  end.

(** [d[k]], which raises [KeyError] on a missing key. *)
Definition dict_getitem (k : K) (d : dict) : Exc V :=
  match dict_get k d with
  | Some v => ok v
  | None => raise KeyError
  end.

(** [d[k] = f(d[k])], an in-place update of the value stored at [k]:
    [KeyError] when [k] is missing, and the exception of [f] when it
    raises. *)
Fixpoint dict_modify (k : K) (f : V -> Exc V) (d : dict) : Exc dict :=
  match d with
  | [] => raise KeyError
  | (k', v) :: d' =>
      if eqb k k' then
        match f v with
        | inl e => inl e
        | inr v' => ok ((k', v') :: d')
        end
      else
        match dict_modify k f d' with
        | inl e => inl e
        | inr d'' => ok ((k', v) :: d'')
        end
  end.

(** [dict(items)] and [d.update(items)]: later items overwrite. *)
Definition dict_update (items : list (K * V)) (d : dict) : dict :=
  fold_left (fun acc kv => dict_set (fst kv) (snd kv) acc) items d.

Definition dict_of_items (items : list (K * V)) : dict :=
  dict_update items [].
End Dict.

Definition pair_eqb (a b : str * str) : bool :=
  str_eqb (fst a) (fst b) && str_eqb (snd a) (snd b).

(* ===================================================================== *)
(** ** Library functions and configuration *)

(** The pieces of the Python runtime the module calls and whose
    definition lies outside the repository.  They are parameters of the
    model, so that every result holds whatever they compute:
    - [int_of_str s] is [int(s)] on a string, [None] for [ValueError];
    - [fromtimestamp n] is [datetime.datetime.fromtimestamp(n)], a naive
      local time, given by its position on the time line ([None] when the
      call raises for a value out of range); naive datetimes compare by
      that position;
    - [repr] is [str()] of a list or a dict. *)
Record Python : Type := {
  int_of_str : str -> option Z;
  fromtimestamp : Z -> option Z;
  repr : json -> str
}.

(** Modelled from the spec: the constants of [bot.constants.AdventOfCode],
    which is not among the sources; [ignored_days] is the ignored list of
    the aggregator, [fallback_session] the fallback credential,
    [staff_leaderboard_id] the board left out of join-code assignment and
    [leaderboard_displayed_members] the N of the top view. *)
Record AdventOfCode : Type := {
  ignored_days : list str;
  fallback_session : str;
  staff_leaderboard_id : str;
  leaderboard_displayed_members : nat;
  leaderboard_cache_expiry_seconds : Z;
  year : Z
}.

(** [x in l] on a list of strings. *)
Definition str_in (x : str) (l : list str) : bool := existsb (str_eqb x) l.

(* ===================================================================== *)
(** ** Built-in operations on decoded documents *)

(** [j[k]] with a string subscript. *)
Definition getitem (j : json) (k : str) : Exc json :=
  match j with
  | JObj kv => dict_getitem str_eqb k kv
  | _ => raise TypeError
  end.

(** [j.items()] *)
Definition items (j : json) : Exc (list (str * json)) :=
  match j with
  | JObj kv => ok kv
  | _ => raise AttributeError
  end.

(** [len(j)] *)
Definition len (j : json) : Exc Z :=
  match j with
  | JObj kv => ok (Z.of_nat (length kv))
  | JArr l => ok (Z.of_nat (length l))
  | JStr s => ok (Z.of_nat (length s))
  | _ => raise TypeError
  end.

(** [int(j)] *)
Definition py_int (py : Python) (j : json) : Exc Z :=
  match j with
  | JNum n => ok n
  | JBool b => ok (if b then 1 else 0)
  | JStr s =>
      match int_of_str py s with
      | Some n => ok n
      | None => raise ValueError
      end
  | _ => raise TypeError
  end.

(** [str(j)], as used by f-strings and [str.format]. *)
Definition py_str (py : Python) (j : json) : str :=
  match j with
  | JStr s => s
  | JNum n => str_of_Z n
  | JBool true => u "True"
  | JBool false => u "False"
  | JNull => u "None"
  | _ => repr py j
  end.

(* ===================================================================== *)
(** ** Sorting *)

Section Sorting.
Variables (A : Type) (before : A -> A -> bool).

(** [sorted] is stable; a stable sort is determined by the order it sorts
    by, so it is modelled by insertion from the right, which keeps
    elements that compare equal in their original order.  [before x y]
    says that [x] may stand in front of [y]. *)
Fixpoint insert_sorted (x : A) (l : list A) : list A :=
  match l with
  | [] => [x]
  | y :: l' => if before x y then x :: l else y :: insert_sorted x l'
  end.

Definition sorted (l : list A) : list A := fold_right insert_sorted [] l.
End Sorting.

(** [enumerate(l, start)] *)
Fixpoint enumerate {A} (start : nat) (l : list A) : list (nat * A) :=
  match l with
  | [] => []
  | a :: l' => (start, a) :: enumerate (S start) l'
  end.

(* ===================================================================== *)
(** ** The aggregator *)

(** One value of the [leaderboard] dictionary:
    [{"name": ..., "score": ..., "star_1": ..., "star_2": ...}]. *)
Record LeaderboardEntry : Type := {
  name : json;
  score : Z;
  star_1 : Z;
  star_2 : Z
}.

(** [StarResult = namedtuple("StarResult", "member_id completion_time")] *)
Record StarResult : Type := {
  member_id : json;
  completion_time : Z
}.

(** One value of [daily_stats]: [{"star_one": ..., "star_two": ...}]. *)
Record DayStats : Type := {
  star_one : Z;
  star_two : Z
}.

(** The dictionary [{"daily_stats": ..., "leaderboard": ...}] returned by
    the aggregator. *)
Record ParsedLeaderboard : Type := {
  daily_stats : list (str * DayStats);
  leaderboard : list (json * LeaderboardEntry)
}.

Definition Leaderboard : Type := list (json * LeaderboardEntry).
Definition StarResults : Type := list ((str * str) * list StarResult).

(** Comparison of the tuples used as sort keys. *)
Definition tuple_leb (a b : Z * Z) : bool :=
  (fst a <? fst b) || ((fst a =? fst b) && (snd a <=? snd b)).

(** Lines 68-76: the sort key, the score and then the number of stars. *)
Definition leaderboard_sorting_function (entry : json * LeaderboardEntry)
  : Z * Z :=
  let result := snd entry in
  (score result, star_2 result + star_1 result).

(** [leaderboard[member_id][f"star_{star}"] += 1] on the entry. *)
Definition incr_star (star : str) (e : LeaderboardEntry) : Exc LeaderboardEntry :=
  if str_eqb star (u "1") then
    ok {| name := name e; score := score e;
          star_1 := star_1 e + 1; star_2 := star_2 e |}
  else if str_eqb star (u "2") then
    ok {| name := name e; score := score e;
          star_1 := star_1 e; star_2 := star_2 e + 1 |}
  else raise KeyError.

(** [leaderboard[member_id]["score"] += points] on the entry. *)
Definition add_score (points : Z) (e : LeaderboardEntry) : Exc LeaderboardEntry :=
  ok {| name := name e; score := score e + points;
        star_1 := star_1 e; star_2 := star_2 e |}.

(** [star_results[key].append(x)] on a [defaultdict(list)]. *)
Fixpoint defaultdict_append (key : str * str) (x : StarResult)
    (sr : StarResults) : StarResults :=
  match sr with
  | [] => [(key, [x])]
  | (k', l) :: sr' =>
      if pair_eqb key k' then (k', l ++ [x]) :: sr'
      else (k', l) :: defaultdict_append key x sr'
  end.

(** [range(lo, hi)] *)
Definition range (lo hi : Z) : list Z :=
  map (fun i => lo + Z.of_nat i) (seq 0 (Z.to_nat (hi - lo))).

Section Aggregator.
Variables (py : Python) (aoc : AdventOfCode).
Local Open Scope exc_scope.

(** Lines 111-119: body of [for star, data in stars.items()].  A number
    that [fromtimestamp] refuses is refused with [OverflowError],
    [ValueError] or [OSError], by its size and the platform;
    [OverflowError] stands for the three. *)
Definition record_star (mid : json) (day : str)
    (st : Leaderboard * StarResults) (star_data : str * json)
  : Exc (Leaderboard * StarResults) :=
  let '(lb, sr) := st in
  let '(star, data) := star_data in
  lb' <- dict_modify py_eqb mid (incr_star star) lb ;;
  ts <- getitem data (u "get_star_ts") ;;
  n <- py_int py ts ;;
  match fromtimestamp py n with
  | None => raise OverflowError
  | Some t =>
      ok (lb', defaultdict_append (day, star)
                 {| member_id := mid; completion_time := t |} sr)
  end.

(** Lines 109-119: body of
    [for day, stars in member["completion_day_level"].items()]. *)
Definition record_day (mid : json) (st : Leaderboard * StarResults)
    (day_stars : str * json) : Exc (Leaderboard * StarResults) :=
  let '(day, stars) := day_stars in
  star_items <- items stars ;;
  foldE (record_star mid day) st star_items.

(** Lines 103-119: body of [for member in raw_leaderboard_data.values()];
    an identifier that is a list or a dict cannot be a key of
    [leaderboard]. *)
Definition record_member (st : Leaderboard * StarResults) (member : json)
  : Exc (Leaderboard * StarResults) :=
  let '(lb, sr) := st in
  nm <- getitem member (u "name") ;;
  nm' <- (if truthy nm then getitem member (u "name")
          else (i <- getitem member (u "id") ;;
                ok (JStr (u "Anonymous #" ++ py_str py i)))) ;;
  mid <- getitem member (u "id") ;;
  if hashable mid then
    let lb' := dict_set py_eqb mid
                 {| name := nm'; score := 0; star_1 := 0; star_2 := 0 |} lb in
    cdl <- getitem member (u "completion_day_level") ;;
    days <- items cdl ;;
    foldE (record_day mid) (lb', sr) days
  else raise TypeError.

(** The first loop: the leaderboard with its star counts and the
    transposed [star_results]. *)
Definition transpose (raw : list (json * json))
  : Exc (Leaderboard * StarResults) :=
  foldE record_member ([], []) (map snd raw).

(** Lines 130-132: the points of one star, the results sorted by
    completion time, each paired with [max_score - rank]. *)
Definition star_awards (max_score : Z) (results : list StarResult)
  : list (json * Z) :=
  map (fun rank_result =>
         (member_id (snd rank_result), max_score - Z.of_nat (fst rank_result)))
      (enumerate 0
         (sorted (fun a b => completion_time a <=? completion_time b) results)).

(** Lines 125-132: body of
    [for (day, _star), results in star_results.items()]. *)
Definition score_star (max_score : Z) (lb : Leaderboard)
    (group : (str * str) * list StarResult) : Exc Leaderboard :=
  let '((day, _), results) := group in
  if str_in day (ignored_days aoc) then ok lb
  else
    foldE (fun lb award =>
             dict_modify py_eqb (fst award) (add_score (snd award)) lb)
          lb (star_awards max_score results).

(** [len(star_results.get((day, star), []))] *)
Definition star_count (sr : StarResults) (day star : str) : Z :=
  match dict_get pair_eqb (day, star) sr with
  | Some results => Z.of_nat (length results)
  | None => 0
  end.

(** Lines 140-147: the statistics of the days 1 to 25. *)
Definition make_daily_stats (sr : StarResults) : list (str * DayStats) :=
  fold_left
    (fun acc d =>
       let day := str_of_Z d in
       dict_set str_eqb day
         {| star_one := star_count sr day (u "1");
            star_two := star_count sr day (u "2") |} acc)
    (range 1 26) [].

(** Lines 79-149.  The raw data is the dictionary pooled by the fetcher;
    only its values are read. *)
Definition _parse_raw_leaderboard_data (raw : list (json * json))
  : Exc ParsedLeaderboard :=
  '(lb, sr) <- transpose raw ;;
  let max_score := Z.of_nat (length lb) in
  scored <- foldE (score_star max_score) lb sr ;;
  let sorted_leaderboard :=
    dict_of_items py_eqb
      (sorted (fun a b => tuple_leb (leaderboard_sorting_function b)
                                    (leaderboard_sorting_function a))
              scored) in
  ok {| daily_stats := make_daily_stats sr;
        leaderboard := sorted_leaderboard |}.
End Aggregator.

(* ===================================================================== *)
(** ** The formatter *)

(** [s.rjust(width)] and [s.ljust(width)] with spaces, the padding of the
    format specifications [" >4"], [" >5"] and ["25.25"]. *)
Definition rjust (width : nat) (s : str) : str :=
  repeat 32%N (width - length s) ++ s.

Definition ljust (width : nat) (s : str) : str :=
  s ++ repeat 32%N (width - length s).

(** [AOC_TABLE_TEMPLATE.format(rank=..., name=..., score=..., stars=...)]
    once [rank] is a string or an integer already converted; the name,
    a string, is cut to 25 code points and padded to 25. *)
Definition AOC_TABLE_TEMPLATE (rank name score stars : str) : str :=
  rjust 4 rank ++ u " | " ++ ljust 25 (firstn 25 name) ++ u " | "
  ++ rjust 5 score ++ u " | " ++ stars.

(** The star of the header, U+2B50. *)
Definition star_emoji : N := 11088%N.

Definition HEADER_first_line : str :=
  AOC_TABLE_TEMPLATE [] (u "Name") (u "Score")
    ([star_emoji] ++ u ", " ++ [star_emoji; star_emoji]).

Definition HEADER : str :=
  HEADER_first_line ++ [10%N] ++ repeat 45%N (length HEADER_first_line + 2).

(** The format specification ["25.25"] is for strings: an integer or a
    boolean name raises [ValueError], any other value [TypeError].  (A
    float, which [json] leaves out, would be formatted.) *)
Definition format_name (nm : json) : Exc str :=
  match nm with
  | JStr s => ok s
  | JNum _ | JBool _ => raise ValueError
  | _ => raise TypeError
  end.

(** Lines 157-162: one line of the table. *)
Definition format_entry (rank : nat) (data : LeaderboardEntry) : Exc str :=
  match format_name (name data) with
  | inl e => inl e
  | inr nm =>
      ok (AOC_TABLE_TEMPLATE
            (str_of_Z (Z.of_nat rank)) nm (str_of_Z (score data))
            (u "(" ++ str_of_Z (star_1 data) ++ u ", "
             ++ str_of_Z (star_2 data) ++ u ")"))
  end.

(** Lines 152-165. *)
Definition _format_leaderboard (lb : Leaderboard) : Exc str :=
  match
    foldE (fun leaderboard_lines rank_data =>
             match format_entry (fst rank_data) (snd rank_data) with
             | inl e => inl e
             | inr line => ok (leaderboard_lines ++ [line])
             end)
          [HEADER] (enumerate 1 (map snd lb))
  with
  | inl e => inl e
  | inr leaderboard_lines => ok (join [10%N] leaderboard_lines)
  end.

(** The line boundaries of [str.splitlines]. *)
Definition is_linebreak (c : N) : bool :=
  existsb (N.eqb c) [10; 11; 12; 13; 28; 29; 30; 133; 8232; 8233]%N.

(** [s.splitlines()], with the line being read in [cur]: a boundary ends
    the line, ["\r\n"] is one boundary, and the text after the last
    boundary is a line only when it is not empty. *)
Fixpoint splitlines_from (cur : str) (s : str) : list str :=
  match s with
  | [] => match cur with [] => [] | _ => [cur] end
  | c :: s' =>
      if is_linebreak c then
        cur :: match s' with
               | c' :: s'' =>
                   if ((c =? 13) && (c' =? 10))%N
                   then splitlines_from [] s''
                   else splitlines_from [] s'
               | [] => splitlines_from [] s'
               end
      else splitlines_from (cur ++ [c]) s'
  end.

Definition splitlines (s : str) : list str := splitlines_from [] s.

Definition HEADER_LINES : nat := length (splitlines HEADER).

Definition TOP_LEADERBOARD_LINES (aoc : AdventOfCode) : nat :=
  HEADER_LINES + leaderboard_displayed_members aoc.

(** Lines 246-248. *)
Definition _get_top_leaderboard (aoc : AdventOfCode) (full_leaderboard : str)
  : str :=
  join [10%N] (firstn (TOP_LEADERBOARD_LINES aoc) (splitlines full_leaderboard)).

(* ===================================================================== *)
(** ** The world of the bot *)

(** Modelled from the spec: one entry of [AdventOfCode.leaderboards], a
    board with its primary credential, its join code and the flag that
    switches it to the fallback credential; the class is declared in
    [bot.constants], which is not among the sources.  The identifier of a
    board is its key in that dictionary. *)
Record AdventOfCodeLeaderboard : Type := {
  _session : str;
  join_code : str;
  use_fallback_session : bool
}.

(** Modelled from the spec: the [session] property of a board, the
    fallback credential once the board has been switched to it and its own
    credential before. *)
Definition session (aoc : AdventOfCode) (b : AdventOfCodeLeaderboard) : str :=
  if use_fallback_session b then fallback_session aoc else _session b.

(** What a request hands back inside [async with]: the final URL, the
    status, and what [await resp.json()] returns or raises. *)
Record Response : Type := {
  resp_url : str;
  status : Z;
  resp_json : Exc json
}.

(** A request as issued through [aiohttp.request]. *)
Record Request : Type := {
  req_method : str;
  req_url : str;
  req_session : option str;
  req_data : option str
}.

(** A value kept in a Redis cache. *)
Inductive RedisValue : Type :=
  | RStr (s : str)
  | RInt (n : Z).

(** The mutable state the module works on: the boards of the
    configuration (their flag is assigned to), the three caches of
    [_caches], the time-to-live set on the leaderboard cache, and the
    requests issued so far: the calls of [aiohttp.request], each with the
    URL it asks for. *)
Record World : Type := {
  leaderboards : list (str * AdventOfCodeLeaderboard);
  leaderboard_counts : list (str * Z);
  assigned_leaderboard : list (Z * str);
  leaderboard_cache : list (str * RedisValue);
  leaderboard_cache_ttl : option Z;
  requests : list Request
}.

(** The surroundings: [network k] is what the request number [k] (counted
    from 0) runs into, an exception of the transport or a response, and
    [utcnow k] is [datetime.utcnow().isoformat()] read after [k]
    requests. *)
Record Env : Type := {
  network : nat -> Exc Response;
  utcnow : nat -> str
}.

(** A coroutine: it runs on the world, returns or raises, and leaves the
    world as it was at that point. *)
Definition IO (A : Type) : Type := World -> Exc A * World.

Definition ret {A} (a : A) : IO A := fun w => (ok a, w).
Definition throw {A} (e : exn) : IO A := fun w => (raise e, w).
Definition lift {A} (m : Exc A) : IO A := fun w => (m, w).

Definition bindIO {A B} (m : IO A) (k : A -> IO B) : IO B :=
  fun w =>
    match m w with
    | (inl e, w') => (inl e, w')
    | (inr a, w') => k a w'
    end.

(** [try: ...] with the outcome handed to the [except] and [else]
    clauses. *)
Definition try {A} (m : IO A) : IO (Exc A) :=
  fun w => let (r, w') := m w in (ok r, w').

Definition gets {A} (f : World -> A) : IO A := fun w => (ok (f w), w).
Definition modify (f : World -> World) : IO unit := fun w => (ok tt, f w).

Declare Scope io_scope.
Delimit Scope io_scope with io.
Notation "x <- m ;; k" := (bindIO m (fun x => k))
  (at level 61, m at next level, right associativity) : io_scope.
Notation "m ;;; k" := (bindIO m (fun _ => k))
  (at level 61, right associativity) : io_scope.

(** A [for] loop of a coroutine. *)
Fixpoint forIO {A S} (body : S -> A -> IO S) (s : S) (l : list A) : IO S :=
  match l with
  | [] => ret s
  | a :: l' => bindIO (body s a) (fun s' => forIO body s' l')
  end.

Definition set_leaderboards (f : list (str * AdventOfCodeLeaderboard)
                                 -> list (str * AdventOfCodeLeaderboard))
  : World -> World :=
  fun w =>
    {| leaderboards := f (leaderboards w);
       leaderboard_counts := leaderboard_counts w;
       assigned_leaderboard := assigned_leaderboard w;
       leaderboard_cache := leaderboard_cache w;
       leaderboard_cache_ttl := leaderboard_cache_ttl w;
       requests := requests w |}.

Definition set_leaderboard_counts (f : list (str * Z) -> list (str * Z))
  : World -> World :=
  fun w =>
    {| leaderboards := leaderboards w;
       leaderboard_counts := f (leaderboard_counts w);
       assigned_leaderboard := assigned_leaderboard w;
       leaderboard_cache := leaderboard_cache w;
       leaderboard_cache_ttl := leaderboard_cache_ttl w;
       requests := requests w |}.

Definition set_assigned_leaderboard (f : list (Z * str) -> list (Z * str))
  : World -> World :=
  fun w =>
    {| leaderboards := leaderboards w;
       leaderboard_counts := leaderboard_counts w;
       assigned_leaderboard := f (assigned_leaderboard w);
       leaderboard_cache := leaderboard_cache w;
       leaderboard_cache_ttl := leaderboard_cache_ttl w;
       requests := requests w |}.

Definition set_leaderboard_cache
    (f : list (str * RedisValue) -> list (str * RedisValue)) (ttl : option Z)
  : World -> World :=
  fun w =>
    {| leaderboards := leaderboards w;
       leaderboard_counts := leaderboard_counts w;
       assigned_leaderboard := assigned_leaderboard w;
       leaderboard_cache := f (leaderboard_cache w);
       leaderboard_cache_ttl := ttl;
       requests := requests w |}.

Definition log_request (r : Request) : World -> World :=
  fun w =>
    {| leaderboards := leaderboards w;
       leaderboard_counts := leaderboard_counts w;
       assigned_leaderboard := assigned_leaderboard w;
       leaderboard_cache := leaderboard_cache w;
       leaderboard_cache_ttl := leaderboard_cache_ttl w;
       requests := requests w ++ [r] |}.

(** [aiohttp.request(...)]: the request is issued and meets what the
    network has for it.  A redirect that the client follows inside the
    call is no call of the code: it shows in the [resp_url] of the
    response only. *)
Definition aiohttp_request (env : Env) (r : Request) : IO Response :=
  fun w => (network env (length (requests w)), log_request r w).

(* ===================================================================== *)
(** ** Fetching, uploading and caching *)

Definition PASTE_URL : str := u "https://paste.pythondiscord.com/documents".

Definition RAW_PASTE_URL_TEMPLATE (key : str) : str :=
  u "https://paste.pythondiscord.com/raw/" ++ key.

Definition AOC_API_URL (year : Z) (leaderboard_id : str) : str :=
  u "https://adventofcode.com/" ++ str_of_Z year
  ++ u "/leaderboard/private/view/" ++ leaderboard_id ++ u ".json".

Definition REQUIRED_CACHE_KEYS : list str :=
  [ u "full_leaderboard"; u "top_leaderboard"; u "full_leaderboard_url";
    u "leaderboard_fetched_at"; u "number_of_participants"; u "daily_stats" ].

Fixpoint is_prefix (p s : str) : bool :=
  match p, s with
  | [], _ => true
  | x :: p', y :: s' => N.eqb x y && is_prefix p' s'
  | _ :: _, [] => false
  end.

Fixpoint is_substring (p s : str) : bool :=
  is_prefix p s || match s with [] => false | _ :: s' => is_substring p s' end.

(** [k in j] for a string [k]: a key of a dict, an element of a list, a
    substring of a string; anything else is not iterable. *)
Definition contains (k : str) (j : json) : Exc bool :=
  match j with
  | JObj kv => ok (dict_mem str_eqb k kv)
  | JArr l => ok (existsb (py_eqb (JStr k)) l)
  | JStr s => ok (is_substring k s)
  | _ => raise TypeError
  end.

(** One element of the iterable given to [dict.update]: it has to be a
    sequence of a key and a value. *)
Definition update_pair (d : list (json * json)) (elem : json)
  : Exc (list (json * json)) :=
  match elem with
  | JArr [k; v] =>
      if hashable k then ok (dict_set py_eqb k v d) else raise TypeError
  | JStr [a; b] => ok (dict_set py_eqb (JStr [a]) (JStr [b]) d)
  | JObj [(k1, _); (k2, _)] => ok (dict_set py_eqb (JStr k1) (JStr k2) d)
  | JArr _ | JStr _ | JObj _ => raise ValueError
  | _ => raise TypeError
  end.

(** [d.update(other)]: the items of a dict, or else the pairs of an
    iterable. *)
Definition update_from (other : json) (d : list (json * json))
  : Exc (list (json * json)) :=
  match other with
  | JObj kv =>
      ok (dict_update py_eqb (map (fun kv => (JStr (fst kv), snd kv)) kv) d)
  | JArr l => foldE update_pair d l
  | JStr s => foldE update_pair d (map (fun c => JStr [c]) s)
  | _ => raise TypeError
  end.

Definition quoted (s : str) : str := [34%N] ++ s ++ [34%N].

(** [json.dumps(daily_stats)]; the keys are day numbers, which are
    written as they are. *)
Definition dumps_daily_stats (stats : list (str * DayStats)) : str :=
  u "{"
  ++ join (u ", ")
       (map (fun day_stats =>
               quoted (fst day_stats) ++ u ": {"
               ++ quoted (u "star_one") ++ u ": "
               ++ str_of_Z (star_one (snd day_stats)) ++ u ", "
               ++ quoted (u "star_two") ++ u ": "
               ++ str_of_Z (star_two (snd day_stats)) ++ u "}")
            stats)
  ++ u "}".

(** [leaderboard.use_fallback_session = True] on the board stored under
    [board]. *)
Definition switch_to_fallback (board : str)
    (boards : list (str * AdventOfCodeLeaderboard))
  : list (str * AdventOfCodeLeaderboard) :=
  map (fun kb =>
         if str_eqb board (fst kb)
         then (fst kb, {| _session := _session (snd kb);
                          join_code := join_code (snd kb);
                          use_fallback_session := true |})
         else kb)
      boards.

(** [min(d.items(), key=operator.itemgetter(1))] after a first item: the
    first of the items with the least count. *)
Fixpoint min_item (best : str * Z) (l : list (str * Z)) : str * Z :=
  match l with
  | [] => best
  | x :: l' => min_item (if snd x <? snd best then x else best) l'
  end.

Definition truthy_str (s : str) : bool :=
  match s with [] => false | _ => true end.

Section Coroutines.
Variables (py : Python) (aoc : AdventOfCode) (env : Env).
Local Open Scope io_scope.

(** Lines 168-182; [cookie] is [cookies["session"]]. *)
Definition _leaderboard_request (url : str) (board : str) (cookie : str)
  : IO json :=
  resp <- aiohttp_request env
            {| req_method := u "GET"; req_url := url;
               req_session := Some cookie; req_data := None |} ;;
  if negb (str_eqb (resp_url resp) url) then throw UnexpectedRedirect
  else if negb (status resp =? 200) then throw UnexpectedResponseStatus
  else lift (resp_json resp).

(** [leaderboard.session], read from the board as it is now; the boards
    of the loop are those of the dictionary, so the lookup succeeds. *)
Definition board_session (board : str) : IO str :=
  fun w =>
    match dict_get str_eqb board (leaderboards w) with
    | Some b => (ok (session aoc b), w)
    | None => (raise KeyError, w)
    end.

(** Lines 216-221, the [else] clause of the [try]: the participants of
    the board are counted and pooled. *)
Definition store_participants (board : str)
    (participants : list (json * json)) (raw_data : json)
  : IO (list (json * json)) :=
  board_participants <- lift (getitem raw_data (u "members")) ;;
  n <- lift (len board_participants) ;;
  modify (set_leaderboard_counts (dict_set str_eqb board n)) ;;;
  lift (update_from board_participants participants).

(** Lines 199-224: [for attempt in range(1, 3): ... else: ...] for one
    board; the loop variable is only logged. *)
Fixpoint fetch_attempts (attempts : list Z) (board : str)
    (participants : list (json * json)) : IO (list (json * json)) :=
  match attempts with
  | [] => throw FetchingLeaderboardFailed
  | _ :: later =>
      cookie <- board_session board ;;
      outcome <- try (_leaderboard_request
                        (AOC_API_URL (year aoc) board) board cookie) ;;
      match outcome with
      | inl UnexpectedRedirect =>
          if str_eqb cookie (fallback_session aoc)
          then throw FetchingLeaderboardFailed
          else
            modify (set_leaderboards (switch_to_fallback board)) ;;;
            fetch_attempts later board participants
      | inl e =>
          if is_ClientError e then throw FetchingLeaderboardFailed
          else throw e
      | inr raw_data => store_participants board participants raw_data
      end
  end.

(** Lines 185-227. *)
Definition _fetch_leaderboard_data : IO (list (json * json)) :=
  boards <- gets (fun w => map fst (leaderboards w)) ;;
  forIO (fun participants board =>
           fetch_attempts (range 1 3) board participants)
        [] boards.

(** Lines 230-243; [except Exception] catches whatever [resp.json()]
    raises. *)
Definition _upload_leaderboard (leaderboard : str) : IO str :=
  resp <- aiohttp_request env
            {| req_method := u "POST"; req_url := PASTE_URL;
               req_session := None; req_data := Some leaderboard |} ;;
  match resp_json resp with
  | inl _ => ret []
  | inr resp_json =>
      has_key <- lift (contains (u "key") resp_json) ;;
      if has_key : bool then
        key <- lift (getitem resp_json (u "key")) ;;
        ret (RAW_PASTE_URL_TEMPLATE (py_str py key))
      else ret []
  end.

(** Lines 251-299, one call at a time (the lock of [atomic_transaction]
    is not modelled). *)
Definition fetch_leaderboard (invalidate_cache : bool)
  : IO (list (str * RedisValue)) :=
  cached_leaderboard <- gets leaderboard_cache ;;
  if invalidate_cache
     || existsb (fun key => negb (dict_mem str_eqb key cached_leaderboard))
          REQUIRED_CACHE_KEYS
  then
    raw_leaderboard_data <- _fetch_leaderboard_data ;;
    parsed_leaderboard_data <-
      lift (_parse_raw_leaderboard_data py aoc raw_leaderboard_data) ;;
    let leaderboard := leaderboard parsed_leaderboard_data in
    let number_of_participants := Z.of_nat (length leaderboard) in
    formatted_leaderboard <- lift (_format_leaderboard leaderboard) ;;
    full_leaderboard_url <- _upload_leaderboard formatted_leaderboard ;;
    leaderboard_fetched_at <- gets (fun w => utcnow env (length (requests w))) ;;
    let cached_leaderboard :=
      [ (u "full_leaderboard", RStr formatted_leaderboard);
        (u "top_leaderboard",
         RStr (_get_top_leaderboard aoc formatted_leaderboard));
        (u "full_leaderboard_url", RStr full_leaderboard_url);
        (u "leaderboard_fetched_at", RStr leaderboard_fetched_at);
        (u "number_of_participants", RInt number_of_participants);
        (u "daily_stats",
         RStr (dumps_daily_stats (daily_stats parsed_leaderboard_data))) ] in
    modify (set_leaderboard_cache
              (dict_update str_eqb cached_leaderboard)
              (Some (leaderboard_cache_expiry_seconds aoc))) ;;;
    ret cached_leaderboard
  else ret cached_leaderboard.

(** [current_board_counts.get(board, 0)] *)
Definition count_of (counts : list (str * Z)) (board : str) : Z :=
  match dict_get str_eqb board counts with
  | Some n => n
  | None => 0
  end.

(** [AdventOfCode.leaderboards[board].join_code] *)
Definition join_code_of (board : str) : IO (option str) :=
  fun w =>
    match dict_get str_eqb board (leaderboards w) with
    | Some b => (ok (Some (join_code b)), w)
    | None => (raise KeyError, w)
    end.

(** Lines 364-381: the part of [get_public_join_code] after the sticky
    check; [min] of no item raises [ValueError]. *)
Definition assign_board (author : Z) (current_board_counts : list (str * Z))
  : IO (option str) :=
  current_board_counts <-
    (match current_board_counts with
     | [] => fetch_leaderboard true ;;; gets leaderboard_counts
     | _ => ret current_board_counts
     end) ;;
  match current_board_counts with
  | [] => throw ValueError
  | first :: others =>
      let best_board := fst (min_item first others) in
      if count_of current_board_counts best_board >=? 200 then ret None
      else
        modify (set_assigned_leaderboard (dict_set Z.eqb author best_board)) ;;;
        join_code_of best_board
  end.

(** Lines 330-381; [author] is [author.id]. *)
Definition get_public_join_code (author : Z) : IO (option str) :=
  fetch_leaderboard false ;;;
  previously_assigned_board <-
    gets (fun w => dict_get Z.eqb author (assigned_leaderboard w)) ;;
  current_board_counts <- gets leaderboard_counts ;;
  let current_board_counts :=
    dict_pop str_eqb (staff_leaderboard_id aoc) current_board_counts in
  match previously_assigned_board with
  | Some board =>
      if truthy_str board then
        if count_of current_board_counts board <? 200
        then join_code_of board
        else assign_board author current_board_counts
      else assign_board author current_board_counts
  | None => assign_board author current_board_counts
  end.
End Coroutines.

(* ===================================================================== *)
(** ** Concrete runs *)

(** [int()] on a string made of an optional sign and ASCII digits; other
    strings are refused. *)
Fixpoint decimal_value (s : str) (acc : Z) : option Z :=
  match s with
  | [] => Some acc
  | c :: s' =>
      if ((48 <=? c) && (c <=? 57))%N
      then decimal_value s' (10 * acc + Z.of_N (c - 48))
      else None
  end.

Definition int_of_decimal (s : str) : option Z :=
  match s with
  | [] => None
  | 45%N :: (_ :: _) as d => option_map Z.opp (decimal_value d 0)
  | 43%N :: (_ :: _) as d => decimal_value d 0
  | _ => decimal_value s 0
  end.

(** The runtime of the concrete runs.  It reads plain decimal integers as
    [int()] does, keeps timestamps in their order (a local zone without
    clock changes) and prints lists and dicts as an ellipsis; no run below
    reads another kind of number or prints a list or a dict. *)
Definition plain_runtime : Python :=
  {| int_of_str := int_of_decimal;
     fromtimestamp := fun n => Some n;
     repr := fun _ => u "..." |}.

Definition default_config : AdventOfCode :=
  {| ignored_days := [];
     fallback_session := u "fallback";
     staff_leaderboard_id := u "staff";
     leaderboard_displayed_members := 10;
     leaderboard_cache_expiry_seconds := 1800;
     year := 2020 |}.

(** The example of the specification, as written there. *)
Definition spec_example : list (json * json) :=
  [ (JStr (u "1"),
     JObj [ (u "name", JStr (u "A"));
            (u "completion_day_level",
             JObj [ (u "1", JObj [ (u "1",
                       JObj [ (u "get_star_ts", JStr (u "100")) ]) ]) ]) ]);
    (JStr (u "2"),
     JObj [ (u "name", JStr (u "B"));
            (u "completion_day_level",
             JObj [ (u "1", JObj [ (u "1",
                       JObj [ (u "get_star_ts", JStr (u "200")) ]) ]) ]) ]) ].

(** The same members as the leaderboard API delivers them, each with its
    ["id"]. *)
Definition spec_example_with_ids : list (json * json) :=
  [ (JStr (u "1"),
     JObj [ (u "id", JStr (u "1"));
            (u "name", JStr (u "A"));
            (u "completion_day_level",
             JObj [ (u "1", JObj [ (u "1",
                       JObj [ (u "get_star_ts", JStr (u "100")) ]) ]) ]) ]);
    (JStr (u "2"),
     JObj [ (u "id", JStr (u "2"));
            (u "name", JStr (u "B"));
            (u "completion_day_level",
             JObj [ (u "1", JObj [ (u "1",
                       JObj [ (u "get_star_ts", JStr (u "200")) ]) ]) ]) ]) ].


(** The example with identifiers, where participant 2 has also completed
    the first star of day 2, and a configuration that ignores day 2. *)
Definition spec_example_with_day_2 : list (json * json) :=
  [ (JStr (u "1"),
     JObj [ (u "id", JStr (u "1"));
            (u "name", JStr (u "A"));
            (u "completion_day_level",
             JObj [ (u "1", JObj [ (u "1",
                       JObj [ (u "get_star_ts", JStr (u "100")) ]) ]) ]) ]);
    (JStr (u "2"),
     JObj [ (u "id", JStr (u "2"));
            (u "name", JStr (u "B"));
            (u "completion_day_level",
             JObj [ (u "1", JObj [ (u "1",
                       JObj [ (u "get_star_ts", JStr (u "200")) ]) ]);
                    (u "2", JObj [ (u "1",
                       JObj [ (u "get_star_ts", JStr (u "50")) ]) ]) ]) ]) ].

Definition ignoring_day_2 : AdventOfCode :=
  {| ignored_days := [u "2"];
     fallback_session := u "fallback";
     staff_leaderboard_id := u "staff";
     leaderboard_displayed_members := 10;
     leaderboard_cache_expiry_seconds := 1800;
     year := 2020 |}.

(** What the aggregator returns on it. *)
Definition example_with_day_2_parsed : ParsedLeaderboard :=
  Eval vm_compute in
    match _parse_raw_leaderboard_data plain_runtime ignoring_day_2
            spec_example_with_day_2 with
    | inr parsed => parsed
    | inl _ => {| daily_stats := []; leaderboard := [] |}
    end.

(** A participant whose name holds a line feed. *)
Definition two_line_name_example : list (json * json) :=
  [ (JStr (u "1"),
     JObj [ (u "id", JStr (u "1"));
            (u "name", JStr (u "A" ++ [10%N] ++ u "B"));
            (u "completion_day_level", JObj []) ]) ].

Definition two_line_name_leaderboard : Leaderboard :=
  [ (JStr (u "1"),
     {| name := JStr (u "A" ++ [10%N] ++ u "B");
        score := 0; star_1 := 0; star_2 := 0 |}) ].

(** A world with one board, on its own credential, and a network on
    which every request is redirected to the login page. *)
Definition one_board_world : World :=
  {| leaderboards :=
       [ (u "board",
          {| _session := u "primary"; join_code := u "code";
             use_fallback_session := false |}) ];
     leaderboard_counts := [];
     assigned_leaderboard := [];
     leaderboard_cache := [];
     leaderboard_cache_ttl := None;
     requests := [] |}.

Definition redirecting_network : Env :=
  {| network := fun _ =>
       inr {| resp_url := u "https://adventofcode.com/";
              status := 200;
              resp_json := inl ClientError |};
     utcnow := fun _ => u "2020-12-01T00:00:00" |}.

(** A paste service that answers with the JSON document [null] (what
    [resp.json()] also returns for an empty body), one that answers with
    a key, one that answers with another object, and one whose answer is
    not JSON. *)
Definition paste_answers (answer : Exc json) : Env :=
  {| network := fun _ =>
       inr {| resp_url := PASTE_URL; status := 200; resp_json := answer |};
     utcnow := fun _ => u "2020-12-01T00:00:00" |}.

(** A member record without a name and without completions. *)
Definition member_record (i : Z) : str * json :=
  (str_of_Z i,
   JObj [ (u "id", JStr (str_of_Z i));
          (u "name", JNull);
          (u "completion_day_level", JObj []) ]).

(** The answer of the leaderboard API for a board with [count] members,
    numbered from [first]. *)
Definition board_payload (first count : Z) : json :=
  JObj [ (u "members", JObj (map member_record (range first (first + count)))) ].

(** A world with the staff board and one public board, a complete
    leaderboard cache, no board counts in the cache and no assignment;
    and a network on which the staff board has 1 member, the public board
    200, and the paste service answers with a key. *)
Definition counts_missing_world : World :=
  {| leaderboards :=
       [ (u "staff",
          {| _session := u "staff-session"; join_code := u "staff-code";
             use_fallback_session := false |});
         (u "public",
          {| _session := u "public-session"; join_code := u "public-code";
             use_fallback_session := false |}) ];
     leaderboard_counts := [];
     assigned_leaderboard := [];
     leaderboard_cache := map (fun key => (key, RStr [])) REQUIRED_CACHE_KEYS;
     leaderboard_cache_ttl := Some 1800;
     requests := [] |}.

Definition public_board_full : Env :=
  {| network := fun k =>
       match k with
       | O => inr {| resp_url := AOC_API_URL 2020 (u "staff"); status := 200;
                     resp_json := inr (board_payload 0 1) |}
       | S O => inr {| resp_url := AOC_API_URL 2020 (u "public"); status := 200;
                       resp_json := inr (board_payload 1000 200) |}
       | _ => inr {| resp_url := PASTE_URL; status := 200;
                     resp_json := inr (JObj [ (u "key", JStr (u "abc")) ]) |}
       end;
     utcnow := fun _ => u "2020-12-01T00:00:00" |}.

(** A world in which user 7 has been assigned the public board, which
    has 150 members. *)
Definition assigned_world : World :=
  {| leaderboards :=
       [ (u "staff",
          {| _session := u "staff-session"; join_code := u "staff-code";
             use_fallback_session := false |});
         (u "public",
          {| _session := u "public-session"; join_code := u "public-code";
             use_fallback_session := false |}) ];
     leaderboard_counts := [ (u "staff", 30); (u "public", 150) ];
     assigned_leaderboard := [ (7, u "public") ];
     leaderboard_cache := map (fun key => (key, RStr [])) REQUIRED_CACHE_KEYS;
     leaderboard_cache_ttl := Some 1800;
     requests := [] |}.

(** What the first loop makes of the example with identifiers. *)
Definition example_leaderboard : Leaderboard :=
  [ (JStr (u "1"),
     {| name := JStr (u "A"); score := 0; star_1 := 1; star_2 := 0 |});
    (JStr (u "2"),
     {| name := JStr (u "B"); score := 0; star_1 := 1; star_2 := 0 |}) ].

Definition example_results : list StarResult :=
  [ {| member_id := JStr (u "1"); completion_time := 100 |};
    {| member_id := JStr (u "2"); completion_time := 200 |} ].

(* ===================================================================== *)
(** ** Vocabulary of the statements *)

(** The sum of the scores on a leaderboard. *)
Definition total_score (lb : Leaderboard) : Z :=
  fold_right (fun e acc => score (snd e) + acc) 0 lb.

(** The sum of the points of a list of awards. *)
Definition awarded (awards : list (json * Z)) : Z :=
  fold_right (fun a acc => snd a + acc) 0 awards.

(** Keys that are equal as dictionary keys have the same normal form. *)
Definition key_norm (j : json) : json :=
  match j with
  | JBool b => JNum (if b then 1 else 0)
  | _ => j
  end.

(** The score a leaderboard holds for a participant. *)
Definition score_of (mid : json) (lb : Leaderboard) : option Z :=
  option_map score (dict_get py_eqb mid lb).

(** The order the specification states for the final leaderboard. *)
Definition ranked_before (a b : json * LeaderboardEntry) : Prop :=
  score (snd a) > score (snd b)
  \/ (score (snd a) = score (snd b)
      /\ star_1 (snd a) + star_2 (snd a) >= star_1 (snd b) + star_2 (snd b)).

(** Every participant with a result is on the leaderboard. *)
Definition known_members (lb : Leaderboard) (sr : StarResults) : Prop :=
  Forall (fun g =>
            Forall (fun r => dict_get py_eqb (member_id r) lb <> None) (snd g))
         sr.

(** The keys of a leaderboard are different dictionary keys. *)
Definition distinct_keys (lb : Leaderboard) : Prop :=
  NoDup (map key_norm (map fst lb)).

(** The completions of a member without those on ignored days. *)
Definition counted_days (aoc : AdventOfCode) (completion_day_level : json)
  : json :=
  match completion_day_level with
  | JObj days =>
      JObj (filter (fun d => negb (str_in (fst d) (ignored_days aoc))) days)
  | other => other
  end.

(** A member record without its completions on ignored days: two raw
    inputs that differ only in the completions on ignored days (their
    timestamps, or whether they are there) agree once these are left
    out. *)
Definition without_ignored_days (aoc : AdventOfCode) (member : json) : json :=
  match member with
  | JObj kv =>
      JObj (map (fun field =>
                   if str_eqb (u "completion_day_level") (fst field)
                   then (fst field, counted_days aoc (snd field))
                   else field)
                kv)
  | _ => member
  end.

(** The groups of [star_results] that count for the score. *)
Definition counted (aoc : AdventOfCode) (sr : StarResults) : StarResults :=
  filter (fun g => negb (str_in (fst (fst g)) (ignored_days aoc))) sr.

(** Two leaderboards with the same participants, in the same order, and
    the same score for each. *)
Definition same_scores (lb lb' : Leaderboard) : Prop :=
  Forall2 (fun a b => fst a = fst b /\ score (snd a) = score (snd b)) lb lb'.

(** The completions a member record holds, as (day, star) pairs, whatever
    the day. *)
Definition completions_of (member : json) : list (str * str) :=
  match getitem member (u "completion_day_level") with
  | inr (JObj days) =>
      flat_map (fun day_stars =>
                  match snd day_stars with
                  | JObj stars => map (fun s => (fst day_stars, fst s)) stars
                  | _ => []
                  end)
               days
  | _ => []
  end.

(** How many of the completions are the given star of the given day. *)
Definition count_completions (day star : str) (l : list (str * str)) : Z :=
  Z.of_nat (length (filter (pair_eqb (day, star)) l)).

(** How many of the completions are the given star, of any day. *)
Definition count_stars (star : str) (l : list (str * str)) : Z :=
  Z.of_nat (length (filter (fun c => str_eqb (snd c) star) l)).

(** The count a leaderboard holds for a participant and a star (["1"] for
    the first, the second otherwise); 0 for a participant it does not
    hold. *)
Definition stars_at (which : str) (mid : json) (lb : Leaderboard) : Z :=
  match dict_get py_eqb mid lb with
  | Some e => if str_eqb which (u "1") then star_1 e else star_2 e
  | None => 0
  end.

(** A string without a line boundary. *)
Definition no_linebreak (s : str) : bool :=
  forallb (fun c => negb (is_linebreak c)) s.

(** A name that stays on its line of the table: a string whose first 25
    code points hold no line boundary. *)
Definition one_line_name (nm : json) : bool :=
  match nm with
  | JStr s => no_linebreak (firstn 25 s)
  | _ => true
  end.

(** What [_leaderboard_request] makes of what its request runs into. *)
Definition request_outcome (url : str) (met : Exc Response) : Exc json :=
  match met with
  | inl e => inl e
  | inr resp =>
      if negb (str_eqb (resp_url resp) url) then inl UnexpectedRedirect
      else if negb (status resp =? 200) then inl UnexpectedResponseStatus
      else resp_json resp
  end.

(** The request for a board with a session cookie. *)
Definition board_request (aoc : AdventOfCode) (board cookie : str) : Request :=
  {| req_method := u "GET"; req_url := AOC_API_URL (year aoc) board;
     req_session := Some cookie; req_data := None |}.

(** The leaderboard cache holds every required key, so that
    [fetch_leaderboard()] answers from it. *)
Definition cache_complete (w : World) : Prop :=
  existsb (fun key => negb (dict_mem str_eqb key (leaderboard_cache w)))
          REQUIRED_CACHE_KEYS = false.

(** A coroutine that leaves the board assignments as they are, however it
    ends. *)
Definition keeps_assignments {A} (m : IO A) : Prop :=
  forall w r w', m w = (r, w') ->
    assigned_leaderboard w' = assigned_leaderboard w.

(** The states of the first loop on an input and on the input without its
    ignored days. *)
Definition agree (aoc : AdventOfCode) (st st' : Leaderboard * StarResults)
  : Prop :=
  same_scores (fst st) (fst st') /\ snd st' = counted aoc (snd st).

(** What the first loop of the aggregator keeps true. *)
Definition transposed (st : Leaderboard * StarResults) : Prop :=
  known_members (fst st) (snd st) /\ distinct_keys (fst st).

(* ===================================================================== *)
(** ** Vocabulary of the further statements *)

(** A coroutine that takes a world only to worlds in the relation [R] to
    it, however it ends. *)
Definition evolves {A} (R : World -> World -> Prop) (m : IO A) : Prop :=
  forall w r w', m w = (r, w') -> R w w'.

(** The boards of the second world are those of the first, with the same
    credentials and join codes, and with every fallback flag that was set
    still set. *)
Definition same_boards (w w' : World) : Prop :=
  Forall2 (fun kb kb' =>
             fst kb = fst kb'
             /\ _session (snd kb) = _session (snd kb')
             /\ join_code (snd kb) = join_code (snd kb')
             /\ (use_fallback_session (snd kb) = true ->
                 use_fallback_session (snd kb') = true))
          (leaderboards w) (leaderboards w').

(** The leaderboard cache and its time-to-live are the same. *)
Definition same_cache (w w' : World) : Prop :=
  leaderboard_cache w' = leaderboard_cache w
  /\ leaderboard_cache_ttl w' = leaderboard_cache_ttl w.

(** Every board with a count in the first world has one in the second. *)
Definition counts_kept (w w' : World) : Prop :=
  forall board,
    dict_get str_eqb board (leaderboard_counts w) <> None ->
    dict_get str_eqb board (leaderboard_counts w') <> None.

(** A coroutine that issues at most [n] requests, however it ends, and
    takes none back. *)
Definition issues_at_most {A} (n : nat) (m : IO A) : Prop :=
  forall w r w', m w = (r, w') ->
    exists issued,
      requests w' = requests w ++ issued /\ (length issued <= n)%nat.

(** A network on which the own credential of the board has expired: the
    first request is redirected to the login page, the second is answered
    with three members, and the paste service answers with a key. *)
Definition expired_primary : Env :=
  {| network := fun k =>
       match k with
       | O => inr {| resp_url := u "https://adventofcode.com/"; status := 200;
                     resp_json := inl ClientError |}
       | S O => inr {| resp_url := AOC_API_URL 2020 (u "board"); status := 200;
                       resp_json := inr (board_payload 0 3) |}
       | _ => inr {| resp_url := PASTE_URL; status := 200;
                     resp_json := inr (JObj [ (u "key", JStr (u "abc")) ]) |}
       end;
     utcnow := fun _ => u "2020-12-01T00:00:00" |}.

(** A completion the aggregator takes: the star is ["1"] or ["2"], and
    its data is an object whose ["get_star_ts"] is converted by [int()] to
    a number that [fromtimestamp] takes. *)
Definition accepted_star (py : Python) (star_data : str * json) : bool :=
  (str_eqb (fst star_data) (u "1") || str_eqb (fst star_data) (u "2"))
  && match getitem (snd star_data) (u "get_star_ts") with
     | inr ts =>
         match py_int py ts with
         | inr n =>
             match fromtimestamp py n with
             | Some _ => true
             | None => false
             end
         | inl _ => false
         end
     | inl _ => false
     end.

(** A day the aggregator takes: an object of completions it takes. *)
Definition accepted_day (py : Python) (day_stars : str * json) : bool :=
  match snd day_stars with
  | JObj stars => forallb (accepted_star py) stars
  | _ => false
  end.

(** A record the aggregator takes: an object with a ["name"], with an
    ["id"] that can be a dictionary key, and with a
    ["completion_day_level"] that is an object of days it takes. *)
Definition accepted_member (py : Python) (member : json) : bool :=
  match getitem member (u "name") with
  | inr _ =>
      match getitem member (u "id") with
      | inr mid =>
          match getitem member (u "completion_day_level") with
          | inr (JObj days) => hashable mid && forallb (accepted_day py) days
          | _ => false
          end
      | inl _ => false
      end
  | inl _ => false
  end.

(** An entry whose sort key, its score and its number of stars, is the
    given one. *)
Definition tied_with (k : Z * Z) (entry : json * LeaderboardEntry) : bool :=
  (fst (leaderboard_sorting_function entry) =? fst k)
  && (snd (leaderboard_sorting_function entry) =? snd k).

(** [datetime.timedelta(days=1)], in microseconds. *)
Definition one_day : Z := 86400 * 1000000.

(** Lines 395-409.  [EST] is a zone with a fixed offset, without clock
    changes, so a [datetime] of that zone is given by the microseconds
    between a midnight of the zone and it, and a [timedelta] by its
    microseconds; [replace(microsecond=0, second=0, minute=0, hour=0)]
    goes back to the midnight of the day.  [first_now] and [second_now]
    are what the two calls of [datetime.datetime.now(EST)] return. *)
Definition time_left_to_aoc_midnight (first_now second_now : Z) : Z * Z :=
  let todays_midnight := first_now - first_now mod one_day in
  let tomorrow := todays_midnight + one_day in
  (tomorrow, tomorrow - second_now).

(** A request to the leaderboard API for a board of the given world, with
    a credential of that board: its own, or the fallback credential. *)
Definition board_credential_request (aoc : AdventOfCode) (w : World)
    (q : Request) : Prop :=
  exists board b,
    dict_get str_eqb board (leaderboards w) = Some b
    /\ (q = board_request aoc board (_session b)
        \/ q = board_request aoc board (fallback_session aoc)).

(** The upload of a table to the paste service, without a credential. *)
Definition paste_request (q : Request) : Prop :=
  exists table,
    q = {| req_method := u "POST"; req_url := PASTE_URL;
           req_session := None; req_data := Some table |}.

(** A world in which user 7 is still assigned to a board that has left
    the configuration. *)
Definition stale_assignment_world : World :=
  {| leaderboards := leaderboards assigned_world;
     leaderboard_counts := leaderboard_counts assigned_world;
     assigned_leaderboard := [ (7, u "retired") ];
     leaderboard_cache := leaderboard_cache assigned_world;
     leaderboard_cache_ttl := leaderboard_cache_ttl assigned_world;
     requests := [] |}.

(** ** The summary embed *)

(** The methods [get_summary_embed] calls on the embed it has built, with
    their arguments. *)
Inductive EmbedCall : Type :=
  | add_field (field_name : str) (field_value : RedisValue) (inline : bool)
  | set_author (author_name : str) (author_url : RedisValue)
  | set_footer (text : str)
  | set_thumbnail (thumbnail_url : str).

(** A [discord.Embed] as the code makes it: the arguments of the
    constructor and the calls made on it, in their order. *)
Record Embed : Type := {
  colour : Z;
  timestamp : Z;
  description : str;
  calls : list EmbedCall
}.

(** Truth value and [str()] of a cached value. *)
Definition redis_truthy (v : RedisValue) : bool :=
  match v with
  | RStr s => truthy_str s
  | RInt n => negb (n =? 0)
  end.

Definition redis_str (v : RedisValue) : str :=
  match v with
  | RStr s => s
  | RInt n => str_of_Z n
  end.

Definition AOC_EMBED_THUMBNAIL : str :=
  u "https://raw.githubusercontent.com/python-discord"
  ++ u "/branding/master/seasonal/christmas/server_icons/festive_256.gif".

(** Lines 302-327.  [soft_green] is [Colours.soft_green], a constant of
    [bot.constants], and [fromisoformat s] is
    [datetime.datetime.fromisoformat(s)] on a string, a point on the time
    line or [None] for [ValueError]; a value that is not a string is
    refused with [TypeError].  Both are parameters. *)
Definition get_summary_embed (soft_green : Z) (fromisoformat : str -> option Z)
    (aoc : AdventOfCode) (leaderboard : list (str * RedisValue))
  : Exc Embed :=
  (leaderboard_url <-
     dict_getitem str_eqb (u "full_leaderboard_url") leaderboard ;;
   let refresh_minutes := leaderboard_cache_expiry_seconds aoc / 60 in
   fetched_at <-
     dict_getitem str_eqb (u "leaderboard_fetched_at") leaderboard ;;
   fetched <- match fetched_at with
              | RStr s =>
                  match fromisoformat s with
                  | Some t => ok t
                  | None => raise ValueError
                  end
              | RInt _ => raise TypeError
              end ;;
   number_of_participants <-
     dict_getitem str_eqb (u "number_of_participants") leaderboard ;;
   ok {| colour := soft_green;
         timestamp := fetched;
         description :=
           u "*The leaderboard is refreshed every "
           ++ str_of_Z refresh_minutes ++ u " minutes.*";
         calls :=
           [ add_field (u "Number of Participants") number_of_participants
               true ]
           ++ (if redis_truthy leaderboard_url
               then [ add_field (u "Full Leaderboard")
                        (RStr (u "[Python Discord Leaderboard]("
                               ++ redis_str leaderboard_url ++ u ")"))
                        true ]
               else [])
           ++ [ set_author (u "Advent of Code") leaderboard_url;
                set_footer (u "Last Updated");
                set_thumbnail AOC_EMBED_THUMBNAIL ] |})%exc.

(** A coroutine that raises only exceptions with the property [P]. *)
Definition raises_only {A} (P : exn -> Prop) (m : IO A) : Prop :=
  forall w e w', m w = (inl e, w') -> P e.


(** [member["id"]] of a record that has one. *)
Definition id_of (member : json) : json :=
  match getitem member (u "id") with
  | inr mid => mid
  | inl _ => JNull
  end.

(** The keys of a list of keys, each where it first occurs: keys that are
    equal as dictionary keys count as one. *)
Definition first_occurrences (keys : list json) : list json :=
  fold_left (fun seen k =>
               if existsb (py_eqb k) seen then seen else seen ++ [k])
            keys [].

(* ===================================================================== *)
(** * Properties *)

(** ** Strings and keys *)

#[local] Arguments u : simpl never.

Lemma str_eqb_eq (a b : str) : str_eqb a b = true <-> a = b.
Proof.
  revert b; induction a as [|x a IH]; intros [|y b]; simpl;
    try (split; intro; congruence).
  rewrite andb_true_iff, N.eqb_eq, IH.
  split; [intros [-> ->]; reflexivity | intros H; inversion H; auto].
Qed.

Lemma str_eqb_refl (a : str) : str_eqb a a = true.
Proof. apply str_eqb_eq; reflexivity. Qed.

Lemma str_eqb_neq (a b : str) : str_eqb a b = false <-> a <> b.
Proof.
  rewrite <- str_eqb_eq. destruct (str_eqb a b); split; congruence.
Qed.

Lemma str_eqb_sym (a b : str) : str_eqb a b = str_eqb b a.
Proof.
  destruct (str_eqb a b) eqn:E.
  - apply str_eqb_eq in E; subst; symmetry; apply str_eqb_refl.
  - symmetry; apply str_eqb_neq; apply str_eqb_neq in E; congruence.
Qed.

Lemma pair_eqb_eq (a b : str * str) : pair_eqb a b = true <-> a = b.
Proof.
  destruct a as [a1 a2], b as [b1 b2]; unfold pair_eqb; simpl.
  rewrite andb_true_iff, !str_eqb_eq.
  split; [intros [-> ->]; reflexivity | intros H; inversion H; auto].
Qed.

Lemma py_eqb_sym (a b : json) : py_eqb a b = py_eqb b a.
Proof.
  destruct a, b; simpl; auto using str_eqb_sym, Z.eqb_sym.
Qed.

Lemma py_eqb_refl (a : json) : hashable a = true -> py_eqb a a = true.
Proof.
  destruct a; simpl; intros; try discriminate;
    auto using str_eqb_refl, Z.eqb_refl.
Qed.

Lemma py_eqb_norm (a b : json) : py_eqb a b = true -> key_norm a = key_norm b.
Proof.
  destruct a as [|x|x|x|x|x], b as [|y|y|y|y|y]; simpl;
    try discriminate; auto;
    try (intros H; apply Z.eqb_eq in H; congruence).
  intros H; apply str_eqb_eq in H; congruence.
Qed.

Lemma norm_py_eqb (a b : json) :
  hashable a = true -> key_norm a = key_norm b -> py_eqb a b = true.
Proof.
  destruct a as [|x|x|x|x|x], b as [|y|y|y|y|y]; simpl;
    try discriminate; auto; intros _ H; inversion H; subst;
    auto using Z.eqb_refl, str_eqb_refl.
Qed.

(** ** Loops *)

Lemma foldE_app {A S} (body : S -> A -> Exc S) (s : S) (l1 l2 : list A) :
  foldE body s (l1 ++ l2) =
  match foldE body s l1 with
  | inl e => inl e
  | inr s' => foldE body s' l2
  end.
Proof.
  revert s; induction l1 as [|a l1 IH]; intros s; simpl; [reflexivity|].
  destruct (body s a); auto.
Qed.

(** An invariant of the body of a loop holds after the loop. *)
Lemma foldE_invariant {A S} (P : S -> Prop) (body : S -> A -> Exc S)
    (l : list A) :
  (forall s a s', In a l -> P s -> body s a = inr s' -> P s') ->
  forall s s', P s -> foldE body s l = inr s' -> P s'.
Proof.
  induction l as [|a l IH]; simpl; intros Hstep s s' Hs Hrun.
  - inversion Hrun; subst; assumption.
  - destruct (body s a) as [e|s1] eqn:E; [discriminate|].
    apply IH with (s := s1); eauto.
Qed.

(** ** Dictionaries *)

Section DictFacts.
Variables (K V : Type) (eqb : K -> K -> bool).
Implicit Types (d : dict K V) (k : K) (v : V).

Lemma dict_get_app k d1 d2 :
  dict_get eqb k (d1 ++ d2) =
  match dict_get eqb k d1 with
  | Some v => Some v
  | None => dict_get eqb k d2
  end.
Proof.
  induction d1 as [|[k' v'] d1 IH]; simpl; [reflexivity|].
  destruct (eqb k k'); auto.
Qed.

Lemma dict_get_None k d :
  dict_get eqb k d = None <-> Forall (fun kv => eqb k (fst kv) = false) d.
Proof.
  induction d as [|[k' v'] d IH]; simpl.
  - split; auto.
  - destruct (eqb k k') eqn:E; split; intros H.
    + discriminate.
    + inversion H; subst; simpl in *; congruence.
    + constructor; [assumption | apply IH, H].
    + inversion H; subst; apply IH; assumption.
Qed.

Lemma dict_set_fresh k v d :
  dict_get eqb k d = None -> dict_set eqb k v d = d ++ [(k, v)].
Proof.
  induction d as [|[k' v'] d IH]; simpl; [reflexivity|].
  destruct (eqb k k'); [discriminate|].
  intros H; rewrite IH; auto.
Qed.

Lemma dict_set_keys_found k v d :
  dict_get eqb k d <> None -> map fst (dict_set eqb k v d) = map fst d.
Proof.
  induction d as [|[k' v'] d IH]; simpl; [congruence|].
  destruct (eqb k k'); simpl; [reflexivity|].
  intros H; rewrite IH; auto.
Qed.

Lemma dict_modify_keys k f d d' :
  dict_modify eqb k f d = inr d' -> map fst d' = map fst d.
Proof.
  revert d'; induction d as [|[k' v'] d IH]; simpl; intros d' H.
  - discriminate.
  - destruct (eqb k k').
    + destruct (f v'); inversion H; reflexivity.
    + destruct (dict_modify eqb k f d); inversion H; subst; simpl.
      rewrite IH; reflexivity.
Qed.

(** Updating the value of a key that is present succeeds when the update
    does. *)
Lemma dict_modify_succeeds k f d :
  dict_get eqb k d <> None -> (forall v, exists v', f v = inr v') ->
  exists d', dict_modify eqb k f d = inr d'.
Proof.
  intros Hk Hf; induction d as [|[k' v'] d IH]; simpl in *; [congruence|].
  destruct (eqb k k').
  - destruct (Hf v') as [v'' ->]; eauto.
  - destruct (IH Hk) as [d' ->]; eauto.
Qed.

(** Items whose keys are new, each for the items before it, are kept as
    they are by [dict.update]. *)
Lemma dict_update_fresh (l : list (K * V)) : forall d,
  (forall l1 kv l2, l = l1 ++ kv :: l2 ->
     dict_get eqb (fst kv) (d ++ l1) = None) ->
  dict_update eqb l d = d ++ l.
Proof.
  unfold dict_update.
  induction l as [|[k v] l IH]; intros d H; simpl.
  - symmetry; apply app_nil_r.
  - rewrite dict_set_fresh.
    + rewrite IH; [rewrite <- app_assoc; reflexivity|].
      intros l1 kv l2 E. rewrite <- app_assoc; simpl.
      apply (H ((k, v) :: l1) kv l2). rewrite E; reflexivity.
    + specialize (H [] (k, v) l eq_refl). rewrite app_nil_r in H. exact H.
Qed.
End DictFacts.

Lemma dict_get_keys {K V W} (eqb : K -> K -> bool) (k : K)
    (d : dict K V) (d' : dict K W) :
  map fst d = map fst d' ->
  (dict_get eqb k d = None <-> dict_get eqb k d' = None).
Proof.
  revert d'; induction d as [|[k1 v1] d IH]; intros [|[k2 v2] d'] E;
    simpl in *; try discriminate; [tauto|].
  inversion E; subst. destruct (eqb k k2); [split; discriminate | auto].
Qed.

Lemma dict_modify_present {K V} (eqb : K -> K -> bool) k f
    (d d' : dict K V) :
  dict_modify eqb k f d = inr d' -> dict_get eqb k d <> None.
Proof.
  revert d'; induction d as [|[k' v'] d IH]; simpl; intros d' H.
  - discriminate.
  - destruct (eqb k k'); [discriminate|].
    destruct (dict_modify eqb k f d) eqn:E; [discriminate|]. eauto.
Qed.

Lemma dict_set_present {K V} (eqb : K -> K -> bool) k k' v (d : dict K V) :
  dict_get eqb k d <> None -> dict_get eqb k (dict_set eqb k' v d) <> None.
Proof.
  induction d as [|[k1 v1] d IH]; simpl; [congruence|].
  destruct (eqb k' k1) eqn:E1; simpl; destruct (eqb k k1); auto; discriminate.
Qed.

Lemma dict_set_self_present {K V} (eqb : K -> K -> bool) k v (d : dict K V) :
  eqb k k = true -> dict_get eqb k (dict_set eqb k v d) <> None.
Proof.
  intros Hk; induction d as [|[k1 v1] d IH]; simpl.
  - rewrite Hk; discriminate.
  - destruct (eqb k k1) eqn:E1; simpl; rewrite E1; [discriminate | assumption].
Qed.

(** ** Sorting *)

Section SortingFacts.
Variables (A : Type) (before : A -> A -> bool).

Lemma insert_sorted_perm (x : A) (l : list A) :
  Permutation (insert_sorted before x l) (x :: l).
Proof.
  induction l as [|y l IH]; simpl; [reflexivity|].
  destruct (before x y); [reflexivity|].
  rewrite IH; apply perm_swap.
Qed.

Lemma sorted_perm (l : list A) : Permutation (sorted before l) l.
Proof.
  induction l as [|x l IH]; simpl; [reflexivity|].
  rewrite insert_sorted_perm; constructor; assumption.
Qed.

Lemma sorted_length (l : list A) : length (sorted before l) = length l.
Proof. apply Permutation_length, sorted_perm. Qed.

(** When any two elements can be put in one of the two orders, the
    result of the sort is in order. *)
Variable R : A -> A -> Prop.
Hypothesis before_R : forall x y, before x y = true -> R x y.
Hypothesis not_before_R : forall x y, before x y = false -> R y x.

Lemma insert_sorted_Sorted (x : A) (l : list A) :
  Sorted R l -> Sorted R (insert_sorted before x l).
Proof.
  induction l as [|y l IH]; simpl; intros Hl.
  - repeat constructor.
  - destruct (before x y) eqn:E.
    + constructor; [assumption | constructor; auto].
    + inversion Hl as [|? ? Hl' Hhd]; subst.
      constructor; [auto|].
      destruct l as [|z l]; simpl.
      * constructor; auto.
      * destruct (before x z); constructor; auto.
        inversion Hhd; assumption.
Qed.

Lemma sorted_Sorted (l : list A) : Sorted R (sorted before l).
Proof.
  induction l as [|x l IH]; simpl; [constructor|].
  apply insert_sorted_Sorted; assumption.
Qed.
End SortingFacts.

(** ** The points of a star *)

Lemma awarded_enumerate (max_score : Z) (l : list StarResult) :
  forall start,
    2 * awarded
          (map (fun rank_result =>
                  (member_id (snd rank_result),
                   max_score - Z.of_nat (fst rank_result)))
               (enumerate start l)) =
    let n := Z.of_nat (length l) in
    2 * n * max_score - 2 * n * Z.of_nat start - n * (n - 1).
Proof.
  induction l as [|a l IH]; intros start.
  - reflexivity.
  - cbn [enumerate map awarded fold_right snd fst length].
    fold (awarded
            (map (fun rank_result =>
                    (member_id (snd rank_result),
                     max_score - Z.of_nat (fst rank_result)))
                 (enumerate (S start) l))).
    specialize (IH (S start)). cbv zeta in *. nia.
Qed.

Lemma awarded_star_awards (max_score : Z) (results : list StarResult) :
  let n := Z.of_nat (length results) in
  awarded (star_awards max_score results) = n * max_score - n * (n - 1) / 2.
Proof.
  intros n. unfold star_awards.
  pose proof (awarded_enumerate max_score
                (sorted (fun a b => completion_time a <=? completion_time b)
                        results) 0%nat) as H.
  cbv zeta in H. rewrite sorted_length in H. fold n in H.
  set (s := awarded _) in *.
  assert (E : n * (n - 1) = (n * max_score - s) * 2) by lia.
  rewrite E, Z.div_mul by lia. lia.
Qed.

Lemma add_score_total k points (lb lb' : Leaderboard) :
  dict_modify py_eqb k (add_score points) lb = inr lb' ->
  total_score lb' = total_score lb + points.
Proof.
  revert lb'; induction lb as [|[k' e] lb IH]; simpl; intros lb' H.
  - discriminate.
  - destruct (py_eqb k k').
    + inversion H; subst; simpl. lia.
    + destruct (dict_modify py_eqb k (add_score points) lb) eqn:E;
        inversion H; subst; simpl.
      rewrite (IH _ eq_refl). lia.
Qed.

(** Handing out a list of awards to participants that are all on the
    leaderboard returns a leaderboard with the same keys, whose total has
    grown by the points handed out. *)
Lemma hand_out_awards (awards : list (json * Z)) : forall (lb : Leaderboard),
  Forall (fun a => dict_get py_eqb (fst a) lb <> None) awards ->
  exists lb',
    foldE (fun lb award =>
             dict_modify py_eqb (fst award) (add_score (snd award)) lb)
          lb awards = inr lb'
    /\ map fst lb' = map fst lb
    /\ total_score lb' = total_score lb + awarded awards.
Proof.
  induction awards as [|[k p] awards IH]; intros lb Hall; simpl.
  - exists lb; repeat split; lia.
  - inversion Hall as [|? ? Hk Hrest]; subst; simpl in *.
    destruct (dict_modify_succeeds py_eqb k (add_score p) lb Hk) as [lb1 E1].
    { intros v; eexists; reflexivity. }
    rewrite E1.
    destruct (IH lb1) as (lb' & Hrun & Hkeys & Htot).
    { eapply Forall_impl; [|exact Hrest]. intros a Ha; simpl in *.
      intros Hnone; apply Ha.
      apply (dict_get_keys py_eqb (fst a) lb1 lb); auto.
      eapply dict_modify_keys; eauto. }
    exists lb'; repeat split; auto.
    + rewrite Hkeys. eapply dict_modify_keys; eauto.
    + rewrite Htot, (add_score_total _ _ _ E1). lia.
Qed.

(** ** Invariants of the transposition *)

Lemma bindE_inr {A B} (m : Exc A) (k : A -> Exc B) (b : B) :
  bindE m k = inr b -> exists a, m = inr a /\ k a = inr b.
Proof. destruct m as [e|a]; simpl; [discriminate | eauto]. Qed.

(** Takes the first step of a computation that returned. *)
Ltac bind_ok H :=
  let x := fresh "x" in
  let E := fresh "E" in
  apply bindE_inr in H; destruct H as (x & E & H).

Lemma known_members_keys (lb lb' : Leaderboard) (sr : StarResults) :
  map fst lb' = map fst lb -> known_members lb sr -> known_members lb' sr.
Proof.
  intros Hk H. unfold known_members in *.
  eapply Forall_impl; [|exact H]. intros g Hg.
  eapply Forall_impl; [|exact Hg]. intros r Hr Hnone; apply Hr.
  apply (dict_get_keys py_eqb (member_id r) lb' lb); auto.
Qed.

Lemma known_members_append (lb : Leaderboard) key r (sr : StarResults) :
  dict_get py_eqb (member_id r) lb <> None ->
  known_members lb sr -> known_members lb (defaultdict_append key r sr).
Proof.
  intros Hr. unfold known_members.
  induction sr as [|[k l] sr IH]; simpl; intros H.
  - repeat constructor; assumption.
  - inversion H; subst; simpl in *.
    destruct (pair_eqb key k); constructor; simpl; auto.
    apply Forall_app; split; auto.
Qed.

Lemma distinct_keys_set mid e (lb : Leaderboard) :
  hashable mid = true -> distinct_keys lb ->
  distinct_keys (dict_set py_eqb mid e lb).
Proof.
  intros Hh Hd. unfold distinct_keys in *.
  destruct (dict_get py_eqb mid lb) eqn:E.
  - rewrite dict_set_keys_found; [assumption | congruence].
  - rewrite dict_set_fresh by assumption.
    rewrite !map_app; simpl.
    apply dict_get_None in E.
    apply NoDup_rev in Hd. rewrite <- (rev_involutive (_ ++ _)).
    apply NoDup_rev. rewrite rev_app_distr; simpl.
    constructor; [|assumption].
    rewrite <- in_rev, in_map_iff. intros (k & Hk & Hin).
    apply in_map_iff in Hin. destruct Hin as ([k' e'] & <- & Hin).
    rewrite Forall_forall in E. specialize (E _ Hin); simpl in *.
    rewrite norm_py_eqb in E; [discriminate | assumption | congruence].
Qed.

Section TransposeFacts.
Variable py : Python.

Lemma record_star_transposed mid day st star_data st' :
  transposed st -> record_star py mid day st star_data = inr st' ->
  transposed st'.
Proof.
  destruct st as [lb sr], star_data as [star data]; unfold record_star.
  intros [Hk Hd] H. bind_ok H. bind_ok H. bind_ok H.
  destruct (fromtimestamp py x1); inversion H; subst; clear H.
  pose proof (dict_modify_keys _ _ _ _ E) as Hkeys.
  split; simpl in *.
  - apply known_members_append; simpl.
    + intros Hnone. eapply dict_modify_present; [exact E|].
      apply (dict_get_keys py_eqb mid x lb); auto.
    + eapply known_members_keys; eauto.
  - unfold distinct_keys in *. rewrite Hkeys; assumption.
Qed.

Lemma record_day_transposed mid st day_stars st' :
  transposed st -> record_day py mid st day_stars = inr st' -> transposed st'.
Proof.
  destruct day_stars as [day stars]; unfold record_day.
  intros Hst H. bind_ok H.
  eapply foldE_invariant; [| exact Hst | exact H].
  intros s a s' _ Hs Hrun. eapply record_star_transposed; eauto.
Qed.

Lemma record_member_transposed st member st' :
  transposed st -> record_member py st member = inr st' -> transposed st'.
Proof.
  destruct st as [lb sr]; unfold record_member.
  intros [Hk Hd] H. bind_ok H. bind_ok H. bind_ok H.
  destruct (hashable x1) eqn:Hh; [|discriminate].
  bind_ok H. bind_ok H.
  eapply foldE_invariant; [| | exact H].
  - intros s a s' _ Hs Hrun. eapply record_day_transposed; eauto.
  - split; simpl in *.
    + unfold known_members in *.
      eapply Forall_impl; [|exact Hk]. intros g Hg.
      eapply Forall_impl; [|exact Hg]. intros r Hr.
      apply dict_set_present; assumption.
    + apply distinct_keys_set; assumption.
Qed.

Lemma transpose_transposed raw st :
  transpose py raw = inr st -> transposed st.
Proof.
  unfold transpose. intros H.
  eapply foldE_invariant; [| | exact H].
  - intros s a s' _ Hs Hrun. eapply record_member_transposed; eauto.
  - split; simpl; constructor.
Qed.
End TransposeFacts.

(** ** The scoring loop *)

Lemma enumerate_In {A} (l : list A) : forall start i a,
  In (i, a) (enumerate start l) -> In a l.
Proof.
  induction l as [|x l IH]; simpl; intros start i a H; [assumption|].
  destruct H as [H|H]; [inversion H; auto | eauto].
Qed.

Lemma star_awards_known (lb : Leaderboard) max_score results :
  Forall (fun r => dict_get py_eqb (member_id r) lb <> None) results ->
  Forall (fun a => dict_get py_eqb (fst a) lb <> None)
         (star_awards max_score results).
Proof.
  intros H. apply Forall_forall. intros a Ha.
  unfold star_awards in Ha. apply in_map_iff in Ha.
  destruct Ha as ([i r] & <- & Hin); simpl.
  apply enumerate_In in Hin.
  apply (Permutation_in _ (sorted_perm _ results)) in Hin.
  rewrite Forall_forall in H; auto.
Qed.

Lemma score_star_keys aoc max_score lb group lb' :
  score_star aoc max_score lb group = inr lb' -> map fst lb' = map fst lb.
Proof.
  destruct group as [[day star] results]; unfold score_star.
  destruct (str_in day (ignored_days aoc)).
  - intros H; inversion H; reflexivity.
  - intros H.
    apply (foldE_invariant (fun s => map fst s = map fst lb)) in H; auto.
    intros s a s' _ Hs Hrun. rewrite <- Hs.
    eapply dict_modify_keys; eauto.
Qed.

Lemma score_loop_keys aoc max_score sr lb lb' :
  foldE (score_star aoc max_score) lb sr = inr lb' ->
  map fst lb' = map fst lb.
Proof.
  intros H.
  apply (foldE_invariant (fun s => map fst s = map fst lb)) in H; auto.
  intros s a s' _ Hs Hrun. rewrite <- Hs.
  eapply score_star_keys; eauto.
Qed.

Lemma dict_of_items_distinct (l : Leaderboard) :
  distinct_keys l -> dict_of_items py_eqb l = l.
Proof.
  intros Hd. unfold dict_of_items.
  rewrite dict_update_fresh; [reflexivity|].
  intros l1 [k e] l2 E; simpl.
  apply dict_get_None, Forall_forall. intros [k' e'] Hin; simpl.
  destruct (py_eqb k k') eqn:Ek; [exfalso | reflexivity].
  unfold distinct_keys in Hd. rewrite E, !map_app in Hd; simpl in Hd.
  apply NoDup_remove_2 in Hd. apply Hd, in_or_app; left.
  rewrite (py_eqb_norm _ _ Ek).
  apply in_map, (in_map fst _ _ Hin).
Qed.

Lemma distinct_keys_perm (l l' : Leaderboard) :
  Permutation l l' -> distinct_keys l -> distinct_keys l'.
Proof.
  intros Hp. unfold distinct_keys.
  apply Permutation_NoDup. do 2 apply Permutation_map. assumption.
Qed.

Lemma distinct_keys_same (l l' : Leaderboard) :
  map fst l' = map fst l -> distinct_keys l -> distinct_keys l'.
Proof. unfold distinct_keys; intros ->; auto. Qed.

(** The three stages of the aggregator, for a run that returns. *)
Lemma parse_stages py aoc raw parsed :
  _parse_raw_leaderboard_data py aoc raw = inr parsed ->
  exists lb sr scored,
    transpose py raw = inr (lb, sr)
    /\ foldE (score_star aoc (Z.of_nat (length lb))) lb sr = inr scored
    /\ daily_stats parsed = make_daily_stats sr
    /\ leaderboard parsed =
         sorted (fun a b => tuple_leb (leaderboard_sorting_function b)
                                      (leaderboard_sorting_function a))
                scored
    /\ distinct_keys scored.
Proof.
  unfold _parse_raw_leaderboard_data. intros H.
  bind_ok H. destruct x as [lb sr]. bind_ok H.
  inversion H; subst; clear H; simpl.
  exists lb, sr, x. repeat split; auto.
  - apply dict_of_items_distinct.
    eapply distinct_keys_perm; [apply Permutation_sym, sorted_perm|].
    eapply distinct_keys_same; [eapply score_loop_keys; eauto|].
    apply (transpose_transposed _ _ E).
  - eapply distinct_keys_same; [eapply score_loop_keys; eauto|].
    apply (transpose_transposed _ _ E).
Qed.

(** ** The rank scores of a star (claim C1) *)

(** Claim C1, as the specification states it, fails on the example of the
    specification itself (each member with its identifier): the star of
    day 1 has two results without a tie, day 1 is not ignored, and the
    scores awarded for it sum to 2 + 1 = 3, not to 2 * (2 - 1) / 2 = 1. *)
Lemma rank_scores_do_not_sum_to_triangle :
  exists scored,
    transpose plain_runtime spec_example_with_ids
      = inr (example_leaderboard, [((u "1", u "1"), example_results)])
    /\ NoDup (map completion_time example_results)
    /\ str_in (u "1") (ignored_days default_config) = false
    /\ score_star default_config (Z.of_nat (length example_leaderboard))
         example_leaderboard ((u "1", u "1"), example_results) = inr scored
    /\ total_score scored - total_score example_leaderboard = 3
    /\ (let n := Z.of_nat (length example_results) in n * (n - 1) / 2) = 1.
Proof.
  eexists. split; [vm_compute; reflexivity|].
  split; [repeat constructor; simpl; intuition discriminate|].
  split; [reflexivity|].
  split; [vm_compute; reflexivity|].
  split; reflexivity.
Qed.

(** Claim C1, amended: for every star of a day that is not ignored, the
    scoring loop succeeds, keeps the participants, and the scores it
    awards for that star sum to [N * M - N * (N - 1) / 2], where [N] is the
    number of results of the star and [M] the number of participants on
    the leaderboard (ties or not). *)
Theorem rank_scores_of_a_star py aoc raw lb sr day star results scored :
  transpose py raw = inr (lb, sr) ->
  In ((day, star), results) sr ->
  str_in day (ignored_days aoc) = false ->
  map fst scored = map fst lb ->
  exists scored',
    score_star aoc (Z.of_nat (length lb)) scored ((day, star), results)
      = inr scored'
    /\ map fst scored' = map fst lb
    /\ total_score scored' - total_score scored =
         let n := Z.of_nat (length results) in
         n * Z.of_nat (length lb) - n * (n - 1) / 2.
Proof.
  intros Ht Hin Hday Hkeys.
  destruct (transpose_transposed _ _ Ht) as [Hknown _]; simpl in Hknown.
  unfold known_members in Hknown. rewrite Forall_forall in Hknown.
  specialize (Hknown _ Hin); simpl in Hknown.
  assert (Hk : Forall (fun r => dict_get py_eqb (member_id r) scored <> None)
                      results).
  { eapply Forall_impl; [|exact Hknown]. intros r Hr Hnone; apply Hr.
    apply (dict_get_keys py_eqb (member_id r) lb scored); auto. }
  destruct (@hand_out_awards _ _
              (@star_awards_known scored (Z.of_nat (length lb)) results Hk))
    as (scored' & Hrun & Hk' & Htot).
  exists scored'. unfold score_star. rewrite Hday.
  repeat split; [exact Hrun | congruence |].
  rewrite Htot, awarded_star_awards. cbv zeta. lia.
Qed.

Lemma rank_scores_of_a_star_witness :
  transpose plain_runtime spec_example_with_ids
    = inr (example_leaderboard, [((u "1", u "1"), example_results)])
  /\ In ((u "1", u "1"), example_results) [((u "1", u "1"), example_results)]
  /\ str_in (u "1") (ignored_days default_config) = false
  /\ map fst example_leaderboard = map fst example_leaderboard
  /\ exists scored',
       score_star default_config (Z.of_nat (length example_leaderboard))
         example_leaderboard ((u "1", u "1"), example_results) = inr scored'
       /\ map fst scored' = map fst example_leaderboard
       /\ total_score scored' - total_score example_leaderboard =
            let n := Z.of_nat (length example_results) in
            n * Z.of_nat (length example_leaderboard) - n * (n - 1) / 2.
Proof.
  split; [vm_compute; reflexivity|].
  split; [left; reflexivity|].
  split; [reflexivity|].
  split; [reflexivity|].
  apply (rank_scores_of_a_star plain_runtime default_config spec_example_with_ids
           (sr := [((u "1", u "1"), example_results)]));
    [vm_compute; reflexivity | left; reflexivity | reflexivity | reflexivity].
Defined.

(** ** The order of the leaderboard (claim C2) *)

Lemma sort_key_before (a b : json * LeaderboardEntry) :
  tuple_leb (leaderboard_sorting_function b) (leaderboard_sorting_function a)
    = true ->
  ranked_before a b.
Proof.
  unfold tuple_leb, leaderboard_sorting_function, ranked_before; simpl.
  rewrite orb_true_iff, andb_true_iff, Z.ltb_lt, Z.eqb_eq, Z.leb_le. lia.
Qed.

Lemma sort_key_not_before (a b : json * LeaderboardEntry) :
  tuple_leb (leaderboard_sorting_function b) (leaderboard_sorting_function a)
    = false ->
  ranked_before b a.
Proof.
  unfold tuple_leb, leaderboard_sorting_function, ranked_before; simpl.
  rewrite orb_false_iff, andb_false_iff, Z.ltb_ge, Z.eqb_neq, Z.leb_gt. lia.
Qed.

Lemma sorted_by_key_Sorted (l : Leaderboard) :
  Sorted ranked_before
    (sorted (fun a b => tuple_leb (leaderboard_sorting_function b)
                                  (leaderboard_sorting_function a)) l).
Proof.
  apply sorted_Sorted; auto using sort_key_before, sort_key_not_before.
Qed.

(** Claim C2: whenever the aggregator returns, every entry of the
    leaderboard and the entry after it are in the stated order: the first
    has the greater score, or the same score and at least as many
    stars. *)
Theorem leaderboard_is_ranked py aoc raw parsed :
  _parse_raw_leaderboard_data py aoc raw = inr parsed ->
  Sorted ranked_before (leaderboard parsed).
Proof.
  intros H.
  destruct (parse_stages _ _ _ H) as (lb & sr & scored & _ & _ & _ & -> & _).
  apply sorted_by_key_Sorted.
Qed.

(** The same holds for any two entries, the first one anywhere before
    the second, as the order is transitive. *)
Lemma leaderboard_is_ranked_throughout py aoc raw parsed :
  _parse_raw_leaderboard_data py aoc raw = inr parsed ->
  StronglySorted ranked_before (leaderboard parsed).
Proof.
  intros H.
  destruct (parse_stages _ _ _ H) as (lb & sr & scored & _ & _ & _ & -> & _).
  apply Sorted_StronglySorted; [|apply sorted_by_key_Sorted].
  intros a b c. unfold ranked_before. lia.
Qed.

Lemma leaderboard_is_ranked_witness :
  exists parsed,
    _parse_raw_leaderboard_data plain_runtime default_config spec_example_with_ids
      = inr parsed
    /\ Sorted ranked_before (leaderboard parsed).
Proof.
  eexists. split; [vm_compute; reflexivity|].
  apply (leaderboard_is_ranked plain_runtime default_config spec_example_with_ids).
  vm_compute; reflexivity.
Defined.

(** ** The example of the specification (claim C8) *)

(** Claim C8 fails on the example as the specification writes it: its
    members have no ["id"], which the aggregator reads for every member,
    so the run ends in [KeyError] whatever the runtime and the
    configuration. *)
Lemma spec_example_raises :
  ~ exists py aoc parsed,
      _parse_raw_leaderboard_data py aoc spec_example = inr parsed.
Proof.
  intros (py & aoc & parsed & H).
  unfold _parse_raw_leaderboard_data, transpose in H. simpl in H.
  discriminate H.
Qed.

Lemma spec_example_KeyError :
  _parse_raw_leaderboard_data plain_runtime default_config spec_example
    = inl KeyError.
Proof. reflexivity. Qed.

(** Claim C8, amended: on the example with each member carrying its
    ["id"] (["1"] and ["2"]), and day 1 not ignored, the aggregator
    returns participant 1 with score 2 and participant 2 with score 1, in
    the order [1, 2]. *)
Theorem spec_example_with_ids_parsed aoc :
  str_in (u "1") (ignored_days aoc) = false ->
  exists parsed,
    _parse_raw_leaderboard_data plain_runtime aoc spec_example_with_ids = inr parsed
    /\ map (fun e => (fst e, score (snd e))) (leaderboard parsed)
       = [ (JStr (u "1"), 2); (JStr (u "2"), 1) ].
Proof.
  intros Hday. unfold _parse_raw_leaderboard_data.
  replace (transpose plain_runtime spec_example_with_ids)
    with (@inr exn _ (example_leaderboard, [((u "1", u "1"), example_results)]))
    by (vm_compute; reflexivity).
  cbn [bindE foldE score_star]. rewrite Hday.
  eexists; split; vm_compute; reflexivity.
Qed.

Lemma spec_example_with_ids_parsed_witness :
  str_in (u "1") (ignored_days default_config) = false
  /\ exists parsed,
       _parse_raw_leaderboard_data plain_runtime default_config spec_example_with_ids
         = inr parsed
       /\ map (fun e => (fst e, score (snd e))) (leaderboard parsed)
          = [ (JStr (u "1"), 2); (JStr (u "2"), 1) ].
Proof.
  split; [reflexivity|].
  apply (spec_example_with_ids_parsed default_config). reflexivity.
Defined.

(** ** Ignored days (claim C3) *)

Lemma same_scores_refl lb : same_scores lb lb.
Proof. induction lb; constructor; auto. Qed.

Lemma same_scores_sym lb lb' : same_scores lb lb' -> same_scores lb' lb.
Proof.
  induction 1 as [|a b l l' [H1 H2] _ IH]; constructor; auto.
Qed.

Lemma same_scores_trans l1 l2 l3 :
  same_scores l1 l2 -> same_scores l2 l3 -> same_scores l1 l3.
Proof.
  intros H; revert l3; induction H as [|a b l l' [H1 H2] _ IH];
    intros l3 H3; inversion H3 as [|? c ? ? [H4 H5] H6]; subst.
  - constructor.
  - constructor; [split; congruence | apply IH; assumption].
Qed.

Lemma same_scores_keys lb lb' : same_scores lb lb' -> map fst lb = map fst lb'.
Proof.
  induction 1 as [|a b l l' [H1 H2] _ IH]; simpl; congruence.
Qed.

Lemma same_scores_length lb lb' : same_scores lb lb' -> length lb = length lb'.
Proof. apply Forall2_length. Qed.

Lemma same_scores_score_of mid lb lb' :
  same_scores lb lb' -> score_of mid lb = score_of mid lb'.
Proof.
  unfold score_of.
  induction 1 as [|[k e] [k' e'] l l' [H1 H2] _ IH]; simpl in *;
    [reflexivity|]; subst.
  destruct (py_eqb mid k'); simpl; congruence.
Qed.

Lemma same_scores_set mid e e' lb lb' :
  score e = score e' -> same_scores lb lb' ->
  same_scores (dict_set py_eqb mid e lb) (dict_set py_eqb mid e' lb').
Proof.
  intros He.
  induction 1 as [|[k v] [k' v'] l l' [H1 H2] H IH]; simpl in *; subst.
  - repeat constructor; assumption.
  - destruct (py_eqb mid k'); constructor; simpl; auto.
Qed.

(** An update of the entry of a participant that leaves the scores alone
    leaves them the same on the leaderboard. *)
Lemma same_scores_modify mid f lb lb1 :
  (forall e e1, f e = inr e1 -> score e1 = score e) ->
  dict_modify py_eqb mid f lb = inr lb1 -> same_scores lb1 lb.
Proof.
  intros Hf. revert lb1.
  induction lb as [|[k e] lb IH]; simpl; intros lb1 H; [discriminate|].
  destruct (py_eqb mid k).
  - destruct (f e) as [|e1] eqn:E; inversion H; subst.
    constructor; [split; simpl; eauto | apply same_scores_refl].
  - destruct (dict_modify py_eqb mid f lb) eqn:E; inversion H; subst.
    constructor; [split; reflexivity | apply IH; reflexivity].
Qed.

(** An update that succeeds or fails whatever the entry does the same on
    a leaderboard with the same participants. *)
Lemma dict_modify_same_keys mid f (lb lb' lb1 : Leaderboard) :
  (forall e e1 e', f e = inr e1 -> exists e1', f e' = inr e1') ->
  map fst lb = map fst lb' ->
  dict_modify py_eqb mid f lb = inr lb1 ->
  exists lb1', dict_modify py_eqb mid f lb' = inr lb1'.
Proof.
  intros Hf. revert lb' lb1.
  induction lb as [|[k e] lb IH]; intros [|[k' e'] lb'] lb1 Hk H;
    simpl in *; try discriminate.
  injection Hk as Hk1 Hk2; subst. destruct (py_eqb mid k').
  - destruct (f e) as [|e1] eqn:E; [discriminate|].
    destruct (Hf _ _ e' E) as [e1' ->]. eauto.
  - destruct (dict_modify py_eqb mid f lb) eqn:E; [discriminate|].
    destruct (IH _ _ Hk2 eq_refl) as [lb1' ->]. eauto.
Qed.

Lemma incr_star_score star e e1 : incr_star star e = inr e1 -> score e1 = score e.
Proof.
  unfold incr_star.
  destruct (str_eqb star (u "1")); [intros H; inversion H; reflexivity|].
  destruct (str_eqb star (u "2")); intros H; inversion H; reflexivity.
Qed.

Lemma incr_star_any star e e1 (e' : LeaderboardEntry) :
  incr_star star e = inr e1 -> exists e1', incr_star star e' = inr e1'.
Proof.
  unfold incr_star.
  destruct (str_eqb star (u "1")); [eauto|].
  destruct (str_eqb star (u "2")); [eauto | discriminate].
Qed.

Lemma same_scores_add_score mid points lb lb' lb1 :
  same_scores lb lb' ->
  dict_modify py_eqb mid (add_score points) lb = inr lb1 ->
  exists lb1',
    dict_modify py_eqb mid (add_score points) lb' = inr lb1'
    /\ same_scores lb1 lb1'.
Proof.
  intros H; revert lb1.
  induction H as [|[k e] [k' e'] l l' [H1 H2] H IH]; simpl in *;
    intros lb1 Hm; [discriminate|]; subst.
  destruct (py_eqb mid k').
  - inversion Hm; subst. eexists; split; [reflexivity|].
    constructor; [split; simpl; congruence | assumption].
  - destruct (dict_modify py_eqb mid (add_score points) l) eqn:E;
      inversion Hm; subst.
    destruct (IH _ eq_refl) as (l1' & -> & Hs).
    eexists; split; [reflexivity|]. constructor; auto.
Qed.

(** Two loops that keep their states related end in related states; the
    second one runs over the images of the items of the first. *)
Lemma foldE_related {A A' S S'} (R : S -> S' -> Prop) (f : A -> A')
    (body : S -> A -> Exc S) (body' : S' -> A' -> Exc S') (l : list A) :
  (forall s s' a s1, R s s' -> body s a = inr s1 ->
     exists s1', body' s' (f a) = inr s1' /\ R s1 s1') ->
  forall s s' s1, R s s' -> foldE body s l = inr s1 ->
    exists s1', foldE body' s' (map f l) = inr s1' /\ R s1 s1'.
Proof.
  intros Hstep. induction l as [|a l IH]; simpl; intros s s' s1 HR H.
  - inversion H; subst; eauto.
  - destruct (body s a) as [|s2] eqn:E; [discriminate|].
    destruct (Hstep _ _ _ _ HR E) as (s2' & -> & HR2). eauto.
Qed.

(** The same when the second loop skips the items that leave the state
    of the first related to what it was related to. *)
Lemma foldE_related_filter {A S S'} (R : S -> S' -> Prop) (keep : A -> bool)
    (body : S -> A -> Exc S) (body' : S' -> A -> Exc S') (l : list A) :
  (forall s s' a s1, keep a = true -> R s s' -> body s a = inr s1 ->
     exists s1', body' s' a = inr s1' /\ R s1 s1') ->
  (forall s s' a s1, keep a = false -> R s s' -> body s a = inr s1 ->
     R s1 s') ->
  forall s s' s1, R s s' -> foldE body s l = inr s1 ->
    exists s1', foldE body' s' (filter keep l) = inr s1' /\ R s1 s1'.
Proof.
  intros Hkeep Hskip. induction l as [|a l IH]; simpl; intros s s' s1 HR H.
  - inversion H; subst; eauto.
  - destruct (body s a) as [|s2] eqn:E; [discriminate|].
    destruct (keep a) eqn:Ka; simpl.
    + destruct (Hkeep _ _ _ _ Ka HR E) as (s2' & -> & HR2). eauto.
    + eauto.
Qed.

Section IgnoredDays.
Variables (py : Python) (aoc : AdventOfCode).

Lemma counted_append key r sr :
  counted aoc (defaultdict_append key r sr) =
  if str_in (fst key) (ignored_days aoc) then counted aoc sr
  else defaultdict_append key r (counted aoc sr).
Proof.
  unfold counted.
  induction sr as [|[k l] sr IH]; simpl.
  - destruct (str_in (fst key) (ignored_days aoc)); reflexivity.
  - destruct (pair_eqb key k) eqn:E; simpl.
    + apply pair_eqb_eq in E; subst k.
      destruct (str_in (fst key) (ignored_days aoc)); simpl; [reflexivity|].
      rewrite (proj2 (pair_eqb_eq key key) eq_refl); reflexivity.
    + rewrite IH.
      destruct (str_in (fst k) (ignored_days aoc)),
               (str_in (fst key) (ignored_days aoc)); simpl;
        try rewrite E; reflexivity.
Qed.

Lemma record_star_ignored mid day st st' star_data st1 :
  str_in day (ignored_days aoc) = true -> agree aoc st st' ->
  record_star py mid day st star_data = inr st1 -> agree aoc st1 st'.
Proof.
  destruct st as [lb sr], st' as [lb' sr'], star_data as [star data].
  unfold record_star, agree; simpl. intros Hday [Hs Hc] H.
  bind_ok H. bind_ok H. bind_ok H.
  destruct (fromtimestamp py x1); inversion H; subst; clear H; simpl.
  split.
  - eapply same_scores_trans; [|exact Hs].
    eapply same_scores_modify; [|exact E]. apply incr_star_score.
  - rewrite counted_append; simpl. rewrite Hday; reflexivity.
Qed.

Lemma record_star_counted mid day st st' star_data st1 :
  str_in day (ignored_days aoc) = false -> agree aoc st st' ->
  record_star py mid day st star_data = inr st1 ->
  exists st1', record_star py mid day st' star_data = inr st1' /\ agree aoc st1 st1'.
Proof.
  destruct st as [lb sr], st' as [lb' sr'], star_data as [star data].
  unfold record_star, agree; simpl. intros Hday [Hs Hc] H.
  bind_ok H. bind_ok H. bind_ok H.
  destruct (fromtimestamp py x1) as [t|] eqn:Et; inversion H; subst; clear H.
  destruct (@dict_modify_same_keys mid (incr_star star) lb lb' x) as [lb1' E'].
  { intros e e1 e' He. eapply incr_star_any; eauto. }
  { apply same_scores_keys; assumption. }
  { assumption. }
  rewrite E'. unfold bindE. rewrite E0, E1, Et.
  eexists; split; [reflexivity|]. simpl. split.
  - eapply same_scores_trans;
      [eapply same_scores_modify; [apply incr_star_score | exact E]|].
    eapply same_scores_trans; [exact Hs|].
    apply same_scores_sym.
    eapply same_scores_modify; [apply incr_star_score | exact E'].
  - rewrite counted_append; simpl. rewrite Hday; reflexivity.
Qed.

Lemma record_day_ignored mid st st' day_stars st1 :
  str_in (fst day_stars) (ignored_days aoc) = true -> agree aoc st st' ->
  record_day py mid st day_stars = inr st1 -> agree aoc st1 st'.
Proof.
  destruct day_stars as [day stars]; unfold record_day; simpl.
  intros Hday Ha H. bind_ok H.
  eapply (foldE_invariant (fun s => agree aoc s st')); [| exact Ha | exact H].
  intros s a s' _ Hs Hrun. eapply record_star_ignored; eauto.
Qed.

Lemma record_day_counted mid st st' day_stars st1 :
  str_in (fst day_stars) (ignored_days aoc) = false -> agree aoc st st' ->
  record_day py mid st day_stars = inr st1 ->
  exists st1', record_day py mid st' day_stars = inr st1' /\ agree aoc st1 st1'.
Proof.
  destruct day_stars as [day stars]; unfold record_day; simpl.
  intros Hday Ha H. bind_ok H. rewrite E. unfold bindE.
  destruct (@foldE_related _ _ _ _ (agree aoc) (fun a => a)
              (record_star py mid day) (record_star py mid day) x)
    with (s := st) (s' := st') (s1 := st1) as (st1' & Hrun & Ha1); auto.
  - intros s s' a s1 HR Hb. eapply record_star_counted; eauto.
  - rewrite map_id in Hrun. eauto.
Qed.
Lemma dict_get_without_ignored_days k (kv : list (str * json)) :
  dict_get str_eqb k
    (map (fun field =>
            if str_eqb (u "completion_day_level") (fst field)
            then (fst field, counted_days aoc (snd field))
            else field) kv)
  = if str_eqb (u "completion_day_level") k
    then option_map (counted_days aoc) (dict_get str_eqb k kv)
    else dict_get str_eqb k kv.
Proof.
  induction kv as [|[k' v] kv IH]; cbn [dict_get map fst snd].
  - destruct (str_eqb (u "completion_day_level") k); reflexivity.
  - destruct (str_eqb (u "completion_day_level") k') eqn:E1;
      cbn [dict_get map fst snd];
      destruct (str_eqb k k') eqn:E2; rewrite ?IH; auto.
    + apply str_eqb_eq in E2; subst. rewrite E1; reflexivity.
    + apply str_eqb_eq in E2; subst. rewrite E1; reflexivity.
Qed.

Lemma getitem_without_other member k :
  str_eqb (u "completion_day_level") k = false ->
  getitem (without_ignored_days aoc member) k = getitem member k.
Proof.
  intros Hk. destruct member; simpl; auto.
  unfold dict_getitem. rewrite dict_get_without_ignored_days, Hk. reflexivity.
Qed.

Lemma getitem_without_days member v :
  getitem member (u "completion_day_level") = inr v ->
  getitem (without_ignored_days aoc member) (u "completion_day_level")
    = inr (counted_days aoc v).
Proof.
  destruct member; simpl; try discriminate.
  unfold dict_getitem. rewrite dict_get_without_ignored_days, str_eqb_refl.
  destruct (dict_get str_eqb _ members); simpl; [|discriminate].
  intros H; inversion H; reflexivity.
Qed.

Lemma record_member_agree st st' member st1 :
  agree aoc st st' -> record_member py st member = inr st1 ->
  exists st1',
    record_member py st' (without_ignored_days aoc member) = inr st1'
    /\ agree aoc st1 st1'.
Proof.
  destruct st as [lb sr], st' as [lb' sr']. unfold record_member.
  intros [Hs Hc] H; simpl in Hs, Hc.
  rewrite !(@getitem_without_other member (u "name")) by reflexivity.
  rewrite !(@getitem_without_other member (u "id")) by reflexivity.
  bind_ok H. rewrite E in H |- *. unfold bindE at 1.
  bind_ok H. rewrite E0. unfold bindE at 1.
  bind_ok H. rewrite E1. unfold bindE at 1.
  destruct (hashable x1); [|discriminate].
  bind_ok H. rewrite (getitem_without_days _ E2). unfold bindE at 1.
  bind_ok H. destruct x2; try discriminate. inversion E3; subst; clear E3.
  simpl counted_days. simpl items. unfold bindE at 1.
  apply (@foldE_related_filter _ _ _ (agree aoc)
           (fun d => negb (str_in (fst d) (ignored_days aoc)))
           (record_day py x1) (record_day py x1) x3) with (s1 := st1)
    (s := (dict_set py_eqb x1
             {| name := x0; score := 0; star_1 := 0; star_2 := 0 |} lb, sr));
    auto.
  - intros s s' a s1 Hk HR Hb. apply negb_true_iff in Hk.
    eapply record_day_counted; eauto.
  - intros s s' a s1 Hk HR Hb. apply negb_false_iff in Hk.
    eapply record_day_ignored; eauto.
  - split; simpl; [|reflexivity].
    apply same_scores_set; auto.
Qed.

(** The first loop on the input without its ignored days returns the
    counted groups of the first loop on the input, and a leaderboard with
    the same participants. *)
Lemma transpose_without_ignored_days members lb sr :
  foldE (record_member py) ([], []) members = inr (lb, sr) ->
  exists lb',
    foldE (record_member py) ([], [])
      (map (without_ignored_days aoc) members) = inr (lb', counted aoc sr)
    /\ same_scores lb lb'.
Proof.
  intros H.
  destruct (@foldE_related _ _ _ _ (agree aoc) (without_ignored_days aoc)
              (record_member py) (record_member py) members)
    with (s := (@nil (json * LeaderboardEntry), @nil ((str * str) * list StarResult)))
         (s' := (@nil (json * LeaderboardEntry), @nil ((str * str) * list StarResult)))
         (s1 := (lb, sr))
    as ([lb' sr'] & Hrun & Hs & Hc); auto.
  - intros s s' a s1 HR Hb. eapply record_member_agree; eauto.
  - split; [constructor | reflexivity].
  - simpl in *. subst sr'. eauto.
Qed.

(** The scoring loop over the counted groups alone awards the same
    scores. *)
Lemma score_counted max_score lb lb' sr scored :
  same_scores lb lb' ->
  foldE (score_star aoc max_score) lb sr = inr scored ->
  exists scored',
    foldE (score_star aoc max_score) lb' (counted aoc sr) = inr scored'
    /\ same_scores scored scored'.
Proof.
  intros Hs H. unfold counted.
  apply (@foldE_related_filter _ _ _ same_scores
           (fun g => negb (str_in (fst (fst g)) (ignored_days aoc)))
           (score_star aoc max_score) (score_star aoc max_score) sr)
    with (s := lb); auto.
  - intros s s' [[day star] results] s1 Hk HR Hb; simpl in Hk.
    apply negb_true_iff in Hk. unfold score_star in *. rewrite Hk in *.
    destruct (@foldE_related _ _ _ _ same_scores (fun a => a)
                (fun lb award =>
                   dict_modify py_eqb (fst award) (add_score (snd award)) lb)
                (fun lb award =>
                   dict_modify py_eqb (fst award) (add_score (snd award)) lb)
                (star_awards max_score results))
      with (s := s) (s' := s') (s1 := s1) as (s1' & Hrun & Hs1); auto.
    + intros t t' a t1 HR' Hm. eapply same_scores_add_score; eauto.
    + rewrite map_id in Hrun. eauto.
  - intros s s' [[day star] results] s1 Hk HR Hb; simpl in Hk.
    apply negb_false_iff in Hk. unfold score_star in Hb. rewrite Hk in Hb.
    inversion Hb; subst; assumption.
Qed.
End IgnoredDays.

Lemma dict_get_perm (l l' : Leaderboard) k :
  Permutation l l' -> distinct_keys l ->
  dict_get py_eqb k l = dict_get py_eqb k l'.
Proof.
  induction 1 as [|[kx ex] l l' Hp IH|[kx ex] [ky ey] l|l1 l2 l3 Hp1 IH1 Hp2 IH2];
    intros Hd.
  - reflexivity.
  - simpl. destruct (py_eqb k kx); [reflexivity|].
    apply IH. unfold distinct_keys in *. inversion Hd; assumption.
  - simpl. destruct (py_eqb k ky) eqn:E1, (py_eqb k kx) eqn:E2; try reflexivity.
    exfalso. unfold distinct_keys in Hd; simpl in Hd.
    inversion Hd as [|? ? Hnotin _]; subst. apply Hnotin; left.
    rewrite <- (py_eqb_norm _ _ E1), <- (py_eqb_norm _ _ E2). reflexivity.
  - rewrite IH1 by assumption. apply IH2.
    eapply distinct_keys_perm; eauto.
Qed.

(** Claim C3: two raw inputs that agree once the completions on ignored
    days are left out (so that they differ in nothing but the timestamps,
    or the presence, of completions on ignored days), and on both of which
    the aggregator returns, give every participant the same score. *)
Theorem ignored_days_do_not_score py aoc raw1 raw2 parsed1 parsed2 :
  map (without_ignored_days aoc) (map snd raw1)
    = map (without_ignored_days aoc) (map snd raw2) ->
  _parse_raw_leaderboard_data py aoc raw1 = inr parsed1 ->
  _parse_raw_leaderboard_data py aoc raw2 = inr parsed2 ->
  forall mid,
    score_of mid (leaderboard parsed1) = score_of mid (leaderboard parsed2).
Proof.
  intros Hsame H1 H2 mid.
  destruct (parse_stages _ _ _ H1) as (lb1 & sr1 & s1 & Ht1 & Hs1 & _ & -> & Hd1).
  destruct (parse_stages _ _ _ H2) as (lb2 & sr2 & s2 & Ht2 & Hs2 & _ & -> & Hd2).
  unfold transpose in Ht1, Ht2.
  destruct (transpose_without_ignored_days py aoc _ Ht1) as (lbd & Hr1 & Hl1).
  destruct (transpose_without_ignored_days py aoc _ Ht2) as (lbd' & Hr2 & Hl2).
  rewrite Hsame, Hr2 in Hr1. inversion Hr1; subst lbd'; clear Hr1.
  destruct (@score_counted aoc _ _ _ _ _ Hl1 Hs1) as (sd1 & Hsd1 & Hq1).
  destruct (@score_counted aoc _ _ _ _ _ Hl2 Hs2) as (sd2 & Hsd2 & Hq2).
  rewrite H3, (same_scores_length Hl2), <- (same_scores_length Hl1), Hsd1
    in Hsd2.
  inversion Hsd2; subst sd2; clear Hsd2.
  assert (Hsorted : forall s, distinct_keys s ->
            score_of mid
              (sorted (fun a b => tuple_leb (leaderboard_sorting_function b)
                                            (leaderboard_sorting_function a)) s)
            = score_of mid s).
  { intros s Hd. unfold score_of. f_equal. symmetry.
    apply dict_get_perm; [apply Permutation_sym, sorted_perm | assumption]. }
  rewrite !Hsorted by assumption.
  apply same_scores_score_of.
  eapply same_scores_trans; [exact Hq1 | apply same_scores_sym; exact Hq2].
Qed.

Lemma ignored_days_do_not_score_witness :
  map (without_ignored_days ignoring_day_2) (map snd spec_example_with_day_2)
    = map (without_ignored_days ignoring_day_2) (map snd spec_example_with_ids)
  /\ exists parsed1 parsed2,
       _parse_raw_leaderboard_data plain_runtime ignoring_day_2
         spec_example_with_day_2 = inr parsed1
       /\ _parse_raw_leaderboard_data plain_runtime ignoring_day_2
            spec_example_with_ids = inr parsed2
       /\ forall mid,
            score_of mid (leaderboard parsed1)
            = score_of mid (leaderboard parsed2).
Proof.
  split; [vm_compute; reflexivity|].
  eexists; eexists.
  split; [vm_compute; reflexivity|].
  split; [vm_compute; reflexivity|].
  apply (@ignored_days_do_not_score plain_runtime ignoring_day_2
           spec_example_with_day_2 spec_example_with_ids);
    vm_compute; reflexivity.
Defined.

(** ** Star counts and daily statistics (claim C10) *)

(** A quantity that every round of a loop raises by the weight of its
    item is raised by the loop by the sum of the weights. *)
Lemma foldE_measure {A S} (measure : S -> Z) (weight : A -> Z)
    (body : S -> A -> Exc S) (l : list A) :
  (forall s a s', In a l -> body s a = inr s' ->
     measure s' = measure s + weight a) ->
  forall s s', foldE body s l = inr s' ->
    measure s' = measure s + fold_right (fun a acc => weight a + acc) 0 l.
Proof.
  induction l as [|a l IH]; simpl; intros Hstep s s' H.
  - inversion H; lia.
  - destruct (body s a) as [|s1] eqn:E; [discriminate|].
    rewrite (IH (fun s a s' Hin => Hstep s a s' (or_intror Hin)) _ _ H).
    rewrite (Hstep _ _ _ (or_introl eq_refl) E). lia.
Qed.

Lemma count_completions_app day star l1 l2 :
  count_completions day star (l1 ++ l2)
  = count_completions day star l1 + count_completions day star l2.
Proof.
  unfold count_completions. rewrite filter_app, length_app. lia.
Qed.

Lemma count_completions_flat_map {A} day star (f : A -> list (str * str)) l :
  count_completions day star (flat_map f l)
  = fold_right (fun a acc => count_completions day star (f a) + acc) 0 l.
Proof.
  induction l as [|a l IH]; simpl; [reflexivity|].
  rewrite count_completions_app, IH. reflexivity.
Qed.

Lemma count_completions_map {A} day star (f : A -> str * str) l :
  count_completions day star (map f l)
  = fold_right (fun a acc => count_completions day star [f a] + acc) 0 l.
Proof.
  induction l as [|a l IH]; simpl; [reflexivity|].
  change (f a :: map f l) with ([f a] ++ map f l).
  rewrite count_completions_app, IH. reflexivity.
Qed.

Lemma count_stars_app star l1 l2 :
  count_stars star (l1 ++ l2) = count_stars star l1 + count_stars star l2.
Proof.
  unfold count_stars. rewrite filter_app, length_app. lia.
Qed.

Lemma count_stars_map {A} star (f : A -> str * str) l :
  count_stars star (map f l)
  = fold_right (fun a acc => count_stars star [f a] + acc) 0 l.
Proof.
  induction l as [|a l IH]; simpl; [reflexivity|].
  change (f a :: map f l) with ([f a] ++ map f l).
  rewrite count_stars_app, IH. reflexivity.
Qed.

Lemma count_stars_flat_map {A} star (f : A -> list (str * str)) l :
  count_stars star (flat_map f l)
  = fold_right (fun a acc => count_stars star (f a) + acc) 0 l.
Proof.
  induction l as [|a l IH]; simpl; [reflexivity|].
  rewrite count_stars_app, IH. reflexivity.
Qed.

Lemma star_count_append sr key r day star :
  star_count (defaultdict_append key r sr) day star
  = star_count sr day star + count_completions day star [key].
Proof.
  unfold star_count, count_completions.
  induction sr as [|[k l] sr IH]; cbn [defaultdict_append dict_get filter].
  - destruct (pair_eqb (day, star) key); reflexivity.
  - destruct (pair_eqb key k) eqn:E1.
    + apply pair_eqb_eq in E1; subst k. cbn [dict_get].
      destruct (pair_eqb (day, star) key); cbn [length]; [|lia].
      rewrite length_app; simpl; lia.
    + cbn [dict_get]. destruct (pair_eqb (day, star) k) eqn:E2; [|exact IH].
      apply pair_eqb_eq in E2; subst k.
      destruct (pair_eqb (day, star) key) eqn:E3; cbn [length]; [|lia].
      apply pair_eqb_eq in E3; subst key.
      rewrite (proj2 (pair_eqb_eq _ _) eq_refl) in E1; discriminate.
Qed.

Lemma dict_get_modify {K V} (eqb : K -> K -> bool) k f (d d' : dict K V) :
  dict_modify eqb k f d = inr d' ->
  exists v v', dict_get eqb k d = Some v /\ f v = inr v'
               /\ dict_get eqb k d' = Some v'.
Proof.
  revert d'; induction d as [|[k' v] d IH]; simpl; intros d' H; [discriminate|].
  destruct (eqb k k') eqn:E.
  - destruct (f v) as [|v'] eqn:Ef; inversion H; subst; simpl.
    rewrite E; eauto.
  - destruct (dict_modify eqb k f d) as [|d1]; inversion H; subst; simpl.
    rewrite E. apply IH; reflexivity.
Qed.

Lemma dict_get_set {K V} (eqb : K -> K -> bool) k v (d : dict K V) :
  eqb k k = true -> dict_get eqb k (dict_set eqb k v d) = Some v.
Proof.
  intros Hk; induction d as [|[k' v'] d IH]; simpl.
  - rewrite Hk; reflexivity.
  - destruct (eqb k k') eqn:E; simpl; rewrite E; auto.
Qed.

(** Writing under another key leaves the entry of a participant alone. *)
Lemma dict_get_set_other mid mid' e (lb : Leaderboard) :
  key_norm mid' <> key_norm mid ->
  dict_get py_eqb mid (dict_set py_eqb mid' e lb) = dict_get py_eqb mid lb.
Proof.
  intros Hne; induction lb as [|[k v] lb IH]; simpl.
  - destruct (py_eqb mid mid') eqn:E; [|reflexivity].
    apply py_eqb_norm in E; congruence.
  - destruct (py_eqb mid' k) eqn:E1; simpl;
      destruct (py_eqb mid k) eqn:E2; auto.
    apply py_eqb_norm in E1, E2; congruence.
Qed.

Lemma dict_get_modify_other mid mid' f (lb lb1 : Leaderboard) :
  key_norm mid' <> key_norm mid ->
  dict_modify py_eqb mid' f lb = inr lb1 ->
  dict_get py_eqb mid lb1 = dict_get py_eqb mid lb.
Proof.
  intros Hne; revert lb1; induction lb as [|[k v] lb IH]; simpl; intros lb1 H;
    [discriminate|].
  destruct (py_eqb mid' k) eqn:E1.
  - destruct (f v); inversion H; subst; simpl.
    destruct (py_eqb mid k) eqn:E2; [|reflexivity].
    apply py_eqb_norm in E1, E2; congruence.
  - destruct (dict_modify py_eqb mid' f lb); inversion H; subst; simpl.
    destruct (py_eqb mid k); auto.
Qed.

(** The scoring loop leaves the star counts alone. *)
Lemma add_score_stars k points (lb lb1 : Leaderboard) mid :
  dict_modify py_eqb k (add_score points) lb = inr lb1 ->
  option_map (fun e => (star_1 e, star_2 e)) (dict_get py_eqb mid lb1)
  = option_map (fun e => (star_1 e, star_2 e)) (dict_get py_eqb mid lb).
Proof.
  revert lb1; induction lb as [|[k' v] lb IH]; simpl; intros lb1 H;
    [discriminate|].
  destruct (py_eqb k k').
  - inversion H; subst; simpl. destruct (py_eqb mid k'); reflexivity.
  - destruct (dict_modify py_eqb k (add_score points) lb); inversion H; subst.
    simpl. destruct (py_eqb mid k'); auto.
Qed.

Lemma score_loop_stars aoc max_score sr (lb scored : Leaderboard) mid :
  foldE (score_star aoc max_score) lb sr = inr scored ->
  option_map (fun e => (star_1 e, star_2 e)) (dict_get py_eqb mid scored)
  = option_map (fun e => (star_1 e, star_2 e)) (dict_get py_eqb mid lb).
Proof.
  intros H.
  apply (foldE_invariant
           (fun s => option_map (fun e => (star_1 e, star_2 e))
                       (dict_get py_eqb mid s)
                     = option_map (fun e => (star_1 e, star_2 e))
                         (dict_get py_eqb mid lb))) in H; auto.
  intros s [[day star] results] s' _ Hs Hrun. unfold score_star in Hrun.
  destruct (str_in day (ignored_days aoc)); [inversion Hrun; subst; auto|].
  apply (foldE_invariant
           (fun t => option_map (fun e => (star_1 e, star_2 e))
                       (dict_get py_eqb mid t)
                     = option_map (fun e => (star_1 e, star_2 e))
                         (dict_get py_eqb mid lb))) in Hrun; auto.
  intros t a t' _ Ht Hm. rewrite <- Ht. eapply add_score_stars; eauto.
Qed.

Section CountFacts.
Variable py : Python.

Lemma record_star_count mid d st star_data st1 day star :
  record_star py mid d st star_data = inr st1 ->
  star_count (snd st1) day star
  = star_count (snd st) day star
    + count_completions day star [(d, fst star_data)].
Proof.
  destruct st as [lb sr], star_data as [s data]; unfold record_star.
  intros H. bind_ok H. bind_ok H. bind_ok H.
  destruct (fromtimestamp py x1); inversion H; subst; simpl.
  apply star_count_append.
Qed.

Lemma record_day_count mid st day_stars st1 day star :
  record_day py mid st day_stars = inr st1 ->
  star_count (snd st1) day star
  = star_count (snd st) day star
    + count_completions day star
        match snd day_stars with
        | JObj stars => map (fun s => (fst day_stars, fst s)) stars
        | _ => []
        end.
Proof.
  destruct day_stars as [d stars]; unfold record_day; simpl.
  intros H. bind_ok H. destruct stars; try discriminate.
  inversion E; subst; clear E.
  rewrite count_completions_map.
  apply (foldE_measure (fun st => star_count (snd st) day star)
           (fun s => count_completions day star [(d, fst s)])
           (record_star py mid d) x); auto.
  intros s a s' _ Hb. eapply record_star_count; eauto.
Qed.

Lemma record_member_count st member st1 day star :
  record_member py st member = inr st1 ->
  star_count (snd st1) day star
  = star_count (snd st) day star
    + count_completions day star (completions_of member).
Proof.
  destruct st as [lb sr]; unfold record_member.
  intros H. bind_ok H. bind_ok H. bind_ok H.
  destruct (hashable x1); [|discriminate].
  bind_ok H. bind_ok H. destruct x2; try discriminate.
  inversion E3; subst; clear E3.
  unfold completions_of. rewrite E2, count_completions_flat_map.
  apply (foldE_measure (fun st => star_count (snd st) day star)
           (fun ds => count_completions day star
                        match snd ds with
                        | JObj stars => map (fun s => (fst ds, fst s)) stars
                        | _ => []
                        end)
           (record_day py x1) x3) in H; auto.
  intros s a s' _ Hb. eapply record_day_count; eauto.
Qed.

(** A group of [star_results] holds as many results as the raw data has
    completions of its star, ignored day or not. *)
Lemma transpose_count raw lb sr day star :
  transpose py raw = inr (lb, sr) ->
  star_count sr day star
  = count_completions day star (flat_map completions_of (map snd raw)).
Proof.
  unfold transpose. intros H.
  apply (foldE_measure (fun st => star_count (snd st) day star)
           (fun m => count_completions day star (completions_of m))
           (record_member py) (map snd raw)) in H.
  - rewrite count_completions_flat_map. simpl in H. rewrite H.
    unfold star_count; simpl. lia.
  - intros s a s' _ Hb. eapply record_member_count; eauto.
Qed.
End CountFacts.

Section StarCountFacts.
Variable py : Python.

Lemma record_star_keys mid d st star_data st1 :
  record_star py mid d st star_data = inr st1 ->
  map fst (fst st1) = map fst (fst st).
Proof.
  destruct st as [lb sr], star_data as [s data]; unfold record_star.
  intros H. bind_ok H. bind_ok H. bind_ok H.
  destruct (fromtimestamp py x1); inversion H; subst; simpl.
  eapply dict_modify_keys; eauto.
Qed.

Lemma record_day_keys mid st day_stars st1 :
  record_day py mid st day_stars = inr st1 ->
  map fst (fst st1) = map fst (fst st).
Proof.
  destruct day_stars as [d stars]; unfold record_day.
  intros H. bind_ok H.
  apply (foldE_invariant (fun s => map fst (fst s) = map fst (fst st))) in H;
    auto.
  intros s a s' _ Hs Hb. rewrite <- Hs. eapply record_star_keys; eauto.
Qed.

Lemma count_stars_one which d s :
  count_stars which [(d, s)] = if str_eqb s which then 1 else 0.
Proof.
  unfold count_stars; simpl. destruct (str_eqb s which); reflexivity.
Qed.

Lemma record_star_own which mid d st star_data st1 :
  which = u "1" \/ which = u "2" ->
  record_star py mid d st star_data = inr st1 ->
  stars_at which mid (fst st1)
  = stars_at which mid (fst st) + count_stars which [(d, fst star_data)].
Proof.
  destruct st as [lb sr], star_data as [s data]; unfold record_star.
  intros Hw H. bind_ok H. bind_ok H. bind_ok H.
  destruct (fromtimestamp py x1); inversion H; subst; clear H.
  destruct (dict_get_modify _ _ _ _ E) as (v & v' & Hv & Hf & Hv').
  cbn [fst]. unfold stars_at. rewrite Hv, Hv', count_stars_one.
  unfold incr_star in Hf.
  assert (E12 : str_eqb (u "1") (u "2") = false) by reflexivity.
  assert (E21 : str_eqb (u "2") (u "1") = false) by reflexivity.
  destruct (str_eqb s (u "1")) eqn:Es1.
  - apply str_eqb_eq in Es1; subst s. inversion Hf; subst; cbn [star_1 star_2].
    destruct Hw; subst which; rewrite ?str_eqb_refl, ?E12, ?E21; lia.
  - destruct (str_eqb s (u "2")) eqn:Es2; [|discriminate].
    apply str_eqb_eq in Es2; subst s. inversion Hf; subst; cbn [star_1 star_2].
    destruct Hw; subst which; rewrite ?str_eqb_refl, ?E12, ?E21; lia.
Qed.

Lemma record_day_own which mid st day_stars st1 :
  which = u "1" \/ which = u "2" ->
  record_day py mid st day_stars = inr st1 ->
  stars_at which mid (fst st1)
  = stars_at which mid (fst st)
    + count_stars which
        match snd day_stars with
        | JObj stars => map (fun s => (fst day_stars, fst s)) stars
        | _ => []
        end.
Proof.
  destruct day_stars as [d stars]; unfold record_day; simpl.
  intros Hw H. bind_ok H. destruct stars; try discriminate.
  inversion E; subst; clear E.
  rewrite count_stars_map.
  apply (foldE_measure (fun st => stars_at which mid (fst st))
           (fun s => count_stars which [(d, fst s)])
           (record_star py mid d) x); auto.
  intros s a s' _ Hb. eapply record_star_own; eauto.
Qed.

(** After the rounds of a member, the leaderboard holds for its
    identifier the stars of its record, on whatever day. *)
Lemma record_member_own which st member st1 mid :
  which = u "1" \/ which = u "2" ->
  record_member py st member = inr st1 ->
  getitem member (u "id") = inr mid ->
  dict_get py_eqb mid (fst st1) <> None
  /\ stars_at which mid (fst st1) = count_stars which (completions_of member).
Proof.
  destruct st as [lb sr]; unfold record_member.
  intros Hw H Hid. bind_ok H. bind_ok H. bind_ok H.
  rewrite Hid in E1; inversion E1; subst x1; clear E1.
  destruct (hashable mid) eqn:Hh; [|discriminate].
  bind_ok H. bind_ok H. destruct x1 as [| | | | |days]; try discriminate.
  inversion E2; subst; clear E2.
  split.
  - apply (foldE_invariant
             (fun s => map fst (fst s)
                       = map fst (dict_set py_eqb mid
                                    {| name := x0; score := 0;
                                       star_1 := 0; star_2 := 0 |} lb))) in H.
    + intros Hnone.
      apply (dict_set_self_present py_eqb mid
               {| name := x0; score := 0; star_1 := 0; star_2 := 0 |} lb
               (py_eqb_refl mid Hh)).
      apply (dict_get_keys py_eqb mid _ (fst st1)); auto.
    + intros s a s' _ Hs Hb. rewrite <- Hs. eapply record_day_keys; eauto.
    + reflexivity.
  - unfold completions_of. rewrite E1, count_stars_flat_map.
    apply (foldE_measure (fun st => stars_at which mid (fst st))
             (fun ds => count_stars which
                          match snd ds with
                          | JObj stars => map (fun s => (fst ds, fst s)) stars
                          | _ => []
                          end)
             (record_day py mid) x2) in H.
    + rewrite H. cbn [fst]. unfold stars_at at 1.
      rewrite dict_get_set by (apply py_eqb_refl; assumption).
      cbn [star_1 star_2]. destruct (str_eqb which (u "1")); lia.
    + intros s a s' _ Hb. eapply record_day_own; eauto.
Qed.

(** The rounds of a member with another identifier leave the entry
    alone. *)
Lemma record_member_other st member st1 mid mid' :
  record_member py st member = inr st1 ->
  getitem member (u "id") = inr mid' ->
  key_norm mid' <> key_norm mid ->
  dict_get py_eqb mid (fst st1) = dict_get py_eqb mid (fst st).
Proof.
  destruct st as [lb sr]; unfold record_member.
  intros H Hid Hne. bind_ok H. bind_ok H. bind_ok H.
  rewrite Hid in E1; inversion E1; subst x1; clear E1.
  destruct (hashable mid'); [|discriminate].
  bind_ok H. bind_ok H.
  apply (foldE_invariant
           (fun s => dict_get py_eqb mid (fst s) = dict_get py_eqb mid lb))
    in H; auto.
  - intros s [d stars] s' _ Hs Hb. rewrite <- Hs. unfold record_day in Hb.
    bind_ok Hb.
    apply (foldE_invariant
             (fun t => dict_get py_eqb mid (fst t) = dict_get py_eqb mid (fst s)))
      in Hb; auto.
    intros [lb2 sr2] [star data] t' _ Ht Hc. rewrite <- Ht.
    unfold record_star in Hc. bind_ok Hc. bind_ok Hc. bind_ok Hc.
    destruct (fromtimestamp py x6); inversion Hc; subst; simpl.
    eapply dict_get_modify_other; eauto.
  - simpl. apply dict_get_set_other; assumption.
Qed.

Lemma later_members_other members st st1 mid :
  foldE (record_member py) st members = inr st1 ->
  Forall (fun m => forall i, getitem m (u "id") = inr i ->
                             key_norm i <> key_norm mid) members ->
  dict_get py_eqb mid (fst st1) = dict_get py_eqb mid (fst st).
Proof.
  intros H Hall. rewrite Forall_forall in Hall.
  apply (foldE_invariant
           (fun s => dict_get py_eqb mid (fst s) = dict_get py_eqb mid (fst st)))
    in H; auto.
  intros s m s' Hin Hs Hb. rewrite <- Hs.
  assert (Hid : exists i, getitem m (u "id") = inr i).
  { destruct s as [lb sr]. unfold record_member in Hb.
    bind_ok Hb. bind_ok Hb. bind_ok Hb. eauto. }
  destruct Hid as [i Hi].
  eapply record_member_other; eauto.
Qed.
End StarCountFacts.

Lemma make_daily_stats_days sr :
  make_daily_stats sr
  = map (fun d => (str_of_Z d,
                   {| star_one := star_count sr (str_of_Z d) (u "1");
                      star_two := star_count sr (str_of_Z d) (u "2") |}))
        (range 1 26).
Proof. reflexivity. Qed.

Lemma days_of_advent :
  map str_of_Z (range 1 26)
  = map u [ "1"; "2"; "3"; "4"; "5"; "6"; "7"; "8"; "9"; "10"; "11"; "12";
            "13"; "14"; "15"; "16"; "17"; "18"; "19"; "20"; "21"; "22";
            "23"; "24"; "25" ]%string.
Proof. reflexivity. Qed.

(** Claim C10: whenever the aggregator returns,
    - the daily statistics have exactly the keys ["1"] to ["25"], in that
      order, and hold for each day the number of first-star and of
      second-star completions of that day in the raw data, ignored day or
      not (so 0 for a day without completions);
    - a participant whose identifier no later member record carries has
      as [star_1] and [star_2] the number of first and of second stars of
      its record, over all days, ignored or not;
    - the scoring loop leaves the leaderboard as it is for a star of an
      ignored day. *)
Theorem ignored_days_still_count py aoc raw parsed :
  _parse_raw_leaderboard_data py aoc raw = inr parsed ->
  (daily_stats parsed
   = map (fun d =>
            (str_of_Z d,
             {| star_one :=
                  count_completions (str_of_Z d) (u "1")
                    (flat_map completions_of (map snd raw));
                star_two :=
                  count_completions (str_of_Z d) (u "2")
                    (flat_map completions_of (map snd raw)) |}))
         (range 1 26))
  /\ map fst (daily_stats parsed)
     = map u [ "1"; "2"; "3"; "4"; "5"; "6"; "7"; "8"; "9"; "10"; "11";
               "12"; "13"; "14"; "15"; "16"; "17"; "18"; "19"; "20"; "21";
               "22"; "23"; "24"; "25" ]%string
  /\ (forall earlier key member later mid,
        raw = earlier ++ (key, member) :: later ->
        getitem member (u "id") = inr mid ->
        Forall (fun m => forall i, getitem (snd m) (u "id") = inr i ->
                                   key_norm i <> key_norm mid) later ->
        exists e,
          dict_get py_eqb mid (leaderboard parsed) = Some e
          /\ star_1 e = count_stars (u "1") (completions_of member)
          /\ star_2 e = count_stars (u "2") (completions_of member))
  /\ (forall max_score lb day star results,
        str_in day (ignored_days aoc) = true ->
        score_star aoc max_score lb ((day, star), results) = inr lb).
Proof.
  intros H.
  destruct (parse_stages _ _ _ H) as (lb & sr & scored & Ht & Hs & Hds & Hlb & Hd).
  assert (Hstats : daily_stats parsed
          = map (fun d =>
                   (str_of_Z d,
                    {| star_one :=
                         count_completions (str_of_Z d) (u "1")
                           (flat_map completions_of (map snd raw));
                       star_two :=
                         count_completions (str_of_Z d) (u "2")
                           (flat_map completions_of (map snd raw)) |}))
                (range 1 26)).
  { rewrite Hds, make_daily_stats_days. apply map_ext. intros d.
    rewrite !(transpose_count _ _ _ _ Ht). reflexivity. }
  split; [exact Hstats|]. split; [|split].
  - rewrite Hstats, map_map; simpl. apply days_of_advent.
  - intros earlier key member later mid Hraw Hid Hlater.
    unfold transpose in Ht. rewrite Hraw, map_app, foldE_app in Ht.
    destruct (foldE (record_member py) ([], []) (map snd earlier))
      as [|st0] eqn:E0; [discriminate|].
    cbn [map snd foldE] in Ht.
    destruct (record_member py st0 member) as [|st1] eqn:E1; [discriminate|].
    destruct (record_member_own py (which := u "1") _ _ (or_introl eq_refl) E1 Hid)
      as [Hin H1].
    destruct (record_member_own py (which := u "2") _ _ (or_intror eq_refl) E1 Hid)
      as [_ H2].
    assert (Hget : dict_get py_eqb mid lb = dict_get py_eqb mid (fst st1)).
    { apply (later_members_other py _ _ Ht).
      rewrite Forall_forall in *. intros m Hm.
      apply in_map_iff in Hm. destruct Hm as (km & <- & Hkm).
      exact (Hlater _ Hkm). }
    unfold stars_at in H1, H2. rewrite <- Hget in *.
    destruct (dict_get py_eqb mid lb) as [e0|] eqn:Ee0; [|congruence].
    pose proof (@score_loop_stars _ _ _ _ _ mid Hs) as Hstars.
    rewrite Hlb.
    rewrite <- (@dict_get_perm scored _ mid
                  (Permutation_sym (sorted_perm _ scored)) Hd).
    rewrite Ee0 in Hstars.
    destruct (dict_get py_eqb mid scored) as [e|]; [|discriminate].
    simpl in Hstars. inversion Hstars as [[Hs1 Hs2]].
    change (str_eqb (u "1") (u "1")) with true in H1.
    change (str_eqb (u "2") (u "1")) with false in H2.
    exists e. repeat split; congruence.
  - intros max_score lb0 day star results Hday.
    unfold score_star. rewrite Hday. reflexivity.
Qed.

Lemma ignored_days_still_count_witness :
  _parse_raw_leaderboard_data plain_runtime ignoring_day_2 spec_example_with_day_2
    = inr example_with_day_2_parsed
  /\ dict_get str_eqb (u "2") (daily_stats example_with_day_2_parsed)
     = Some {| star_one := 1; star_two := 0 |}
  /\ exists e,
       dict_get py_eqb (JStr (u "2")) (leaderboard example_with_day_2_parsed)
         = Some e
       /\ star_1 e = 2 /\ star_2 e = 0.
Proof.
  assert (Hrun : _parse_raw_leaderboard_data plain_runtime ignoring_day_2
                   spec_example_with_day_2 = inr example_with_day_2_parsed)
    by (vm_compute; reflexivity).
  split; [exact Hrun|].
  destruct (ignored_days_still_count _ _ _ Hrun) as (Hstats & _ & Hstars & _).
  split; [rewrite Hstats; vm_compute; reflexivity|].
  destruct (Hstars [ nth 0 spec_example_with_day_2 (JNull, JNull) ]
              (JStr (u "2"))
              (snd (nth 1 spec_example_with_day_2 (JNull, JNull)))
              [] (JStr (u "2")) eq_refl eq_refl (Forall_nil _))
    as (e & He & H1 & H2).
  exists e. repeat split; [exact He | rewrite H1 | rewrite H2]; reflexivity.
Defined.

(** ** The lines of the table (claim C7) *)

Lemma is_linebreak_false (c : N) :
  (32 <= c < 133)%N -> is_linebreak c = false.
Proof.
  intros H. unfold is_linebreak. cbn [existsb].
  repeat (rewrite (proj2 (N.eqb_neq c _)) by lia). reflexivity.
Qed.

Lemma no_linebreak_app (a b : str) :
  no_linebreak (a ++ b) = no_linebreak a && no_linebreak b.
Proof. apply forallb_app. Qed.

Lemma no_linebreak_spaces n : no_linebreak (repeat 32%N n) = true.
Proof. induction n; simpl; auto. Qed.

Lemma no_linebreak_cons (c : N) (s : str) :
  no_linebreak (c :: s) = negb (is_linebreak c) && no_linebreak s.
Proof. reflexivity. Qed.

Lemma no_linebreak_digits fuel : forall n acc,
  no_linebreak acc = true -> no_linebreak (digits_of fuel n acc) = true.
Proof.
  induction fuel as [|fuel IH]; intros n acc Hacc; cbn [digits_of];
    [assumption|].
  assert (Hd : no_linebreak ((48 + n mod 10)%N :: acc) = true).
  { rewrite no_linebreak_cons, Hacc, is_linebreak_false; [reflexivity|].
    assert (n mod 10 < 10)%N by (apply N.mod_upper_bound; discriminate).
    set (digit := (n mod 10)%N) in *. clearbody digit. lia. }
  cbv zeta. destruct (n / 10 =? 0)%N; [exact Hd | apply IH, Hd].
Qed.

Lemma no_linebreak_str_of_Z z : no_linebreak (str_of_Z z) = true.
Proof.
  destruct z; unfold str_of_Z, str_of_N.
  - apply no_linebreak_digits; reflexivity.
  - apply no_linebreak_digits; reflexivity.
  - rewrite no_linebreak_cons, no_linebreak_digits; reflexivity.
Qed.

Lemma no_linebreak_rjust w s : no_linebreak s = true -> no_linebreak (rjust w s) = true.
Proof.
  intros H. unfold rjust. rewrite no_linebreak_app, no_linebreak_spaces, H.
  reflexivity.
Qed.

Lemma no_linebreak_ljust w s : no_linebreak s = true -> no_linebreak (ljust w s) = true.
Proof.
  intros H. unfold ljust. rewrite no_linebreak_app, no_linebreak_spaces, H.
  reflexivity.
Qed.

(** A line of the table for a name that stays on its line is one line,
    and not an empty one. *)
Lemma format_entry_line rank data line :
  one_line_name (name data) = true ->
  format_entry rank data = inr line ->
  no_linebreak line = true /\ line <> [].
Proof.
  unfold format_entry, format_name. intros Hn H.
  destruct (name data) as [| | |s| |]; try discriminate.
  inversion H; subst; clear H. cbn [one_line_name] in Hn.
  unfold AOC_TABLE_TEMPLATE. split.
  - rewrite !no_linebreak_app.
    rewrite !no_linebreak_rjust by apply no_linebreak_str_of_Z.
    rewrite no_linebreak_ljust by assumption.
    repeat (rewrite ?no_linebreak_cons, ?no_linebreak_app,
              ?no_linebreak_str_of_Z).
    reflexivity.
  - intros Hnil. apply (f_equal (@length N)) in Hnil.
    rewrite !length_app in Hnil.
    change (length (u " | ")) with 3%nat in Hnil.
    change (length (@nil N)) with 0%nat in Hnil. lia.
Qed.

Lemma splitlines_from_plain (l : str) : forall cur s,
  no_linebreak l = true ->
  splitlines_from cur (l ++ s) = splitlines_from (cur ++ l) s.
Proof.
  induction l as [|c l IH]; intros cur s H; simpl in *.
  - rewrite app_nil_r; reflexivity.
  - apply andb_true_iff in H. destruct H as [Hc Hl].
    apply negb_true_iff in Hc. rewrite Hc, IH by assumption.
    rewrite <- app_assoc. reflexivity.
Qed.

Lemma splitlines_from_newline cur s :
  splitlines_from cur (10%N :: s) = cur :: splitlines_from [] s.
Proof. destruct s; reflexivity. Qed.

(** Lines that hold no boundary and are not empty are what
    [splitlines] finds in their [join]. *)
Lemma splitlines_join (lines : list str) :
  Forall (fun l => no_linebreak l = true /\ l <> []) lines ->
  splitlines (join [10%N] lines) = lines.
Proof.
  unfold splitlines.
  induction lines as [|l lines IH]; intros H; [reflexivity|].
  inversion H as [|? ? [Hl Hne] Hrest]; subst.
  destruct lines as [|l2 lines].
  - simpl. rewrite <- (app_nil_r l) at 1.
    rewrite splitlines_from_plain by assumption. simpl.
    destruct l; [congruence | reflexivity].
  - change (join [10%N] (l :: l2 :: lines))
      with (l ++ 10%N :: join [10%N] (l2 :: lines)).
    rewrite splitlines_from_plain by assumption.
    rewrite splitlines_from_newline, IH by assumption. reflexivity.
Qed.

Lemma join_first_two (a b : str) (rest : list str) :
  join [10%N] ((a ++ [10%N] ++ b) :: rest) = join [10%N] (a :: b :: rest).
Proof.
  destruct rest; simpl; rewrite <- ?app_assoc; reflexivity.
Qed.

Lemma Forall_firstn {A} (P : A -> Prop) (l : list A) : forall n,
  Forall P l -> Forall P (firstn n l).
Proof.
  induction l as [|a l IH]; intros [|n] H; simpl; auto.
  inversion H; subst. constructor; auto.
Qed.

(** The loop of the formatter appends one line for each entry. *)
Lemma format_loop_lines (l : list LeaderboardEntry) : forall start init lines,
  Forall (fun data => one_line_name (name data) = true) l ->
  foldE (fun leaderboard_lines rank_data =>
           match format_entry (fst rank_data) (snd rank_data) with
           | inl e => inl e
           | inr line => ok (leaderboard_lines ++ [line])
           end)
        init (enumerate start l) = inr lines ->
  exists added,
    lines = init ++ added
    /\ length added = length l
    /\ Forall (fun l => no_linebreak l = true /\ l <> []) added.
Proof.
  induction l as [|data l IH]; intros start init lines Hall H; simpl in H.
  - inversion H; subst. exists []. rewrite app_nil_r. repeat split; constructor.
  - inversion Hall as [|? ? Hd Hl]; subst.
    destruct (format_entry start data) as [|line] eqn:E; [discriminate|].
    simpl in H. destruct (IH _ _ _ Hl H) as (added & -> & Hlen & Hgood).
    exists (line :: added). rewrite <- app_assoc. repeat split; simpl; auto.
    constructor; [eapply format_entry_line; eauto | assumption].
Qed.

(** Claim C7 fails as stated: a leaderboard the aggregator returns can
    hold a name with a line feed, and the table of its one entry then has
    four lines, not 2 + 1. *)
Lemma a_name_can_break_a_line :
  exists parsed full,
    _parse_raw_leaderboard_data plain_runtime default_config two_line_name_example
      = inr parsed
    /\ leaderboard parsed = two_line_name_leaderboard
    /\ _format_leaderboard (leaderboard parsed) = inr full
    /\ length (splitlines full) = 4%nat
    /\ (2 + length (leaderboard parsed) = 3)%nat.
Proof.
  eexists; eexists.
  split; [vm_compute; reflexivity|].
  split; [reflexivity|].
  split; [vm_compute; reflexivity|].
  split; reflexivity.
Qed.

(** Claim C7, amended: for every leaderboard whose names hold no line
    boundary in their first 25 code points, the formatted table has the 2
    lines of the header and one line for each entry, and the lines of
    the top view are the first [2 + leaderboard_displayed_members] lines
    of the table (all of them when the table has fewer). *)
Theorem table_lines lb full :
  Forall (fun e => one_line_name (name (snd e)) = true) lb ->
  _format_leaderboard lb = inr full ->
  length (splitlines full) = (2 + length lb)%nat
  /\ firstn 2 (splitlines full) = splitlines HEADER
  /\ forall aoc,
       TOP_LEADERBOARD_LINES aoc = (2 + leaderboard_displayed_members aoc)%nat
       /\ splitlines (_get_top_leaderboard aoc full)
          = firstn (2 + leaderboard_displayed_members aoc) (splitlines full).
Proof.
  intros Hnames H. unfold _format_leaderboard in H.
  destruct (foldE _ [HEADER] (enumerate 1 (map snd lb))) as [|lines] eqn:E;
    [discriminate|].
  inversion H; subst full; clear H.
  destruct (@format_loop_lines (map snd lb) 1%nat [HEADER] lines)
    as (added & -> & Hlen & Hgood); auto.
  { apply Forall_map. exact Hnames. }
  change ([HEADER] ++ added) with (HEADER :: added).
  set (dashes := repeat 45%N (length HEADER_first_line + 2)).
  assert (Hall : Forall (fun l => no_linebreak l = true /\ l <> [])
                   (HEADER_first_line :: dashes :: added)).
  { constructor; [split; [reflexivity | discriminate]|].
    constructor; [split; [reflexivity | discriminate]|]. assumption. }
  assert (Hlines : splitlines (join [10%N] (HEADER :: added))
                   = HEADER_first_line :: dashes :: added).
  { unfold HEADER. rewrite join_first_two. apply splitlines_join, Hall. }
  rewrite Hlines. rewrite length_map in Hlen.
  split; [simpl; rewrite Hlen; reflexivity|].
  split; [reflexivity|].
  intros aoc. split; [reflexivity|].
  unfold _get_top_leaderboard.
  change (TOP_LEADERBOARD_LINES aoc)
    with (2 + leaderboard_displayed_members aoc)%nat.
  rewrite Hlines.
  apply splitlines_join.
  apply Forall_firstn. exact Hall.
Qed.

Lemma table_lines_witness :
  exists full,
    Forall (fun e => one_line_name (name (snd e)) = true) example_leaderboard
    /\ _format_leaderboard example_leaderboard = inr full
    /\ length (splitlines full) = (2 + length example_leaderboard)%nat
    /\ firstn 2 (splitlines full) = splitlines HEADER
    /\ forall aoc,
         TOP_LEADERBOARD_LINES aoc
           = (2 + leaderboard_displayed_members aoc)%nat
         /\ splitlines (_get_top_leaderboard aoc full)
            = firstn (2 + leaderboard_displayed_members aoc) (splitlines full).
Proof.
  eexists.
  split; [repeat constructor|].
  split; [vm_compute; reflexivity|].
  apply (@table_lines example_leaderboard);
    [repeat constructor | vm_compute; reflexivity].
Defined.

(** ** The fetcher and its fallback credential (claim C4) *)

Section FetcherFacts.
Variables (aoc : AdventOfCode) (env : Env).

Lemma _leaderboard_request_run url board cookie w :
  _leaderboard_request env url board cookie w
  = (request_outcome url (network env (length (requests w))),
     log_request {| req_method := u "GET"; req_url := url;
                    req_session := Some cookie; req_data := None |} w).
Proof.
  unfold _leaderboard_request, bindIO, aiohttp_request, request_outcome.
  destruct (network env (length (requests w))) as [e|resp]; [reflexivity|].
  destruct (negb (str_eqb (resp_url resp) url)); [reflexivity|].
  destruct (negb (status resp =? 200)); reflexivity.
Qed.

Lemma switch_to_fallback_session board b boards :
  dict_get str_eqb board boards = Some b ->
  exists b',
    dict_get str_eqb board (switch_to_fallback board boards) = Some b'
    /\ session aoc b' = fallback_session aoc.
Proof.
  induction boards as [|[k v] boards IH]; simpl; [discriminate|].
  destruct (str_eqb board k) eqn:E; simpl; rewrite E.
  - intros _. eexists; split; reflexivity.
  - assumption.
Qed.

(** One attempt, by what the request runs into. *)
Lemma fetch_attempts_step attempt later board participants b w :
  dict_get str_eqb board (leaderboards w) = Some b ->
  let cookie := session aoc b in
  let w1 := log_request (board_request aoc board cookie) w in
  fetch_attempts aoc env (attempt :: later) board participants w
  = match request_outcome (AOC_API_URL (year aoc) board)
            (network env (length (requests w))) with
    | inl UnexpectedRedirect =>
        if str_eqb cookie (fallback_session aoc)
        then (inl FetchingLeaderboardFailed, w1)
        else fetch_attempts aoc env later board participants
               (set_leaderboards (switch_to_fallback board) w1)
    | inl e =>
        if is_ClientError e then (inl FetchingLeaderboardFailed, w1)
        else (inl e, w1)
    | inr raw_data => store_participants board participants raw_data w1
    end.
Proof.
  intros Hb cookie w1. cbn [fetch_attempts].
  unfold bindIO, board_session, try, modify, throw, ok, raise. rewrite Hb.
  cbv beta iota. rewrite _leaderboard_request_run.
  fold cookie. fold (board_request aoc board cookie). fold w1.
  destruct (request_outcome _ _) as [e|raw_data]; [|reflexivity].
  destruct e; try reflexivity.
  destruct (str_eqb cookie (fallback_session aoc)); reflexivity.
Qed.

(** Storing the participants of a board issues no request. *)
Lemma store_participants_requests board participants raw_data w :
  requests (snd (store_participants board participants raw_data w))
  = requests w.
Proof.
  unfold store_participants, bindIO, lift, modify.
  destruct (getitem raw_data (u "members")) as [|members]; [reflexivity|].
  destruct (len members) as [|n]; [reflexivity|]. reflexivity.
Qed.

End FetcherFacts.



(** ** The upload (claim C9) *)

(** What [_upload_leaderboard] returns, by the answer of the paste
    service: the raw URL for an object with a ["key"], the empty string
    for an object without one and for an answer that is not JSON; for
    every other document [TypeError], from ["key" in resp_json] (null, a
    number, a boolean) or from [resp_json["key"]] (a list or a string
    that holds ["key"]). *)
Lemma _upload_leaderboard_cases py env leaderboard w :
  let post := {| req_method := u "POST"; req_url := PASTE_URL;
                 req_session := None; req_data := Some leaderboard |} in
  _upload_leaderboard py env leaderboard w
  = (match network env (length (requests w)) with
     | inl e => inl e
     | inr resp =>
         match resp_json resp with
         | inl _ => inr []
         | inr (JObj kv) =>
             match dict_get str_eqb (u "key") kv with
             | Some key => inr (RAW_PASTE_URL_TEMPLATE (py_str py key))
             | None => inr []
             end
         | inr (JArr l) =>
             if existsb (py_eqb (JStr (u "key"))) l then inl TypeError
             else inr []
         | inr (JStr s) =>
             if is_substring (u "key") s then inl TypeError else inr []
         | inr _ => inl TypeError
         end
     end,
     log_request post w).
Proof.
  intros post. unfold _upload_leaderboard, bindIO, aiohttp_request.
  fold post.
  destruct (network env (length (requests w))) as [e|resp]; [reflexivity|].
  destruct (resp_json resp) as [e|[| | |s|l|kv]]; try reflexivity.
  - unfold lift, contains, ok. destruct (is_substring (u "key") s); reflexivity.
  - unfold lift, contains, ok.
    destruct (existsb (py_eqb (JStr (u "key"))) l); reflexivity.
  - unfold lift, contains, ok, dict_mem, getitem, dict_getitem.
    destruct (dict_get str_eqb (u "key") kv); reflexivity.
Qed.

(** Claim C9 is not what the code does on a JSON answer that is not an
    object: for the document [null] the upload raises [TypeError] instead
    of returning the empty string. *)
Theorem upload_raises_on_null :
  fst (_upload_leaderboard plain_runtime (paste_answers (inr JNull)) (u "table")
         one_board_world)
  = inl TypeError.
Proof. reflexivity. Qed.

(** On the answers the claim names, the upload does what it says. *)
Lemma upload_returns_on_objects_and_non_json :
  fst (_upload_leaderboard plain_runtime
         (paste_answers (inr (JObj [(u "key", JStr (u "abc"))])))
         (u "table") one_board_world)
  = inr (u "https://paste.pythondiscord.com/raw/abc")
  /\ fst (_upload_leaderboard plain_runtime
            (paste_answers (inr (JObj [(u "message", JStr (u "no"))])))
            (u "table") one_board_world)
     = inr []
  /\ fst (_upload_leaderboard plain_runtime (paste_answers (inl OtherException))
            (u "table") one_board_world)
     = inr [].
Proof. repeat split; reflexivity. Qed.

(** ** The caches *)

Lemma bindIO_inr {A B} (m : IO A) (k : A -> IO B) w b w' :
  bindIO m k w = (inr b, w') ->
  exists a w0, m w = (inr a, w0) /\ k a w0 = (inr b, w').
Proof.
  unfold bindIO. destruct (m w) as [[e|a] w0]; [discriminate | eauto].
Qed.

Lemma keeps_bind {A B} (m : IO A) (k : A -> IO B) :
  keeps_assignments m -> (forall a, keeps_assignments (k a)) ->
  keeps_assignments (bindIO m k).
Proof.
  intros Hm Hk w r w' H. unfold bindIO in H.
  destruct (m w) as [[e|a] w0] eqn:E.
  - inversion H; subst. eapply Hm; eauto.
  - rewrite (Hk a _ _ _ H). eapply Hm; eauto.
Qed.

Lemma keeps_ret {A} (a : A) : keeps_assignments (ret a).
Proof. intros w r w' H; inversion H; reflexivity. Qed.

Lemma keeps_throw {A} e : keeps_assignments (@throw A e).
Proof. intros w r w' H; inversion H; reflexivity. Qed.

Lemma keeps_lift {A} (m : Exc A) : keeps_assignments (lift m).
Proof. intros w r w' H; inversion H; reflexivity. Qed.

Lemma keeps_gets {A} (f : World -> A) : keeps_assignments (gets f).
Proof. intros w r w' H; inversion H; reflexivity. Qed.

Lemma keeps_try {A} (m : IO A) : keeps_assignments m -> keeps_assignments (try m).
Proof.
  intros Hm w r w' H. unfold try in H.
  destruct (m w) as [r0 w0] eqn:E. inversion H; subst. eapply Hm; eauto.
Qed.

Lemma keeps_modify (f : World -> World) :
  (forall w, assigned_leaderboard (f w) = assigned_leaderboard w) ->
  keeps_assignments (modify f).
Proof. intros Hf w r w' H; inversion H; apply Hf. Qed.

Lemma keeps_request env r : keeps_assignments (aiohttp_request env r).
Proof. intros w r0 w' H; inversion H; reflexivity. Qed.

Lemma keeps_forIO {A S} (body : S -> A -> IO S) (l : list A) :
  (forall s a, keeps_assignments (body s a)) ->
  forall s, keeps_assignments (forIO body s l).
Proof.
  intros Hb. induction l as [|a l IH]; intros s; simpl.
  - apply keeps_ret.
  - apply keeps_bind; auto.
Qed.

Create HintDb keeps.
#[local] Hint Resolve keeps_ret keeps_throw keeps_lift keeps_gets keeps_try
  keeps_request : keeps.

Section CacheFacts.
Variables (py : Python) (aoc : AdventOfCode) (env : Env).

Lemma keeps_leaderboard_request url board cookie :
  keeps_assignments (_leaderboard_request env url board cookie).
Proof.
  unfold _leaderboard_request. apply keeps_bind; auto with keeps.
  intros resp. destruct (negb _); auto with keeps.
  destruct (negb _); auto with keeps.
Qed.

Lemma keeps_store_participants board participants raw_data :
  keeps_assignments (store_participants board participants raw_data).
Proof.
  unfold store_participants.
  apply keeps_bind; [auto with keeps | intros board_participants].
  apply keeps_bind; [auto with keeps | intros n].
  apply keeps_bind; [apply keeps_modify; reflexivity | auto with keeps].
Qed.

Lemma keeps_fetch_attempts attempts : forall board participants,
  keeps_assignments (fetch_attempts aoc env attempts board participants).
Proof.
  induction attempts as [|a attempts IH]; intros board participants; simpl.
  - apply keeps_throw.
  - apply keeps_bind.
    { intros w r w' H. unfold board_session in H.
      destruct (dict_get str_eqb board (leaderboards w));
        inversion H; reflexivity. }
    intros cookie. apply keeps_bind.
    { apply keeps_try, keeps_leaderboard_request. }
    intros [e|raw_data]; [|apply keeps_store_participants].
    destruct e; try (destruct (is_ClientError _); auto with keeps; fail).
    destruct (str_eqb cookie (fallback_session aoc)); auto with keeps.
    apply keeps_bind; [apply keeps_modify; reflexivity | auto].
Qed.

Lemma keeps_fetch_leaderboard_data :
  keeps_assignments (_fetch_leaderboard_data aoc env).
Proof.
  unfold _fetch_leaderboard_data. apply keeps_bind; auto with keeps.
  intros boards. apply keeps_forIO. intros s a. apply keeps_fetch_attempts.
Qed.

Lemma keeps_upload_leaderboard leaderboard :
  keeps_assignments (_upload_leaderboard py env leaderboard).
Proof.
  unfold _upload_leaderboard. apply keeps_bind; auto with keeps.
  intros resp. destruct (resp_json resp) as [e|j]; auto with keeps.
  apply keeps_bind; auto with keeps.
  intros [|]; auto with keeps.
  apply keeps_bind; auto with keeps.
Qed.

(** [fetch_leaderboard] works on the leaderboard cache and on the board
    counts, never on the assignments. *)
Lemma keeps_fetch_leaderboard invalidate_cache :
  keeps_assignments (fetch_leaderboard py aoc env invalidate_cache).
Proof.
  unfold fetch_leaderboard. apply keeps_bind; auto with keeps.
  intros cached. destruct (_ || _); auto with keeps.
  apply keeps_bind; [apply keeps_fetch_leaderboard_data | intros raw].
  apply keeps_bind; [auto with keeps | intros parsed].
  apply keeps_bind; [auto with keeps | intros formatted].
  apply keeps_bind; [apply keeps_upload_leaderboard | intros url].
  apply keeps_bind; [auto with keeps | intros fetched_at].
  apply keeps_bind; [apply keeps_modify; reflexivity | auto with keeps].
Qed.

(** With a complete cache, [fetch_leaderboard()] returns it and touches
    nothing. *)
Lemma fetch_leaderboard_cached w :
  cache_complete w ->
  fetch_leaderboard py aoc env false w = (inr (leaderboard_cache w), w).
Proof.
  unfold cache_complete, fetch_leaderboard, bindIO, gets. intros H.
  cbv beta iota. unfold ok. rewrite H. reflexivity.
Qed.
Lemma dict_mem_set k k' (v : RedisValue) d :
  dict_mem str_eqb k d = true \/ k = k' ->
  dict_mem str_eqb k (dict_set str_eqb k' v d) = true.
Proof.
  unfold dict_mem. intros [H | ->].
  - destruct (dict_get str_eqb k (dict_set str_eqb k' v d)) eqn:E;
      [reflexivity|].
    exfalso. revert E. apply dict_set_present.
    destruct (dict_get str_eqb k d); [discriminate | discriminate H].
  - rewrite dict_get_set by apply str_eqb_refl. reflexivity.
Qed.

Lemma dict_mem_update k (items : list (str * RedisValue)) : forall d,
  dict_mem str_eqb k d = true \/ In k (map fst items) ->
  dict_mem str_eqb k (dict_update str_eqb items d) = true.
Proof.
  unfold dict_update.
  induction items as [|[k' v] items IH]; intros d H; simpl in *.
  - destruct H as [H|[]]; exact H.
  - apply IH. destruct H as [H|[H|H]]; auto.
    + left. apply dict_mem_set. auto.
    + left. apply dict_mem_set. auto.
Qed.

(** After a [fetch_leaderboard] that returned, the cache is complete. *)
Lemma fetch_leaderboard_completes invalidate_cache w cached w1 :
  fetch_leaderboard py aoc env invalidate_cache w = (inr cached, w1) ->
  cache_complete w1.
Proof.
  unfold fetch_leaderboard. intros H.
  apply bindIO_inr in H. destruct H as (c0 & w0 & Hg & H).
  inversion Hg; subst c0 w0; clear Hg.
  destruct (invalidate_cache || _) eqn:Hcond.
  - apply bindIO_inr in H. destruct H as (raw & wa & _ & H).
    apply bindIO_inr in H. destruct H as (parsed & wb & _ & H).
    apply bindIO_inr in H. destruct H as (formatted & wc & _ & H).
    apply bindIO_inr in H. destruct H as (url & wd & _ & H).
    apply bindIO_inr in H. destruct H as (fetched_at & we & _ & H).
    apply bindIO_inr in H. destruct H as (x & wf & Hm & H).
    inversion H; subst; clear H. inversion Hm; subst; clear Hm.
    unfold cache_complete, REQUIRED_CACHE_KEYS.
    cbn [existsb leaderboard_cache set_leaderboard_cache].
    rewrite !dict_mem_update; [reflexivity | | | | | |];
      right; simpl; tauto.
  - inversion H; subst. apply orb_false_iff in Hcond. apply Hcond.
Qed.
End CacheFacts.

(** ** Join codes (claims C5 and C6) *)

Lemma min_item_In (l : list (str * Z)) : forall best,
  In (min_item best l) (best :: l).
Proof.
  induction l as [|x l IH]; intros best; simpl; [auto|].
  destruct (IH (if snd x <? snd best then x else best)) as [H|H]; auto.
  destruct (snd x <? snd best); [right; left | left]; auto.
Qed.

Lemma dict_get_In (k : str) (d : list (str * Z)) v :
  dict_get str_eqb k d = Some v -> In (k, v) d.
Proof.
  induction d as [|[k' v'] d IH]; simpl; [discriminate|].
  destruct (str_eqb k k') eqn:E; [|auto].
  apply str_eqb_eq in E; subst. intros H; inversion H; auto.
Qed.

Lemma In_dict_get (k : str) (d : list (str * Z)) v :
  In (k, v) d -> dict_get str_eqb k d <> None.
Proof.
  induction d as [|[k' v'] d IH]; simpl; [tauto|].
  intros [H|H].
  - inversion H; subst. rewrite str_eqb_refl; discriminate.
  - destruct (str_eqb k k'); [discriminate | auto].
Qed.

Section JoinCodeFacts.
Variables (py : Python) (aoc : AdventOfCode) (env : Env).

(** What [get_public_join_code] does after a [fetch_leaderboard] that
    returned. *)
Lemma get_public_join_code_run author w cached w1 :
  fetch_leaderboard py aoc env false w = (inr cached, w1) ->
  get_public_join_code py aoc env author w
  = let current_board_counts :=
      dict_pop str_eqb (staff_leaderboard_id aoc) (leaderboard_counts w1) in
    match dict_get Z.eqb author (assigned_leaderboard w) with
    | Some board =>
        if truthy_str board then
          if count_of current_board_counts board <? 200
          then join_code_of board w1
          else assign_board py aoc env author current_board_counts w1
        else assign_board py aoc env author current_board_counts w1
    | None => assign_board py aoc env author current_board_counts w1
    end.
Proof.
  intros Hfetch. unfold get_public_join_code, bindIO, gets. rewrite Hfetch.
  cbv beta iota zeta. unfold ok.
  rewrite (keeps_fetch_leaderboard py aoc env false _ Hfetch).
  destruct (dict_get Z.eqb author (assigned_leaderboard w)) as [board|];
    [|reflexivity].
  destruct (truthy_str board); [|reflexivity].
  destruct (count_of _ board <? 200); reflexivity.
Qed.

(** The path of claim C5 on which the code does what the claim says:
    with counts in the cache for some board other than the staff board,
    all of them at 200 or more, and no earlier assignment to a board with
    room, there is no join code and nothing is assigned. *)
Lemma no_join_code_when_full author w cached w1 :
  fetch_leaderboard py aoc env false w = (inr cached, w1) ->
  let counts :=
    dict_pop str_eqb (staff_leaderboard_id aoc) (leaderboard_counts w1) in
  counts <> [] ->
  Forall (fun board_count => 200 <= snd board_count) counts ->
  match dict_get Z.eqb author (assigned_leaderboard w) with
  | Some board => truthy_str board = false \/ 200 <= count_of counts board
  | None => True
  end ->
  get_public_join_code py aoc env author w = (inr None, w1).
Proof.
  intros Hfetch counts Hne Hfull Hprev.
  rewrite (get_public_join_code_run author _ Hfetch). cbv zeta. fold counts.
  assert (Hassign : assign_board py aoc env author counts w1 = (inr None, w1)).
  { unfold assign_board. destruct counts as [|first others] eqn:Ec;
      [congruence|].
    unfold bindIO, ret, ok.
    pose proof (min_item_In others first) as Hin.
    destruct (min_item first others) as [best n] eqn:Em. cbn [fst].
    unfold count_of.
    destruct (dict_get str_eqb best (first :: others)) as [v|] eqn:Eg.
    - apply dict_get_In in Eg. rewrite Forall_forall in Hfull.
      specialize (Hfull _ Eg); simpl in Hfull.
      rewrite (proj2 (Z.geb_le _ _)) by lia. reflexivity.
    - exfalso. revert Eg. eapply In_dict_get; eauto. }
  destruct (dict_get Z.eqb author (assigned_leaderboard w)) as [board|];
    [|exact Hassign].
  destruct (truthy_str board); [|exact Hassign].
  destruct Hprev as [Hprev|Hprev]; [discriminate|].
  rewrite (proj2 (Z.ltb_ge _ _)) by lia. exact Hassign.
Qed.

(** Claim C6: for a user with an assigned board (a board of the
    configuration) whose count, as [get_public_join_code] reads it after
    its [fetch_leaderboard], is below 200, the call returns the join code
    of that board, the call after it returns the same join code, and
    neither changes the stored assignment. *)
Theorem sticky_join_code author w cached w1 board b :
  fetch_leaderboard py aoc env false w = (inr cached, w1) ->
  dict_get Z.eqb author (assigned_leaderboard w) = Some board ->
  board <> [] ->
  count_of (dict_pop str_eqb (staff_leaderboard_id aoc) (leaderboard_counts w1))
           board < 200 ->
  dict_get str_eqb board (leaderboards w1) = Some b ->
  get_public_join_code py aoc env author w = (inr (Some (join_code b)), w1)
  /\ get_public_join_code py aoc env author w1 = (inr (Some (join_code b)), w1)
  /\ assigned_leaderboard w1 = assigned_leaderboard w.
Proof.
  intros Hfetch Hprev Hboard Hcount Hb.
  pose proof (keeps_fetch_leaderboard py aoc env false _ Hfetch) as Hkeep.
  assert (Hcall : forall w0 c0,
            fetch_leaderboard py aoc env false w0 = (inr c0, w1) ->
            dict_get Z.eqb author (assigned_leaderboard w0) = Some board ->
            get_public_join_code py aoc env author w0
            = (inr (Some (join_code b)), w1)).
  { intros w0 c0 Hf Hp. rewrite (get_public_join_code_run author _ Hf).
    cbv zeta. rewrite Hp.
    destruct board as [|c board]; [congruence|]. cbn [truthy_str].
    rewrite (proj2 (Z.ltb_lt _ _) Hcount).
    unfold join_code_of. rewrite Hb. reflexivity. }
  split; [eapply Hcall; eauto|]. split; [|exact Hkeep].
  apply (Hcall w1 (leaderboard_cache w1)).
  - apply fetch_leaderboard_cached.
    eapply fetch_leaderboard_completes; eauto.
  - rewrite Hkeep. exact Hprev.
Qed.
End JoinCodeFacts.

Lemma sticky_join_code_witness :
  fetch_leaderboard plain_runtime default_config public_board_full false
    assigned_world
    = (inr (leaderboard_cache assigned_world), assigned_world)
  /\ dict_get Z.eqb 7 (assigned_leaderboard assigned_world) = Some (u "public")
  /\ u "public" <> []
  /\ count_of (dict_pop str_eqb (staff_leaderboard_id default_config)
                 (leaderboard_counts assigned_world)) (u "public") < 200
  /\ get_public_join_code plain_runtime default_config public_board_full 7
       assigned_world
     = (inr (Some (u "public-code")), assigned_world)
  /\ get_public_join_code plain_runtime default_config public_board_full 7
       assigned_world
     = (inr (Some (u "public-code")), assigned_world)
  /\ assigned_leaderboard assigned_world = assigned_leaderboard assigned_world.
Proof.
  split; [reflexivity|]. split; [reflexivity|]. split; [discriminate|].
  split; [reflexivity|].
  apply (@sticky_join_code plain_runtime default_config public_board_full 7
           assigned_world (leaderboard_cache assigned_world) assigned_world
           (u "public")
           {| _session := u "public-session"; join_code := u "public-code";
              use_fallback_session := false |});
    [reflexivity | reflexivity | discriminate | reflexivity | reflexivity].
Defined.

(** Claim C6 is not what the code does for a user whose stored board has
    left the configuration: the board has no count, which reads as 0 and
    so as below 200, and each of two consecutive calls raises [KeyError]
    from the lookup of the board at line 356 instead of returning a join
    code. *)
Lemma a_retired_board_has_no_join_code :
  let first_call :=
    get_public_join_code plain_runtime default_config public_board_full 7
      stale_assignment_world in
  let second_call :=
    get_public_join_code plain_runtime default_config public_board_full 7
      (snd first_call) in
  dict_get Z.eqb 7 (assigned_leaderboard stale_assignment_world)
    = Some (u "retired")
  /\ count_of (dict_pop str_eqb (staff_leaderboard_id default_config)
                 (leaderboard_counts stale_assignment_world))
              (u "retired") = 0
  /\ dict_get str_eqb (u "retired") (leaderboards stale_assignment_world)
     = None
  /\ fst first_call = inl KeyError
  /\ fst second_call = inl KeyError.
Proof. repeat split; reflexivity. Qed.

(** Claim C5 is not what the code does when the cache holds no board
    counts: they are fetched again and read without the staff board being
    removed.  Here the public board has its 200 members and the staff
    board 1; the user gets the join code of the staff board and is
    assigned to it. *)
Theorem staff_code_when_counts_missing :
  exists w',
    get_public_join_code plain_runtime default_config public_board_full 42
      counts_missing_world
    = (inr (Some (u "staff-code")), w')
    /\ leaderboard_counts w' = [ (u "staff", 1); (u "public", 200) ]
    /\ staff_leaderboard_id default_config = u "staff"
    /\ assigned_leaderboard counts_missing_world = []
    /\ assigned_leaderboard w' = [ (42, u "staff") ].
Proof.
  eexists. split; [vm_compute; reflexivity|].
  repeat split; reflexivity.
Qed.

(* ===================================================================== *)
(** * Further properties of the code *)

(** ** What the coroutines leave alone *)

Section Evolves.
Variable R : World -> World -> Prop.
Hypothesis R_refl : forall w, R w w.
Hypothesis R_trans : forall w1 w2 w3, R w1 w2 -> R w2 w3 -> R w1 w3.

Lemma evolves_bind {A B} (m : IO A) (k : A -> IO B) :
  evolves R m -> (forall a, evolves R (k a)) -> evolves R (bindIO m k).
Proof.
  intros Hm Hk w r w' H. unfold bindIO in H.
  destruct (m w) as [[e|a] w0] eqn:E.
  - inversion H; subst. eapply Hm; eauto.
  - eapply R_trans; [eapply Hm; eauto | eapply Hk; eauto].
Qed.

Lemma evolves_ret {A} (a : A) : evolves R (ret a).
Proof. intros w r w' H; inversion H; subst; apply R_refl. Qed.

Lemma evolves_throw {A} e : evolves R (@throw A e).
Proof. intros w r w' H; inversion H; subst; apply R_refl. Qed.

Lemma evolves_lift {A} (m : Exc A) : evolves R (lift m).
Proof. intros w r w' H; inversion H; subst; apply R_refl. Qed.

Lemma evolves_gets {A} (f : World -> A) : evolves R (gets f).
Proof. intros w r w' H; inversion H; subst; apply R_refl. Qed.

Lemma evolves_try {A} (m : IO A) : evolves R m -> evolves R (try m).
Proof.
  intros Hm w r w' H. unfold try in H.
  destruct (m w) as [r0 w0] eqn:E. inversion H; subst. eapply Hm; eauto.
Qed.

Lemma evolves_modify (f : World -> World) :
  (forall w, R w (f w)) -> evolves R (modify f).
Proof. intros Hf w r w' H; inversion H; subst; apply Hf. Qed.

Lemma evolves_forIO {A S} (body : S -> A -> IO S) (l : list A) :
  (forall s a, evolves R (body s a)) ->
  forall s, evolves R (forIO body s l).
Proof.
  intros Hb. induction l as [|a l IH]; intros s; simpl.
  - apply evolves_ret.
  - apply evolves_bind; auto.
Qed.

Hypothesis R_log : forall r w, R w (log_request r w).
Hypothesis R_counts :
  forall board n w, R w (set_leaderboard_counts (dict_set str_eqb board n) w).
Hypothesis R_switch :
  forall board w, R w (set_leaderboards (switch_to_fallback board) w).

Variables (py : Python) (aoc : AdventOfCode) (env : Env).

Lemma evolves_request r : evolves R (aiohttp_request env r).
Proof. intros w r0 w' H; inversion H; subst; apply R_log. Qed.

Lemma evolves_leaderboard_request url board cookie :
  evolves R (_leaderboard_request env url board cookie).
Proof.
  unfold _leaderboard_request.
  apply evolves_bind; [apply evolves_request|].
  intros resp. destruct (negb _); [apply evolves_throw|].
  destruct (negb _); [apply evolves_throw | apply evolves_lift].
Qed.

Lemma evolves_board_session board : evolves R (board_session aoc board).
Proof.
  intros w r w' H. unfold board_session in H.
  destruct (dict_get str_eqb board (leaderboards w));
    inversion H; subst; apply R_refl.
Qed.

Lemma evolves_store_participants board participants raw_data :
  evolves R (store_participants board participants raw_data).
Proof.
  unfold store_participants.
  apply evolves_bind; [apply evolves_lift | intros board_participants].
  apply evolves_bind; [apply evolves_lift | intros n].
  apply evolves_bind; [apply evolves_modify, R_counts | intros _].
  apply evolves_lift.
Qed.

Lemma evolves_fetch_attempts attempts : forall board participants,
  evolves R (fetch_attempts aoc env attempts board participants).
Proof.
  induction attempts as [|a attempts IH]; intros board participants; simpl.
  - apply evolves_throw.
  - apply evolves_bind; [apply evolves_board_session | intros cookie].
    apply evolves_bind;
      [apply evolves_try, evolves_leaderboard_request|].
    intros [e|raw_data]; [|apply evolves_store_participants].
    destruct e;
      try (destruct (is_ClientError _); apply evolves_throw).
    destruct (str_eqb cookie (fallback_session aoc)); [apply evolves_throw|].
    apply evolves_bind; [apply evolves_modify, R_switch | auto].
Qed.

Lemma evolves_fetch_leaderboard_data :
  evolves R (_fetch_leaderboard_data aoc env).
Proof.
  unfold _fetch_leaderboard_data.
  apply evolves_bind; [apply evolves_gets | intros boards].
  apply evolves_forIO. intros s a. apply evolves_fetch_attempts.
Qed.

Lemma evolves_upload_leaderboard leaderboard :
  evolves R (_upload_leaderboard py env leaderboard).
Proof.
  unfold _upload_leaderboard.
  apply evolves_bind; [apply evolves_request | intros resp].
  destruct (resp_json resp) as [e|j]; [apply evolves_ret|].
  apply evolves_bind; [apply evolves_lift | intros [|]];
    [|apply evolves_ret].
  apply evolves_bind; [apply evolves_lift | intros key; apply evolves_ret].
Qed.

Hypothesis R_cache : forall f ttl w, R w (set_leaderboard_cache f ttl w).

Lemma evolves_fetch_leaderboard invalidate_cache :
  evolves R (fetch_leaderboard py aoc env invalidate_cache).
Proof.
  unfold fetch_leaderboard.
  apply evolves_bind; [apply evolves_gets | intros cached].
  destruct (_ || _); [|apply evolves_ret].
  apply evolves_bind; [apply evolves_fetch_leaderboard_data | intros raw].
  apply evolves_bind; [apply evolves_lift | intros parsed].
  apply evolves_bind; [apply evolves_lift | intros formatted].
  apply evolves_bind; [apply evolves_upload_leaderboard | intros url].
  apply evolves_bind; [apply evolves_gets | intros fetched_at].
  apply evolves_bind; [apply evolves_modify, R_cache | intros _].
  apply evolves_ret.
Qed.

Hypothesis R_assigned : forall f w, R w (set_assigned_leaderboard f w).

Lemma evolves_join_code_of board : evolves R (join_code_of board).
Proof.
  intros w r w' H. unfold join_code_of in H.
  destruct (dict_get str_eqb board (leaderboards w));
    inversion H; subst; apply R_refl.
Qed.

Lemma evolves_assign_board author counts :
  evolves R (assign_board py aoc env author counts).
Proof.
  unfold assign_board. apply evolves_bind.
  - destruct counts; [|apply evolves_ret].
    apply evolves_bind; [apply evolves_fetch_leaderboard | intros _].
    apply evolves_gets.
  - intros [|first others]; [apply evolves_throw|].
    destruct (_ >=? 200); [apply evolves_ret|].
    apply evolves_bind; [apply evolves_modify, R_assigned | intros _].
    apply evolves_join_code_of.
Qed.

Lemma evolves_get_public_join_code author :
  evolves R (get_public_join_code py aoc env author).
Proof.
  unfold get_public_join_code.
  apply evolves_bind; [apply evolves_fetch_leaderboard | intros _].
  apply evolves_bind; [apply evolves_gets | intros previous].
  apply evolves_bind; [apply evolves_gets | intros counts].
  destruct previous as [board|]; [|apply evolves_assign_board].
  destruct (truthy_str board); [|apply evolves_assign_board].
  destruct (_ <? 200);
    [apply evolves_join_code_of | apply evolves_assign_board].
Qed.
End Evolves.

Lemma same_boards_refl w : same_boards w w.
Proof.
  unfold same_boards. induction (leaderboards w); constructor; auto.
Qed.

Lemma same_boards_trans w1 w2 w3 :
  same_boards w1 w2 -> same_boards w2 w3 -> same_boards w1 w3.
Proof.
  unfold same_boards. generalize (leaderboards w1) (leaderboards w2)
    (leaderboards w3). clear.
  intros l1 l2 l3 H; revert l3.
  induction H as [|a b l l' (H1 & H2 & H3 & H4) _ IH]; intros l3 H';
    inversion H' as [|? c ? ? (H5 & H6 & H7 & H8) Hrest]; subst.
  - constructor.
  - constructor; [|apply IH; assumption].
    repeat split; try congruence. auto.
Qed.

Lemma same_boards_switch board w :
  same_boards w (set_leaderboards (switch_to_fallback board) w).
Proof.
  unfold same_boards; simpl.
  induction (leaderboards w) as [|[k b] l IH]; simpl; constructor; auto.
  destruct (str_eqb board k); simpl; auto.
Qed.

Lemma counts_kept_refl w : counts_kept w w.
Proof. intros board H; exact H. Qed.

Lemma counts_kept_trans w1 w2 w3 :
  counts_kept w1 w2 -> counts_kept w2 w3 -> counts_kept w1 w3.
Proof. intros H1 H2 board H; auto. Qed.

Lemma counts_kept_set board n w :
  counts_kept w (set_leaderboard_counts (dict_set str_eqb board n) w).
Proof. intros b H; simpl. apply dict_set_present; assumption. Qed.

Lemma bindIO_inl {A B} (m : IO A) (k : A -> IO B) w e w' :
  bindIO m k w = (inl e, w') ->
  m w = (inl e, w')
  \/ exists a w0, m w = (inr a, w0) /\ k a w0 = (inl e, w').
Proof.
  unfold bindIO. destruct (m w) as [[e0|a] w0]; intros H.
  - left; inversion H; reflexivity.
  - right; exists a, w0; split; [reflexivity | exact H].
Qed.

(** ** Requests *)

Lemma issues_weaken {A} n n' (m : IO A) :
  (n <= n')%nat -> issues_at_most n m -> issues_at_most n' m.
Proof.
  intros Hn Hm w r w' H. destruct (Hm _ _ _ H) as (l & Hl & Hlen).
  exists l; split; [assumption | lia].
Qed.

Lemma issues_none {A} (m : IO A) :
  (forall w r w', m w = (r, w') -> requests w' = requests w) ->
  issues_at_most 0 m.
Proof.
  intros Hm w r w' H. exists []. rewrite app_nil_r.
  split; [eapply Hm; eauto | simpl; lia].
Qed.

Lemma issues_bind {A B} n1 n2 (m : IO A) (k : A -> IO B) :
  issues_at_most n1 m -> (forall a, issues_at_most n2 (k a)) ->
  issues_at_most (n1 + n2) (bindIO m k).
Proof.
  intros Hm Hk w r w' H. unfold bindIO in H.
  destruct (m w) as [[e|a] w0] eqn:E.
  - inversion H; subst. destruct (Hm _ _ _ E) as (l & Hl & Hlen).
    exists l; split; [assumption | lia].
  - destruct (Hm _ _ _ E) as (l1 & Hl1 & Hlen1).
    destruct (Hk a _ _ _ H) as (l2 & Hl2 & Hlen2).
    exists (l1 ++ l2). rewrite Hl2, Hl1, app_assoc, length_app.
    split; [reflexivity | lia].
Qed.

Lemma issues_ret {A} (a : A) : issues_at_most 0 (ret a).
Proof. apply issues_none. intros w r w' H; inversion H; reflexivity. Qed.

Lemma issues_throw {A} e : issues_at_most 0 (@throw A e).
Proof. apply issues_none. intros w r w' H; inversion H; reflexivity. Qed.

Lemma issues_lift {A} (m : Exc A) : issues_at_most 0 (lift m).
Proof. apply issues_none. intros w r w' H; inversion H; reflexivity. Qed.

Lemma issues_gets {A} (f : World -> A) : issues_at_most 0 (gets f).
Proof. apply issues_none. intros w r w' H; inversion H; reflexivity. Qed.

Lemma issues_modify (f : World -> World) :
  (forall w, requests (f w) = requests w) -> issues_at_most 0 (modify f).
Proof.
  intros Hf. apply issues_none. intros w r w' H; inversion H; apply Hf.
Qed.

Lemma issues_try {A} n (m : IO A) :
  issues_at_most n m -> issues_at_most n (try m).
Proof.
  intros Hm w r w' H. unfold try in H.
  destruct (m w) as [r0 w0] eqn:E. inversion H; subst. eapply Hm; eauto.
Qed.

Lemma issues_request env r : issues_at_most 1 (aiohttp_request env r).
Proof.
  intros w r0 w' H. inversion H; subst. exists [r]. split; [reflexivity|].
  simpl; lia.
Qed.

Lemma issues_forIO {A S} n (body : S -> A -> IO S) (l : list A) :
  (forall s a, issues_at_most n (body s a)) ->
  forall s, issues_at_most (length l * n) (forIO body s l).
Proof.
  intros Hb. induction l as [|a l IH]; intros s; simpl.
  - apply issues_ret.
  - apply (issues_weaken (n := n + length l * n)); [lia|].
    apply issues_bind; auto.
Qed.

Section RequestFacts.
Variables (py : Python) (aoc : AdventOfCode) (env : Env).

Lemma issues_leaderboard_request url board cookie :
  issues_at_most 1 (_leaderboard_request env url board cookie).
Proof.
  unfold _leaderboard_request.
  apply (issues_weaken (n := 1 + 0)); [lia|].
  apply issues_bind; [apply issues_request|].
  intros resp. destruct (negb _); [apply issues_throw|].
  destruct (negb _); [apply issues_throw | apply issues_lift].
Qed.

Lemma issues_store_participants board participants raw_data :
  issues_at_most 0 (store_participants board participants raw_data).
Proof.
  apply issues_none. intros w r w' H.
  pose proof (store_participants_requests board participants raw_data w) as E.
  rewrite H in E. exact E.
Qed.

Lemma issues_fetch_attempts attempts : forall board participants,
  issues_at_most (length attempts)
    (fetch_attempts aoc env attempts board participants).
Proof.
  induction attempts as [|a attempts IH]; intros board participants; simpl.
  - apply issues_throw.
  - apply (issues_weaken (n := 0 + (1 + length attempts))); [lia|].
    apply issues_bind.
    { apply issues_none. intros w r w' H. unfold board_session in H.
      destruct (dict_get str_eqb board (leaderboards w));
        inversion H; reflexivity. }
    intros cookie. apply issues_bind.
    { apply issues_try, issues_leaderboard_request. }
    intros [e|raw_data].
    + apply (issues_weaken (n := 0 + length attempts)); [lia|].
      destruct e;
        try (destruct (is_ClientError _);
             apply (issues_weaken (n := 0)); try lia; apply issues_throw).
      destruct (str_eqb cookie (fallback_session aoc)).
      * apply (issues_weaken (n := 0)); [lia | apply issues_throw].
      * apply issues_bind; [apply issues_modify; reflexivity | auto].
    + apply (issues_weaken (n := 0)); [lia|].
      apply issues_store_participants.
Qed.
End RequestFacts.

Lemma bindIO_gets {A B} (f : World -> A) (k : A -> IO B) w :
  bindIO (gets f) k w = k (f w) w.
Proof. reflexivity. Qed.

Lemma issues_bind_at {A B} n1 n2 (m : IO A) (k : A -> IO B) w r w' :
  (forall r0 w0, m w = (r0, w0) ->
     exists issued,
       requests w0 = requests w ++ issued /\ (length issued <= n1)%nat) ->
  (forall a, issues_at_most n2 (k a)) ->
  bindIO m k w = (r, w') ->
  exists issued,
    requests w' = requests w ++ issued /\ (length issued <= n1 + n2)%nat.
Proof.
  intros Hm Hk H. unfold bindIO in H.
  destruct (m w) as [[e|a] w0] eqn:E.
  - inversion H; subst. destruct (Hm _ _ eq_refl) as (l & Hl & Hlen).
    exists l; split; [assumption | lia].
  - destruct (Hm _ _ eq_refl) as (l1 & Hl1 & Hlen1).
    destruct (Hk a _ _ _ H) as (l2 & Hl2 & Hlen2).
    exists (l1 ++ l2). rewrite Hl2, Hl1, app_assoc, length_app.
    split; [reflexivity | lia].
Qed.

Lemma issues_upload_leaderboard py env leaderboard :
  issues_at_most 1 (_upload_leaderboard py env leaderboard).
Proof.
  unfold _upload_leaderboard.
  apply (issues_weaken (n := 1 + 0)); [lia|].
  apply issues_bind; [apply issues_request | intros resp].
  destruct (resp_json resp) as [e|j]; [apply issues_ret|].
  apply (issues_weaken (n := 0 + 0)); [lia|].
  apply issues_bind; [apply issues_lift | intros [|]]; [|apply issues_ret].
  apply (issues_weaken (n := 0 + 0)); [lia|].
  apply issues_bind; [apply issues_lift | intros key; apply issues_ret].
Qed.

Lemma issues_fetch_leaderboard_data aoc env w r w' :
  _fetch_leaderboard_data aoc env w = (r, w') ->
  exists issued,
    requests w' = requests w ++ issued
    /\ (length issued <= 2 * length (leaderboards w))%nat.
Proof.
  unfold _fetch_leaderboard_data. rewrite bindIO_gets. intros H.
  apply (issues_forIO (n := 2)) in H.
  - destruct H as (l & Hl & Hlen). exists l. split; [assumption|].
    rewrite length_map in Hlen. lia.
  - intros s a. apply (issues_fetch_attempts aoc env (range 1 3)).
Qed.

(** ** The requests of a refresh *)

(** X1.  A call of [fetch_leaderboard], however it ends, only adds to the
    requests issued, and adds at most two for each board of the
    configuration and one more, the upload; a call that does not have to
    invalidate a complete cache issues none. *)
Theorem refresh_request_budget py aoc env invalidate_cache w r w' :
  fetch_leaderboard py aoc env invalidate_cache w = (r, w') ->
  exists issued,
    requests w' = requests w ++ issued
    /\ (length issued <= 2 * length (leaderboards w) + 1)%nat
    /\ (invalidate_cache = false -> cache_complete w -> issued = []).
Proof.
  intros H.
  assert (Hhit : invalidate_cache = false -> cache_complete w -> w' = w).
  { intros -> Hc. rewrite (fetch_leaderboard_cached py aoc env Hc) in H.
    inversion H; reflexivity. }
  unfold fetch_leaderboard in H. rewrite bindIO_gets in H.
  destruct (invalidate_cache || _).
  - apply (issues_bind_at (n1 := 2 * length (leaderboards w)) (n2 := 1)) in H.
    + destruct H as (l & Hl & Hlen). exists l.
      split; [assumption|]. split; [assumption|].
      intros Hi Hc. specialize (Hhit Hi Hc). subst w'.
      rewrite <- (app_nil_r (requests w)) in Hl at 1.
      apply app_inv_head in Hl. symmetry; exact Hl.
    + intros r0 w0. apply issues_fetch_leaderboard_data.
    + intros raw.
      apply (issues_weaken (n := 0 + 1)); [lia|].
      apply issues_bind; [apply issues_lift | intros parsed].
      apply (issues_weaken (n := 0 + 1)); [lia|].
      apply issues_bind; [apply issues_lift | intros formatted].
      apply (issues_weaken (n := 1 + 0)); [lia|].
      apply issues_bind; [apply issues_upload_leaderboard | intros url].
      apply (issues_weaken (n := 0 + 0)); [lia|].
      apply issues_bind; [apply issues_gets | intros fetched_at].
      apply (issues_weaken (n := 0 + 0)); [lia|].
      apply issues_bind; [apply issues_modify; reflexivity | intros _].
      apply issues_ret.
  - inversion H; subst. exists []. rewrite app_nil_r.
    split; [reflexivity|]. split; [simpl; lia | reflexivity].
Qed.

Lemma refresh_request_budget_witness :
  exists issued,
    requests (snd (fetch_leaderboard plain_runtime default_config
                     expired_primary true one_board_world))
    = requests one_board_world ++ issued
    /\ (length issued <= 2 * length (leaderboards one_board_world) + 1)%nat
    /\ (true = false -> cache_complete one_board_world -> issued = []).
Proof.
  apply (@refresh_request_budget plain_runtime default_config expired_primary
           true one_board_world
           (fst (fetch_leaderboard plain_runtime default_config
                   expired_primary true one_board_world))).
  vm_compute. reflexivity.
Defined.

(** X2.  The [else] clause of the loop over the attempts is never run:
    for a board of the configuration the second attempt ends the loop,
    with a return or with an exception, so that what would follow it (a
    further attempt, or the clause that logs the unreachable state) has no
    part in the result. *)
Theorem third_attempt_is_never_made aoc env a1 a2 extra board participants
    b w :
  dict_get str_eqb board (leaderboards w) = Some b ->
  fetch_attempts aoc env (a1 :: a2 :: extra) board participants w
  = fetch_attempts aoc env [a1; a2] board participants w.
Proof.
  intros Hb.
  rewrite (@fetch_attempts_step aoc env a1 (a2 :: extra) board participants
             b w Hb).
  rewrite (@fetch_attempts_step aoc env a1 [a2] board participants b w Hb).
  destruct (request_outcome _ _) as [e|raw_data]; [|reflexivity].
  destruct e; try reflexivity.
  destruct (str_eqb (session aoc b) (fallback_session aoc)); [reflexivity|].
  set (w1 := log_request (board_request aoc board (session aoc b)) w).
  destruct (@switch_to_fallback_session aoc board b (leaderboards w1) Hb)
    as (b' & Hb' & Hs').
  rewrite (@fetch_attempts_step aoc env a2 extra board participants b'
             (set_leaderboards (switch_to_fallback board) w1) Hb').
  rewrite (@fetch_attempts_step aoc env a2 [] board participants b'
             (set_leaderboards (switch_to_fallback board) w1) Hb').
  rewrite Hs', str_eqb_refl.
  destruct (request_outcome _ _) as [e|raw_data]; [|reflexivity].
  destruct e; reflexivity.
Qed.

Lemma third_attempt_is_never_made_witness :
  fetch_attempts default_config redirecting_network [1; 2; 3] (u "board") []
    one_board_world
  = fetch_attempts default_config redirecting_network [1; 2] (u "board") []
      one_board_world.
Proof.
  apply (@third_attempt_is_never_made default_config redirecting_network
           1 2 [3] (u "board") []
           {| _session := u "primary"; join_code := u "code";
              use_fallback_session := false |} one_board_world).
  reflexivity.
Defined.

(** ** The boards and their counts *)

Lemma same_boards_log r w : same_boards w (log_request r w).
Proof. exact (same_boards_refl w). Qed.

Lemma same_boards_counts board n w :
  same_boards w (set_leaderboard_counts (dict_set str_eqb board n) w).
Proof. exact (same_boards_refl w). Qed.

Lemma same_boards_cache f ttl w : same_boards w (set_leaderboard_cache f ttl w).
Proof. exact (same_boards_refl w). Qed.

Lemma same_boards_assigned f w :
  same_boards w (set_assigned_leaderboard f w).
Proof. exact (same_boards_refl w). Qed.

(** X3.  Whatever [get_public_join_code] does, and however it ends, the
    boards of the configuration stay the same boards, in the same order,
    each with its own credential and its join code, and a board that has
    been switched to the fallback credential is never switched back. *)
Theorem boards_keep_their_credentials py aoc env author w r w' :
  get_public_join_code py aoc env author w = (r, w') -> same_boards w w'.
Proof.
  apply (@evolves_get_public_join_code same_boards same_boards_refl
           same_boards_trans same_boards_log same_boards_counts
           same_boards_switch py aoc env same_boards_cache
           same_boards_assigned author).
Qed.

Lemma boards_keep_their_credentials_witness :
  same_boards one_board_world
    (snd (get_public_join_code plain_runtime default_config expired_primary 42
            one_board_world))
  /\ map (fun kb => use_fallback_session (snd kb))
         (leaderboards
            (snd (get_public_join_code plain_runtime default_config
                    expired_primary 42 one_board_world)))
     = [true].
Proof.
  split; [|vm_compute; reflexivity].
  apply (@boards_keep_their_credentials plain_runtime default_config
           expired_primary 42 one_board_world
           (fst (get_public_join_code plain_runtime default_config
                   expired_primary 42 one_board_world))).
  vm_compute. reflexivity.
Defined.

Lemma same_cache_refl w : same_cache w w.
Proof. split; reflexivity. Qed.

Lemma same_cache_trans w1 w2 w3 :
  same_cache w1 w2 -> same_cache w2 w3 -> same_cache w1 w3.
Proof. intros [H1 H2] [H3 H4]. split; congruence. Qed.

(** X4.  A call of [fetch_leaderboard] that raises, whether from the
    fetch, the aggregator, the formatter or the upload, leaves the
    leaderboard cache and its time-to-live as they were: the stale
    leaderboard stays in place. *)
Theorem failed_refresh_keeps_the_cache py aoc env invalidate_cache w e w' :
  fetch_leaderboard py aoc env invalidate_cache w = (inl e, w') ->
  same_cache w w'.
Proof.
  assert (Hdata : evolves same_cache (_fetch_leaderboard_data aoc env)).
  { apply (@evolves_fetch_leaderboard_data same_cache same_cache_refl
             same_cache_trans);
      intros; split; reflexivity. }
  assert (Hupload : forall table,
            evolves same_cache (_upload_leaderboard py env table)).
  { intros table.
    apply (@evolves_upload_leaderboard same_cache same_cache_refl
             same_cache_trans);
      intros; split; reflexivity. }
  unfold fetch_leaderboard. rewrite bindIO_gets.
  destruct (invalidate_cache || _); [|discriminate].
  intros H.
  apply bindIO_inl in H. destruct H as [H | (raw & wa & Hraw & H)];
    [eapply Hdata; eauto|].
  apply Hdata in Hraw.
  apply bindIO_inl in H. destruct H as [H | (parsed & wb & Hparsed & H)];
    [inversion H; subst; exact Hraw|].
  inversion Hparsed; subst wb; clear Hparsed.
  apply bindIO_inl in H. destruct H as [H | (formatted & wb & Hformatted & H)];
    [inversion H; subst; exact Hraw|].
  inversion Hformatted; subst wb; clear Hformatted.
  apply bindIO_inl in H. destruct H as [H | (url & wb & Hurl & H)].
  { eapply same_cache_trans; [exact Hraw | eapply Hupload; eauto]. }
  apply Hupload in Hurl.
  rewrite bindIO_gets in H.
  apply bindIO_inl in H. destruct H as [H | (x & wc & _ & H)]; discriminate.
Qed.

Lemma failed_refresh_keeps_the_cache_witness :
  fetch_leaderboard plain_runtime default_config redirecting_network true
    counts_missing_world
  = (inl FetchingLeaderboardFailed,
     snd (fetch_leaderboard plain_runtime default_config redirecting_network
            true counts_missing_world))
  /\ same_cache counts_missing_world
       (snd (fetch_leaderboard plain_runtime default_config
               redirecting_network true counts_missing_world)).
Proof.
  assert (E : fetch_leaderboard plain_runtime default_config
                redirecting_network true counts_missing_world
              = (inl FetchingLeaderboardFailed,
                 snd (fetch_leaderboard plain_runtime default_config
                        redirecting_network true counts_missing_world)))
    by (vm_compute; reflexivity).
  split; [exact E|].
  exact (@failed_refresh_keeps_the_cache plain_runtime default_config
           redirecting_network true counts_missing_world _ _ E).
Defined.

Lemma store_participants_counts board participants raw_data w pooled w' :
  store_participants board participants raw_data w = (inr pooled, w') ->
  dict_get str_eqb board (leaderboard_counts w') <> None.
Proof.
  unfold store_participants. intros H.
  apply bindIO_inr in H. destruct H as (members & w0 & Hm & H).
  inversion Hm; subst w0; clear Hm.
  apply bindIO_inr in H. destruct H as (n & w0 & Hn & H).
  inversion Hn; subst w0; clear Hn.
  apply bindIO_inr in H. destruct H as (x & w0 & Hs & H).
  inversion Hs; subst w0; clear Hs.
  inversion H; subst. cbn [leaderboard_counts set_leaderboard_counts].
  apply dict_set_self_present, str_eqb_refl.
Qed.

Lemma fetch_attempts_counts aoc env attempts :
  forall board participants w pooled w',
    fetch_attempts aoc env attempts board participants w = (inr pooled, w') ->
    dict_get str_eqb board (leaderboard_counts w') <> None.
Proof.
  induction attempts as [|a attempts IH]; intros board participants w pooled w' H;
    cbn [fetch_attempts] in H; [discriminate|].
  apply bindIO_inr in H. destruct H as (cookie & w0 & _ & H).
  apply bindIO_inr in H. destruct H as (outcome & w1 & _ & H).
  destruct outcome as [e|raw_data];
    [|eapply store_participants_counts; eauto].
  destruct e; try (destruct (is_ClientError _); discriminate).
  destruct (str_eqb cookie (fallback_session aoc)); [discriminate|].
  apply bindIO_inr in H. destruct H as (x & w2 & _ & H).
  eapply IH; eauto.
Qed.

(** X5.  After a [_fetch_leaderboard_data] that returned, the cache of
    the board counts holds a count for every board of the
    configuration. *)
Theorem every_board_is_counted aoc env w participants w' :
  _fetch_leaderboard_data aoc env w = (inr participants, w') ->
  forall board,
    In board (map fst (leaderboards w)) ->
    dict_get str_eqb board (leaderboard_counts w') <> None.
Proof.
  unfold _fetch_leaderboard_data. rewrite bindIO_gets.
  generalize (map fst (leaderboards w)) as boards.
  generalize (@nil (json * json)) as pooled.
  intros pooled boards; revert pooled w.
  induction boards as [|a boards IH]; intros pooled w H board Hin;
    [destruct Hin|].
  cbn [forIO] in H.
  apply bindIO_inr in H. destruct H as (pooled1 & w1 & Ha & H).
  destruct Hin as [<- | Hin]; [|eapply IH; eauto].
  apply fetch_attempts_counts in Ha.
  revert Ha.
  apply (@evolves_forIO counts_kept counts_kept_refl counts_kept_trans _ _
           (fun participants board =>
              fetch_attempts aoc env (range 1 3) board participants)
           boards) with (s := pooled1) (w := w1) (r := inr participants).
  - intros s b.
    apply (@evolves_fetch_attempts counts_kept counts_kept_refl
             counts_kept_trans);
      [ intros r0 w0 b' Hb'; exact Hb'
      | apply counts_kept_set
      | intros b0 w0 b' Hb'; exact Hb' ].
  - exact H.
Qed.

Lemma every_board_is_counted_witness :
  exists participants w',
    _fetch_leaderboard_data default_config public_board_full
      counts_missing_world = (inr participants, w')
    /\ In (u "public") (map fst (leaderboards counts_missing_world))
    /\ dict_get str_eqb (u "public") (leaderboard_counts w') <> None.
Proof.
  pose (run := _fetch_leaderboard_data default_config public_board_full
                 counts_missing_world).
  assert (E : run = (inr match fst run with inr p => p | inl _ => [] end,
                     snd run)) by (vm_compute; reflexivity).
  eexists; eexists. split; [exact E|].
  assert (Hin : In (u "public") (map fst (leaderboards counts_missing_world)))
    by (simpl; auto).
  split; [exact Hin|].
  exact (@every_board_is_counted default_config public_board_full
           counts_missing_world _ _ E (u "public") Hin).
Defined.

(** ** What a refresh stores *)

Lemma dict_get_set_str {V} k k' (v : V) d :
  dict_get str_eqb k (dict_set str_eqb k' v d)
  = if str_eqb k k' then Some v else dict_get str_eqb k d.
Proof.
  induction d as [|[k0 v0] d IH]; simpl.
  - destruct (str_eqb k k'); reflexivity.
  - destruct (str_eqb k' k0) eqn:E; simpl.
    + apply str_eqb_eq in E; subst k0.
      destruct (str_eqb k k'); reflexivity.
    + rewrite IH. destruct (str_eqb k k0) eqn:E0; [|reflexivity].
      apply str_eqb_eq in E0; subst k0.
      rewrite str_eqb_sym, E. reflexivity.
Qed.

(** [d.update(items)]: a key reads as the last of the items that set it,
    and as before when none does. *)
Lemma dict_get_update_str {V} k (items : list (str * V)) : forall d,
  dict_get str_eqb k (dict_update str_eqb items d)
  = match dict_get str_eqb k (rev items) with
    | Some v => Some v
    | None => dict_get str_eqb k d
    end.
Proof.
  unfold dict_update.
  induction items as [|[k' v'] items IH]; intros d; simpl; [reflexivity|].
  rewrite IH, dict_get_app, dict_get_set_str. simpl.
  destruct (dict_get str_eqb k (rev items)); [reflexivity|].
  destruct (str_eqb k k'); reflexivity.
Qed.

Lemma existsb_false {A} (f : A -> bool) (l : list A) :
  existsb f l = false -> forall x, In x l -> f x = false.
Proof.
  intros H x Hin. destruct (f x) eqn:E; [|reflexivity].
  rewrite <- H. symmetry. apply existsb_exists. eauto.
Qed.

(** X6.  After a [fetch_leaderboard] that returned, every required key
    reads from the leaderboard cache as from the dictionary returned, a
    refresh has set the configured time-to-live, and the next
    [fetch_leaderboard()] is answered from the cache: it returns the
    cache and changes nothing. *)
Theorem refresh_round_trip py aoc env invalidate_cache w cached w1 :
  fetch_leaderboard py aoc env invalidate_cache w = (inr cached, w1) ->
  (forall key, In key REQUIRED_CACHE_KEYS ->
     dict_get str_eqb key cached <> None
     /\ dict_get str_eqb key (leaderboard_cache w1)
        = dict_get str_eqb key cached)
  /\ (invalidate_cache = true ->
      leaderboard_cache_ttl w1 = Some (leaderboard_cache_expiry_seconds aoc))
  /\ fetch_leaderboard py aoc env false w1 = (inr (leaderboard_cache w1), w1).
Proof.
  intros H.
  pose proof (fetch_leaderboard_completes py aoc env invalidate_cache w H)
    as Hcomplete.
  split; [|split; [|apply fetch_leaderboard_cached; exact Hcomplete]].
  - unfold fetch_leaderboard in H. rewrite bindIO_gets in H.
    destruct (invalidate_cache || _) eqn:Hcond.
    + apply bindIO_inr in H. destruct H as (raw & wa & _ & H).
      apply bindIO_inr in H. destruct H as (parsed & wb & _ & H).
      apply bindIO_inr in H. destruct H as (formatted & wc & _ & H).
      apply bindIO_inr in H. destruct H as (url & wd & _ & H).
      apply bindIO_inr in H. destruct H as (fetched_at & we & _ & H).
      apply bindIO_inr in H. destruct H as (x & wf & Hm & H).
      inversion H; subst; clear H. inversion Hm; subst; clear Hm.
      cbn [leaderboard_cache set_leaderboard_cache].
      intros key Hkey. rewrite dict_get_update_str.
      unfold REQUIRED_CACHE_KEYS in Hkey. cbn [In] in Hkey.
      destruct Hkey as [<-|[<-|[<-|[<-|[<-|[<-|[]]]]]]];
        (split; [discriminate | reflexivity]).
    + inversion H; subst; clear H.
      intros key Hkey. split; [|reflexivity].
      apply orb_false_iff in Hcond. destruct Hcond as [_ Hcond].
      pose proof (existsb_false _ _ Hcond key Hkey) as Hmem.
      apply negb_false_iff in Hmem. unfold dict_mem in Hmem.
      destruct (dict_get str_eqb key (leaderboard_cache w1));
        [discriminate | discriminate Hmem].
  - intros ->. unfold fetch_leaderboard in H. rewrite bindIO_gets in H.
    cbn [orb] in H.
    apply bindIO_inr in H. destruct H as (raw & wa & _ & H).
    apply bindIO_inr in H. destruct H as (parsed & wb & _ & H).
    apply bindIO_inr in H. destruct H as (formatted & wc & _ & H).
    apply bindIO_inr in H. destruct H as (url & wd & _ & H).
    apply bindIO_inr in H. destruct H as (fetched_at & we & _ & H).
    apply bindIO_inr in H. destruct H as (x & wf & Hm & H).
    inversion H; subst; clear H. inversion Hm; subst; clear Hm.
    reflexivity.
Qed.

Lemma refresh_round_trip_witness :
  exists cached w1,
    fetch_leaderboard plain_runtime default_config expired_primary true
      one_board_world = (inr cached, w1)
    /\ (forall key, In key REQUIRED_CACHE_KEYS ->
          dict_get str_eqb key cached <> None
          /\ dict_get str_eqb key (leaderboard_cache w1)
             = dict_get str_eqb key cached)
    /\ (true = true ->
        leaderboard_cache_ttl w1
        = Some (leaderboard_cache_expiry_seconds default_config))
    /\ fetch_leaderboard plain_runtime default_config expired_primary false w1
       = (inr (leaderboard_cache w1), w1).
Proof.
  pose (run := fetch_leaderboard plain_runtime default_config expired_primary
                 true one_board_world).
  assert (E : run = (inr match fst run with inr c => c | inl _ => [] end,
                     snd run)) by (vm_compute; reflexivity).
  eexists; eexists. split; [exact E|].
  exact (@refresh_round_trip plain_runtime default_config expired_primary
           true one_board_world _ _ E).
Defined.

(** ** What a join code comes with *)

Lemma join_code_of_returns board w code w' :
  join_code_of board w = (inr code, w') ->
  w' = w
  /\ exists b,
       dict_get str_eqb board (leaderboards w) = Some b
       /\ code = Some (join_code b).
Proof.
  unfold join_code_of.
  destruct (dict_get str_eqb board (leaderboards w)) as [b|];
    [|discriminate].
  intros H; inversion H; subst. eauto.
Qed.

Section JoinCodeResults.
Variables (py : Python) (aoc : AdventOfCode) (env : Env).

Lemma assign_board_returns author counts w result w' :
  assign_board py aoc env author counts w = (inr result, w') ->
  match result with
  | Some code =>
      exists board b,
        dict_get Z.eqb author (assigned_leaderboard w') = Some board
        /\ dict_get str_eqb board (leaderboards w') = Some b
        /\ join_code b = code
  | None => assigned_leaderboard w' = assigned_leaderboard w
  end.
Proof.
  unfold assign_board. intros H.
  apply bindIO_inr in H. destruct H as (counts' & w1 & Hcounts & H).
  assert (Hkeep : assigned_leaderboard w1 = assigned_leaderboard w).
  { destruct counts; [|inversion Hcounts; reflexivity].
    apply bindIO_inr in Hcounts. destruct Hcounts as (c & w0 & Hf & Hg).
    inversion Hg; subst.
    exact (keeps_fetch_leaderboard py aoc env true _ Hf). }
  destruct counts' as [|first others]; [discriminate|].
  destruct (_ >=? 200).
  - inversion H; subst. exact Hkeep.
  - apply bindIO_inr in H. destruct H as (x & w2 & Hm & H).
    inversion Hm; subst; clear Hm.
    apply join_code_of_returns in H. destruct H as (-> & b & Hb & ->).
    exists (fst (min_item first others)), b.
    cbn [assigned_leaderboard leaderboards set_assigned_leaderboard] in *.
    split; [apply dict_get_set, Z.eqb_refl|]. split; [exact Hb | reflexivity].
Qed.

(** X7.  A join code returned by [get_public_join_code] is the join code
    of a board of the configuration, and when the call returns the user
    is assigned to that board; a call that returns no join code leaves
    the assignments as they were. *)
Theorem join_code_goes_with_the_assignment author w result w' :
  get_public_join_code py aoc env author w = (inr result, w') ->
  match result with
  | Some code =>
      exists board b,
        dict_get Z.eqb author (assigned_leaderboard w') = Some board
        /\ dict_get str_eqb board (leaderboards w') = Some b
        /\ join_code b = code
  | None => assigned_leaderboard w' = assigned_leaderboard w
  end.
Proof.
  unfold get_public_join_code. intros H.
  apply bindIO_inr in H. destruct H as (cached & w1 & Hfetch & H).
  pose proof (keeps_fetch_leaderboard py aoc env false _ Hfetch) as Hkeep.
  rewrite !bindIO_gets in H. cbv zeta in H.
  assert (Hassign : forall counts,
            assign_board py aoc env author counts w1 = (inr result, w') ->
            match result with
            | Some code =>
                exists board b,
                  dict_get Z.eqb author (assigned_leaderboard w') = Some board
                  /\ dict_get str_eqb board (leaderboards w') = Some b
                  /\ join_code b = code
            | None => assigned_leaderboard w' = assigned_leaderboard w
            end).
  { intros counts Ha. apply assign_board_returns in Ha.
    destruct result; [exact Ha | congruence]. }
  destruct (dict_get Z.eqb author (assigned_leaderboard w1)) as [board|] eqn:Ep;
    [|eapply Hassign; eauto].
  destruct (truthy_str board); [|eapply Hassign; eauto].
  destruct (_ <? 200); [|eapply Hassign; eauto].
  apply join_code_of_returns in H. destruct H as (-> & b & Hb & ->).
  exists board, b. auto.
Qed.
End JoinCodeResults.

Lemma join_code_goes_with_the_assignment_witness :
  exists w',
    get_public_join_code plain_runtime default_config expired_primary 42
      one_board_world = (inr (Some (u "code")), w')
    /\ exists board b,
         dict_get Z.eqb 42 (assigned_leaderboard w') = Some board
         /\ dict_get str_eqb board (leaderboards w') = Some b
         /\ join_code b = u "code".
Proof.
  pose (run := get_public_join_code plain_runtime default_config
                 expired_primary 42 one_board_world).
  assert (E : run = (inr (Some (u "code")), snd run))
    by (vm_compute; reflexivity).
  eexists. split; [exact E|].
  exact (@join_code_goes_with_the_assignment plain_runtime default_config
           expired_primary 42 one_board_world _ _ E).
Defined.

Lemma min_item_least (l : list (str * Z)) : forall best x,
  In x (best :: l) -> snd (min_item best l) <= snd x.
Proof.
  induction l as [|y l IH]; intros best x Hin; simpl.
  - destruct Hin as [<-|[]]. lia.
  - destruct (snd y <? snd best) eqn:E.
    + apply Z.ltb_lt in E. destruct Hin as [<-|Hin].
      * specialize (IH y y (or_introl eq_refl)). lia.
      * apply IH. exact Hin.
    + apply Z.ltb_ge in E. destruct Hin as [<-|[<-|Hin]].
      * apply IH. left; reflexivity.
      * specialize (IH best best (or_introl eq_refl)). lia.
      * apply IH. right; exact Hin.
Qed.

Lemma dict_pop_In (k s : str) (v : Z) (d : list (str * Z)) :
  In (k, v) (dict_pop str_eqb s d) -> In (k, v) d.
Proof.
  induction d as [|[k0 v0] d IH]; simpl; [tauto|].
  destruct (str_eqb s k0); simpl; tauto.
Qed.

Lemma dict_pop_other (k s : str) (v : Z) (d : list (str * Z)) :
  NoDup (map fst d) -> In (k, v) (dict_pop str_eqb s d) -> k <> s.
Proof.
  induction d as [|[k0 v0] d IH]; simpl; [tauto|].
  intros Hnd. inversion Hnd as [|? ? Hnotin Hnd']; subst.
  destruct (str_eqb s k0) eqn:E.
  - apply str_eqb_eq in E; subst k0. intros Hin ->.
    apply Hnotin. apply (in_map fst) in Hin. exact Hin.
  - apply str_eqb_neq in E. intros [Hin|Hin]; [|auto].
    inversion Hin; subst. congruence.
Qed.

Lemma dict_pop_NoDup (s : str) (d : list (str * Z)) :
  NoDup (map fst d) -> NoDup (map fst (dict_pop str_eqb s d)).
Proof.
  induction d as [|[k0 v0] d IH]; simpl; [auto|].
  intros Hnd. inversion Hnd as [|? ? Hnotin Hnd']; subst.
  destruct (str_eqb s k0); [assumption|]. simpl. constructor; [|auto].
  intros Hin. apply Hnotin. apply in_map_iff in Hin.
  destruct Hin as ([k v] & <- & Hin). apply dict_pop_In in Hin.
  apply (in_map fst) in Hin. exact Hin.
Qed.

Lemma In_dict_get_unique (k : str) (v : Z) (d : list (str * Z)) :
  NoDup (map fst d) -> In (k, v) d -> dict_get str_eqb k d = Some v.
Proof.
  induction d as [|[k0 v0] d IH]; simpl; [tauto|].
  intros Hnd. inversion Hnd as [|? ? Hnotin Hnd']; subst.
  intros [Hin|Hin].
  - inversion Hin; subst. rewrite str_eqb_refl. reflexivity.
  - destruct (str_eqb k k0) eqn:E; [|auto].
    apply str_eqb_eq in E; subst k0. exfalso. apply Hnotin.
    apply (in_map fst) in Hin. exact Hin.
Qed.

Lemma dict_get_pop_In (k s : str) (m : Z) (d : list (str * Z)) :
  dict_get str_eqb k d = Some m -> k <> s -> In (k, m) (dict_pop str_eqb s d).
Proof.
  intros Hget Hne. induction d as [|[k0 v0] d IH]; simpl in *; [discriminate|].
  destruct (str_eqb k k0) eqn:E.
  - apply str_eqb_eq in E; subst k0. inversion Hget; subst.
    destruct (str_eqb s k) eqn:E'.
    + apply str_eqb_eq in E'. congruence.
    + left; reflexivity.
  - destruct (str_eqb s k0).
    + apply dict_get_In. exact Hget.
    + right. auto.
Qed.

Section FreshAssignment.
Variables (py : Python) (aoc : AdventOfCode) (env : Env).

(** X8.  A user without an assignment to a board with room, when the
    cache holds a count for some board other than the staff board, is
    assigned to a board with the least count among the boards other than
    the staff board, and only when that count is below 200; the join code
    returned is the one of that board.  The keys of the cache of counts, a
    Redis hash, are distinct. *)
Theorem fresh_assignment_is_least_populated author w cached w1 code w' :
  fetch_leaderboard py aoc env false w = (inr cached, w1) ->
  NoDup (map fst (leaderboard_counts w1)) ->
  let counts :=
    dict_pop str_eqb (staff_leaderboard_id aoc) (leaderboard_counts w1) in
  counts <> [] ->
  match dict_get Z.eqb author (assigned_leaderboard w) with
  | Some board => truthy_str board = false \/ 200 <= count_of counts board
  | None => True
  end ->
  get_public_join_code py aoc env author w = (inr (Some code), w') ->
  exists board n b,
    board <> staff_leaderboard_id aoc
    /\ dict_get str_eqb board (leaderboard_counts w1) = Some n
    /\ n < 200
    /\ (forall other m,
          other <> staff_leaderboard_id aoc ->
          dict_get str_eqb other (leaderboard_counts w1) = Some m ->
          n <= m)
    /\ w' = set_assigned_leaderboard (dict_set Z.eqb author board) w1
    /\ dict_get str_eqb board (leaderboards w1) = Some b
    /\ code = join_code b.
Proof.
  intros Hfetch Hnd counts Hne Hprev.
  rewrite (@get_public_join_code_run py aoc env author w cached w1 Hfetch).
  cbv zeta. fold counts.
  assert (Hassign :
            assign_board py aoc env author counts w1 = (inr (Some code), w') ->
            exists board n b,
              board <> staff_leaderboard_id aoc
              /\ dict_get str_eqb board (leaderboard_counts w1) = Some n
              /\ n < 200
              /\ (forall other m,
                    other <> staff_leaderboard_id aoc ->
                    dict_get str_eqb other (leaderboard_counts w1) = Some m ->
                    n <= m)
              /\ w' = set_assigned_leaderboard (dict_set Z.eqb author board) w1
              /\ dict_get str_eqb board (leaderboards w1) = Some b
              /\ code = join_code b).
  { unfold assign_board.
    pose proof (@dict_pop_NoDup (staff_leaderboard_id aoc) _ Hnd) as Hnd'.
    fold counts in Hnd'.
    assert (Hpop : forall k v, In (k, v) counts ->
              k <> staff_leaderboard_id aoc
              /\ dict_get str_eqb k (leaderboard_counts w1) = Some v).
    { intros k v Hin. split.
      - exact (@dict_pop_other k (staff_leaderboard_id aoc) v
                 (leaderboard_counts w1) Hnd Hin).
      - apply In_dict_get_unique; [exact Hnd|].
        exact (@dict_pop_In k (staff_leaderboard_id aoc) v
                 (leaderboard_counts w1) Hin). }
    assert (Hin : forall other m,
              other <> staff_leaderboard_id aoc ->
              dict_get str_eqb other (leaderboard_counts w1) = Some m ->
              In (other, m) counts).
    { intros other m Ho Hm. apply dict_get_pop_In; assumption. }
    clearbody counts.
    destruct counts as [|first others]; [congruence|].
    unfold bindIO at 1. unfold ret at 1. unfold ok at 1. cbv beta iota.
    pose proof (min_item_In others first) as Hbest.
    pose proof (@min_item_least others first) as Hleast.
    destruct (min_item first others) as [best n] eqn:Em. cbn [fst snd] in *.
    unfold count_of.
    rewrite (@In_dict_get_unique _ _ _ Hnd' Hbest).
    destruct (n >=? 200) eqn:En; [discriminate|].
    intros H.
    apply bindIO_inr in H. destruct H as (x & w2 & Hm & H).
    inversion Hm; subst; clear Hm.
    apply join_code_of_returns in H. destruct H as (-> & b & Hb & Hcode).
    inversion Hcode; subst code.
    exists best, n, b. destruct (Hpop _ _ Hbest) as [Hstaff Hget].
    split; [exact Hstaff|]. split; [exact Hget|].
    split; [rewrite Z.geb_leb in En; apply Z.leb_gt in En; lia|].
    split; [|auto].
    intros other m Ho Hm. apply (Hleast (other, m)). auto. }
  destruct (dict_get Z.eqb author (assigned_leaderboard w)) as [board|];
    [|exact Hassign].
  destruct (truthy_str board); [|exact Hassign].
  destruct Hprev as [Hprev|Hprev]; [discriminate|].
  rewrite (proj2 (Z.ltb_ge _ _)) by lia. exact Hassign.
Qed.
End FreshAssignment.

Lemma fresh_assignment_is_least_populated_witness :
  exists board n b,
    board <> staff_leaderboard_id default_config
    /\ dict_get str_eqb board (leaderboard_counts assigned_world) = Some n
    /\ n < 200
    /\ (forall other m,
          other <> staff_leaderboard_id default_config ->
          dict_get str_eqb other (leaderboard_counts assigned_world) = Some m ->
          n <= m)
    /\ set_assigned_leaderboard (dict_set Z.eqb 8 (u "public")) assigned_world
       = set_assigned_leaderboard (dict_set Z.eqb 8 board) assigned_world
    /\ dict_get str_eqb board (leaderboards assigned_world) = Some b
    /\ u "public-code" = join_code b.
Proof.
  apply (@fresh_assignment_is_least_populated plain_runtime default_config
           public_board_full 8 assigned_world
           (leaderboard_cache assigned_world) assigned_world
           (u "public-code")
           (set_assigned_leaderboard (dict_set Z.eqb 8 (u "public"))
              assigned_world)).
  - reflexivity.
  - simpl. repeat constructor; simpl; intuition discriminate.
  - simpl. discriminate.
  - simpl. exact I.
  - vm_compute. reflexivity.
Defined.

(** ** The entries of the leaderboard *)

Ltac bind_as H x E := apply bindE_inr in H; destruct H as (x & E & H).

Lemma dict_set_Forall (P : LeaderboardEntry -> Prop) mid e (lb : Leaderboard) :
  P e -> Forall (fun kv => P (snd kv)) lb ->
  Forall (fun kv => P (snd kv)) (dict_set py_eqb mid e lb).
Proof.
  intros He. induction lb as [|[k v] lb IH]; simpl; intros H.
  - constructor; [exact He | constructor].
  - inversion H; subst. destruct (py_eqb mid k); constructor; auto.
Qed.

Lemma dict_modify_Forall (P : LeaderboardEntry -> Prop) mid f
    (lb lb1 : Leaderboard) :
  (forall e e1, f e = inr e1 -> P e -> P e1) ->
  dict_modify py_eqb mid f lb = inr lb1 ->
  Forall (fun kv => P (snd kv)) lb -> Forall (fun kv => P (snd kv)) lb1.
Proof.
  intros Hf. revert lb1. induction lb as [|[k v] lb IH]; simpl; intros lb1 H Hall.
  - discriminate.
  - inversion Hall as [|? ? Hv Hrest]; subst. destruct (py_eqb mid k).
    + destruct (f v) as [|v1] eqn:E; inversion H; subst.
      constructor; [eapply Hf; eauto | assumption].
    + destruct (dict_modify py_eqb mid f lb) as [|lb'] eqn:E;
        inversion H; subst.
      constructor; [assumption | eapply IH; eauto].
Qed.

Section EntryFacts.
Variable py : Python.

(** A property of the entries that a new entry has when its name is one
    of the names the first loop gives, and that counting a star keeps, is
    a property of all the entries the first loop returns. *)
Lemma transpose_Forall (P : LeaderboardEntry -> Prop) (Q : json -> Prop)
    members :
  (forall nm, Q nm ->
     P {| name := nm; score := 0; star_1 := 0; star_2 := 0 |}) ->
  (forall star e e1, incr_star star e = inr e1 -> P e -> P e1) ->
  Forall (fun member =>
            forall nm mid,
              getitem member (u "name") = inr nm ->
              getitem member (u "id") = inr mid ->
              Q (if truthy nm then nm
                 else JStr (u "Anonymous #" ++ py_str py mid)))
         members ->
  forall st st1,
    foldE (record_member py) st members = inr st1 ->
    Forall (fun kv => P (snd kv)) (fst st) ->
    Forall (fun kv => P (snd kv)) (fst st1).
Proof.
  intros Hnew Hincr.
  induction members as [|member members IH]; intros Hall st st1 H Hst;
    simpl in H.
  - inversion H; subst; exact Hst.
  - inversion Hall as [|? ? Hmember Hrest]; subst.
    destruct (record_member py st member) as [|st0] eqn:E; [discriminate|].
    apply (IH Hrest st0 st1 H). clear IH H Hrest Hall.
    destruct st as [lb sr]. unfold record_member in E.
    bind_ok E. rename x into nm. bind_ok E. rename x into nm'.
    bind_ok E. rename x into mid.
    destruct (hashable mid); [|discriminate].
    bind_ok E. bind_ok E. rename x0 into days.
    assert (Hnm' : Q nm').
    { specialize (Hmember nm mid E0 E2). destruct (truthy nm).
      - rewrite E0 in E1. inversion E1; subst. exact Hmember.
      - rewrite E2 in E1. inversion E1; subst. exact Hmember. }
    revert E.
    apply (foldE_invariant (fun s => Forall (fun kv => P (snd kv)) (fst s))).
    + intros s [day stars] s' _ Hs Hday. unfold record_day in Hday.
      bind_ok Hday. revert Hday.
      apply (foldE_invariant
               (fun s => Forall (fun kv => P (snd kv)) (fst s)));
        [|exact Hs].
      intros t [star data] t' _ Ht Hstar. destruct t as [lb0 sr0].
      unfold record_star in Hstar. bind_as Hstar lb1 Hlb1.
      bind_as Hstar ts Hts. bind_as Hstar n Hn.
      destruct (fromtimestamp py n); [|discriminate].
      inversion Hstar; subst; simpl in *.
      eapply dict_modify_Forall; [| exact Hlb1 | exact Ht].
      intros e e1. apply Hincr.
    + simpl in *. apply dict_set_Forall; auto.
Qed.

Lemma transpose_scores_zero raw lb sr :
  transpose py raw = inr (lb, sr) ->
  Forall (fun kv => score (snd kv) = 0) lb.
Proof.
  unfold transpose. intros H.
  apply (@transpose_Forall (fun e => score e = 0) (fun _ => True)
           (map snd raw)) with (st := ([], [])) (st1 := (lb, sr)) in H; auto.
  - intros star e e1 He Hz. rewrite (incr_star_score _ _ He). exact Hz.
  - apply Forall_forall. auto.
Qed.
End EntryFacts.

Lemma total_score_zero (lb : Leaderboard) :
  Forall (fun kv => score (snd kv) = 0) lb -> total_score lb = 0.
Proof.
  induction 1 as [|kv lb Hkv _ IH]; simpl; [reflexivity | lia].
Qed.

Lemma total_score_perm (l l' : Leaderboard) :
  Permutation l l' -> total_score l = total_score l'.
Proof.
  induction 1; simpl; lia.
Qed.

(** ** The total of the scores *)

(** X9.  The scores of the leaderboard returned add up to the points of
    all the stars that count: with N participants on the leaderboard, a
    star of a day that is not ignored, completed n times, hands out
    n * N - n * (n - 1) / 2 points, and nothing else is ever added to a
    score. *)
Theorem total_score_of_the_leaderboard py aoc raw parsed :
  _parse_raw_leaderboard_data py aoc raw = inr parsed ->
  exists lb sr,
    transpose py raw = inr (lb, sr)
    /\ length (leaderboard parsed) = length lb
    /\ total_score (leaderboard parsed)
       = fold_right (fun group acc =>
                       let n := Z.of_nat (length (snd group)) in
                       n * Z.of_nat (length lb) - n * (n - 1) / 2 + acc)
                    0 (counted aoc sr).
Proof.
  intros H. apply parse_stages in H.
  destruct H as (lb & sr & scored & Ht & Hs & _ & Hl & _).
  exists lb, sr. split; [exact Ht|].
  rewrite Hl. split.
  - rewrite sorted_length.
    rewrite <- (length_map fst scored), <- (length_map fst lb).
    f_equal. eapply score_loop_keys; eauto.
  - rewrite (total_score_perm (sorted_perm _ scored)).
    apply (foldE_measure total_score
             (fun group =>
                if str_in (fst (fst group)) (ignored_days aoc) then 0
                else let n := Z.of_nat (length (snd group)) in
                     n * Z.of_nat (length lb) - n * (n - 1) / 2)) in Hs.
    + rewrite Hs, (total_score_zero (transpose_scores_zero _ _ Ht)).
      unfold counted. clear. induction sr as [|g sr IH]; simpl; [reflexivity|].
      destruct (str_in (fst (fst g)) (ignored_days aoc)); simpl; lia.
    + intros s [[day star] results] s' _ Hrun. unfold score_star in Hrun.
      cbn [fst snd].
      destruct (str_in day (ignored_days aoc)).
      * inversion Hrun; subst. lia.
      * apply (foldE_measure total_score snd) in Hrun.
        -- rewrite Hrun. fold (awarded (star_awards (Z.of_nat (length lb)) results)).
           rewrite awarded_star_awards. reflexivity.
        -- intros t a t' _ Ha. eapply add_score_total; eauto.
Qed.

Lemma total_score_of_the_leaderboard_witness :
  exists lb sr,
    transpose plain_runtime spec_example_with_day_2 = inr (lb, sr)
    /\ length (leaderboard example_with_day_2_parsed) = length lb
    /\ total_score (leaderboard example_with_day_2_parsed)
       = fold_right (fun group acc =>
                       let n := Z.of_nat (length (snd group)) in
                       n * Z.of_nat (length lb) - n * (n - 1) / 2 + acc)
                    0 (counted ignoring_day_2 sr).
Proof.
  apply (@total_score_of_the_leaderboard plain_runtime ignoring_day_2
           spec_example_with_day_2 example_with_day_2_parsed).
  vm_compute. reflexivity.
Defined.

(** ** The sign of the scores *)

Lemma defaultdict_append_keys_in key x (sr : StarResults) k :
  In k (map fst (defaultdict_append key x sr)) -> k = key \/ In k (map fst sr).
Proof.
  induction sr as [|[k' l] sr IH]; simpl.
  - intros [H|[]]; auto.
  - destruct (pair_eqb key k'); simpl; [tauto|].
    intros [H|H]; [auto|]. destruct (IH H); auto.
Qed.

Lemma defaultdict_append_NoDup key x (sr : StarResults) :
  NoDup (map fst sr) -> NoDup (map fst (defaultdict_append key x sr)).
Proof.
  induction sr as [|[k' l] sr IH]; simpl; intros H.
  - constructor; [simpl; tauto | constructor].
  - inversion H as [|? ? Hnotin Hrest]; subst.
    destruct (pair_eqb key k') eqn:E; simpl; [constructor; assumption|].
    constructor; [|auto].
    intros Hin. apply defaultdict_append_keys_in in Hin.
    destruct Hin as [->|Hin]; [|auto].
    assert (pair_eqb key key = true) by (apply pair_eqb_eq; reflexivity).
    congruence.
Qed.

Lemma star_results_get key results (sr : StarResults) :
  NoDup (map fst sr) -> In (key, results) sr ->
  dict_get pair_eqb key sr = Some results.
Proof.
  induction sr as [|[k' l] sr IH]; simpl; [tauto|].
  intros Hnd. inversion Hnd as [|? ? Hnotin Hrest]; subst.
  intros [Hin|Hin].
  - inversion Hin; subst.
    rewrite (proj2 (pair_eqb_eq key key) eq_refl). reflexivity.
  - destruct (pair_eqb key k') eqn:E; [|auto].
    apply pair_eqb_eq in E; subst k'. exfalso. apply Hnotin.
    apply (in_map fst) in Hin. exact Hin.
Qed.

Lemma count_completions_NoDup day star (l : list (str * str)) :
  NoDup l -> count_completions day star l <= 1.
Proof.
  unfold count_completions. intros H.
  induction H as [|c l Hnotin _ IH]; simpl; [lia|].
  destruct (pair_eqb (day, star) c) eqn:E; [|exact IH].
  apply pair_eqb_eq in E; subst c.
  assert (Hnone : filter (pair_eqb (day, star)) l = []).
  { clear IH. induction l as [|c l IHl]; simpl; [reflexivity|].
    destruct (pair_eqb (day, star) c) eqn:E.
    - apply pair_eqb_eq in E; subst c. exfalso; apply Hnotin; left; reflexivity.
    - apply IHl. intros Hin; apply Hnotin; right; exact Hin. }
  rewrite Hnone. simpl. lia.
Qed.

Lemma enumerate_bound {A} (l : list A) : forall start i a,
  In (i, a) (enumerate start l) -> (start <= i < start + length l)%nat.
Proof.
  induction l as [|x l IH]; simpl; intros start i a H; [destruct H|].
  destruct H as [H|H].
  - inversion H; subst. lia.
  - apply IH in H. lia.
Qed.

Lemma star_awards_positive max_score results :
  Z.of_nat (length results) <= max_score ->
  Forall (fun award => 1 <= snd award) (star_awards max_score results).
Proof.
  intros Hlen. apply Forall_forall. intros a Ha.
  unfold star_awards in Ha. apply in_map_iff in Ha.
  destruct Ha as ([i r] & <- & Hin); simpl.
  apply enumerate_bound in Hin. rewrite sorted_length in Hin. lia.
Qed.

Section SignFacts.
Variable py : Python.

Lemma transpose_groups_distinct raw lb sr :
  transpose py raw = inr (lb, sr) -> NoDup (map fst sr).
Proof.
  unfold transpose. intros H.
  apply (foldE_invariant (fun st => NoDup (map fst (snd st)))) in H;
    [exact H | | constructor].
  intros [lb0 sr0] member st' _ Hst Hm. unfold record_member in Hm.
  bind_as Hm nm Hnm. bind_as Hm nm' Hnm'. bind_as Hm mid Hmid.
  destruct (hashable mid); [|discriminate].
  bind_as Hm cdl Hcdl. bind_as Hm days Hdays.
  revert Hm.
  apply (foldE_invariant (fun st => NoDup (map fst (snd st)))); [|exact Hst].
  intros s [day stars] s' _ Hs Hday. unfold record_day in Hday.
  bind_as Hday star_items Hitems. revert Hday.
  apply (foldE_invariant (fun st => NoDup (map fst (snd st)))); [|exact Hs].
  intros [lb1 sr1] [star data] t' _ Ht Hstar. unfold record_star in Hstar.
  bind_as Hstar lb2 Hlb2. bind_as Hstar ts Hts. bind_as Hstar n Hn.
  destruct (fromtimestamp py n); [|discriminate].
  inversion Hstar; subst; simpl in *.
  apply defaultdict_append_NoDup. exact Ht.
Qed.

(** A star is held by at most as many results as there are records, when
    no record holds a completion twice. *)
Lemma results_of_a_star raw lb sr key results :
  transpose py raw = inr (lb, sr) ->
  Forall (fun m => NoDup (completions_of (snd m))) raw ->
  In (key, results) sr ->
  (length results <= length raw)%nat.
Proof.
  intros Ht Hraw Hin.
  pose proof (@star_results_get key results sr
                (@transpose_groups_distinct raw lb sr Ht) Hin) as Hget.
  destruct key as [day star].
  pose proof (transpose_count py raw day star Ht) as Hcount.
  unfold star_count in Hcount. rewrite Hget in Hcount.
  rewrite count_completions_flat_map in Hcount.
  assert (Hsum : fold_right
                   (fun a acc => count_completions day star (completions_of a)
                                 + acc) 0 (map snd raw)
                 <= Z.of_nat (length raw)).
  { clear -Hraw. induction Hraw as [|m raw Hm _ IH]; simpl; [lia|].
    pose proof (count_completions_NoDup day star Hm). lia. }
  lia.
Qed.
End SignFacts.

(** X10.  No score on the leaderboard is negative, when every record has
    an entry of its own on the leaderboard (no identifier comes twice)
    and no record holds the same star of the same day twice (a JSON
    object holds a key once): a star is then completed at most as many
    times as there are participants, and each completion is worth at
    least one point. *)
Theorem scores_are_never_negative py aoc raw parsed :
  _parse_raw_leaderboard_data py aoc raw = inr parsed ->
  length (leaderboard parsed) = length raw ->
  Forall (fun m => NoDup (completions_of (snd m))) raw ->
  Forall (fun entry => 0 <= score (snd entry)) (leaderboard parsed).
Proof.
  intros H Hlen Hraw. apply parse_stages in H.
  destruct H as (lb & sr & scored & Ht & Hs & _ & Hl & _).
  rewrite Hl in *. rewrite sorted_length in Hlen.
  assert (Hkeys : length lb = length raw).
  { rewrite <- Hlen, <- (length_map fst scored), <- (length_map fst lb).
    f_equal. symmetry. eapply score_loop_keys; eauto. }
  assert (Hscored : Forall (fun entry => 0 <= score (snd entry)) scored).
  { revert Hs.
    apply (@foldE_invariant _ _
             (fun s : Leaderboard =>
                Forall (fun entry => 0 <= score (snd entry)) s)).
    - intros s [[day star] results] s' Hin Hs Hrun. unfold score_star in Hrun.
      destruct (str_in day (ignored_days aoc));
        [inversion Hrun; subst; exact Hs|].
      pose proof (@results_of_a_star py raw lb sr _ results Ht Hraw Hin)
        as Hresults.
      assert (Hawards : Forall (fun award => 1 <= snd award)
                          (star_awards (Z.of_nat (length lb)) results)).
      { apply star_awards_positive. lia. }
      revert Hrun.
      apply (@foldE_invariant _ _
               (fun s : Leaderboard =>
                  Forall (fun entry => 0 <= score (snd entry)) s));
        [|exact Hs].
      intros t award t' Haward Hpos Hm.
      rewrite Forall_forall in Hawards. specialize (Hawards _ Haward).
      eapply (@dict_modify_Forall (fun e => 0 <= score e));
        [| exact Hm | exact Hpos].
      intros e e1 He He0. inversion He; subst; simpl. lia.
    - eapply Forall_impl; [|exact (transpose_scores_zero _ _ Ht)].
      intros kv Hz; simpl in *. lia. }
  apply Forall_forall. intros entry Hentry.
  apply (Permutation_in _ (sorted_perm _ scored)) in Hentry.
  rewrite Forall_forall in Hscored. auto.
Qed.

Lemma scores_are_never_negative_witness :
  Forall (fun entry => 0 <= score (snd entry))
         (leaderboard example_with_day_2_parsed).
Proof.
  apply (@scores_are_never_negative plain_runtime ignoring_day_2
           spec_example_with_day_2 example_with_day_2_parsed).
  - vm_compute. reflexivity.
  - reflexivity.
  - vm_compute. repeat constructor; simpl; intuition discriminate.
Defined.

(** ** The names on the leaderboard *)

Lemma dict_modify_name k f (lb lb1 : Leaderboard) mid :
  (forall e e1, f e = inr e1 -> name e1 = name e) ->
  dict_modify py_eqb k f lb = inr lb1 ->
  option_map name (dict_get py_eqb mid lb1)
  = option_map name (dict_get py_eqb mid lb).
Proof.
  intros Hf; revert lb1; induction lb as [|[k0 v] lb IH]; simpl; intros lb1 H;
    [discriminate|].
  destruct (py_eqb k k0).
  - destruct (f v) as [|v1] eqn:E; inversion H; subst; simpl.
    destruct (py_eqb mid k0); [|reflexivity].
    simpl. f_equal. eapply Hf; eauto.
  - destruct (dict_modify py_eqb k f lb) as [|lb'] eqn:E;
      inversion H; subst; simpl.
    destruct (py_eqb mid k0); auto.
Qed.

Lemma incr_star_name star e e1 : incr_star star e = inr e1 -> name e1 = name e.
Proof.
  unfold incr_star. destruct (str_eqb star (u "1")).
  - intros H; inversion H; reflexivity.
  - destruct (str_eqb star (u "2")); intros H; inversion H; reflexivity.
Qed.

Lemma score_loop_name aoc max_score sr (lb scored : Leaderboard) mid :
  foldE (score_star aoc max_score) lb sr = inr scored ->
  option_map name (dict_get py_eqb mid scored)
  = option_map name (dict_get py_eqb mid lb).
Proof.
  apply (foldE_invariant
           (fun s => option_map name (dict_get py_eqb mid s)
                     = option_map name (dict_get py_eqb mid lb))); auto.
  intros s [[day star] results] s' _ Hs Hrun. unfold score_star in Hrun.
  destruct (str_in day (ignored_days aoc)); [inversion Hrun; subst; auto|].
  revert Hrun.
  apply (foldE_invariant
           (fun t => option_map name (dict_get py_eqb mid t)
                     = option_map name (dict_get py_eqb mid lb))); auto.
  intros t a t' _ Ht Hm. rewrite <- Ht.
  eapply dict_modify_name; [|exact Hm].
  intros e e1 He. inversion He; reflexivity.
Qed.

Section NameFacts.
Variable py : Python.

Lemma record_member_name st member st1 mid nm :
  record_member py st member = inr st1 ->
  getitem member (u "id") = inr mid ->
  getitem member (u "name") = inr nm ->
  option_map name (dict_get py_eqb mid (fst st1))
  = Some (if truthy nm then nm
          else JStr (u "Anonymous #" ++ py_str py mid)).
Proof.
  destruct st as [lb sr]; unfold record_member.
  intros H Hid Hname. rewrite Hname, Hid in H. cbn [bindE] in H.
  set (nm' := if truthy nm then nm
              else JStr (u "Anonymous #" ++ py_str py mid)).
  assert (Hnm' : (if truthy nm then inr nm
                  else ok (JStr (u "Anonymous #" ++ py_str py mid)))
                 = inr nm' :> Exc json).
  { unfold nm'. destruct (truthy nm); reflexivity. }
  rewrite Hnm' in H. cbn [bindE] in H.
  destruct (hashable mid) eqn:Hh; [|discriminate].
  bind_as H cdl Hcdl. bind_as H days Hdays.
  revert H.
  apply (foldE_invariant
           (fun s => option_map name (dict_get py_eqb mid (fst s)) = Some nm')).
  - intros s [d stars] s' _ Hs Hb. rewrite <- Hs. unfold record_day in Hb.
    bind_as Hb star_items Hitems. revert Hb.
    apply (foldE_invariant
             (fun t => option_map name (dict_get py_eqb mid (fst t))
                       = option_map name (dict_get py_eqb mid (fst s)))); auto.
    intros [lb2 sr2] [star data] t' _ Ht Hc. rewrite <- Ht.
    unfold record_star in Hc.
    bind_as Hc lb3 Hlb3. bind_as Hc ts Hts. bind_as Hc n Hn.
    destruct (fromtimestamp py n); inversion Hc; subst; simpl.
    eapply dict_modify_name; [|exact Hlb3].
    intros e e1. apply incr_star_name.
  - simpl. rewrite dict_get_set by (apply py_eqb_refl; assumption).
    reflexivity.
Qed.
End NameFacts.

(** X11.  The name a participant has on the leaderboard is the name of
    the last record with their identifier when that name is truthy, and
    ["Anonymous #"] followed by the identifier when it is not (null, an
    empty string, 0, false, an empty list or object). *)
Theorem names_on_the_leaderboard py aoc raw parsed earlier key member later
    mid nm :
  _parse_raw_leaderboard_data py aoc raw = inr parsed ->
  raw = earlier ++ (key, member) :: later ->
  getitem member (u "id") = inr mid ->
  getitem member (u "name") = inr nm ->
  Forall (fun m => forall i, getitem (snd m) (u "id") = inr i ->
                             key_norm i <> key_norm mid) later ->
  exists e,
    dict_get py_eqb mid (leaderboard parsed) = Some e
    /\ name e = if truthy nm then nm
                else JStr (u "Anonymous #" ++ py_str py mid).
Proof.
  intros H Hraw Hid Hname Hlater.
  destruct (parse_stages _ _ _ H) as (lb & sr & scored & Ht & Hs & _ & Hlb & Hd).
  unfold transpose in Ht. rewrite Hraw, map_app, foldE_app in Ht.
  destruct (foldE (record_member py) ([], []) (map snd earlier))
    as [|st0] eqn:E0; [discriminate|].
  cbn [map snd foldE] in Ht.
  destruct (record_member py st0 member) as [|st1] eqn:E1; [discriminate|].
  pose proof (@record_member_name py st0 member st1 mid nm E1 Hid Hname)
    as Hn.
  assert (Hget : dict_get py_eqb mid lb = dict_get py_eqb mid (fst st1)).
  { apply (later_members_other py _ _ Ht).
    rewrite Forall_forall in *. intros m Hm.
    apply in_map_iff in Hm. destruct Hm as (km & <- & Hkm).
    exact (Hlater _ Hkm). }
  rewrite <- Hget in Hn.
  rewrite <- (@score_loop_name aoc _ sr lb scored mid Hs) in Hn.
  rewrite Hlb.
  rewrite <- (dict_get_perm mid (Permutation_sym (sorted_perm _ scored))).
  - destruct (dict_get py_eqb mid scored) as [e|]; [|discriminate].
    exists e. split; [reflexivity|]. cbn [option_map] in Hn. congruence.
  - exact Hd.
Qed.

Lemma names_on_the_leaderboard_witness :
  exists parsed e,
    _parse_raw_leaderboard_data plain_runtime default_config
      [ (JStr (u "7"), snd (member_record 7)) ] = inr parsed
    /\ dict_get py_eqb (JStr (u "7")) (leaderboard parsed) = Some e
    /\ name e = JStr (u "Anonymous #7").
Proof.
  pose (run := _parse_raw_leaderboard_data plain_runtime default_config
                 [ (JStr (u "7"), snd (member_record 7)) ]).
  assert (E : run = inr match run with
                        | inr parsed => parsed
                        | inl _ => {| daily_stats := []; leaderboard := [] |}
                        end) by (vm_compute; reflexivity).
  destruct (@names_on_the_leaderboard plain_runtime default_config
              [ (JStr (u "7"), snd (member_record 7)) ] _
              [] (JStr (u "7")) (snd (member_record 7)) [] (JStr (u "7")) JNull
              E eq_refl eq_refl eq_refl (Forall_nil _))
    as (e & Hget & Hname).
  eexists; exists e. split; [exact E|]. split; [exact Hget | exact Hname].
Defined.

(** ** The records the aggregator takes *)

Lemma foldE_each {A S} (body : S -> A -> Exc S) (l : list A) : forall s s',
  foldE body s l = inr s' ->
  Forall (fun a => exists s0 s1, body s0 a = inr s1) l.
Proof.
  induction l as [|a l IH]; intros s s' H; simpl in H; [constructor|].
  destruct (body s a) as [|s1] eqn:E; [discriminate|].
  constructor; [eauto | eapply IH; eauto].
Qed.

Lemma foldE_returns {A S} (P : S -> Prop) (body : S -> A -> Exc S)
    (l : list A) :
  (forall s a, In a l -> P s -> exists s1, body s a = inr s1 /\ P s1) ->
  forall s, P s -> exists s', foldE body s l = inr s' /\ P s'.
Proof.
  induction l as [|a l IH]; intros Hbody s Hs; simpl.
  - exists s; split; [reflexivity | exact Hs].
  - destruct (Hbody s a (or_introl eq_refl) Hs) as (s1 & E & Hs1).
    rewrite E. apply IH; [|exact Hs1].
    intros s0 a0 Hin. apply Hbody. right; exact Hin.
Qed.

Lemma score_loop_returns aoc max_score (sr : StarResults) :
  forall lb : Leaderboard,
    known_members lb sr ->
    exists scored, foldE (score_star aoc max_score) lb sr = inr scored.
Proof.
  induction sr as [|[[day star] results] sr IH]; intros lb Hknown; simpl.
  - eexists; reflexivity.
  - inversion Hknown as [|? ? Hhead Hrest]; subst; simpl in Hhead.
    destruct (str_in day (ignored_days aoc)); [apply IH; exact Hrest|].
    destruct (@hand_out_awards (star_awards max_score results) lb
                (@star_awards_known lb max_score results Hhead))
      as (lb' & Hrun & Hkeys & _).
    rewrite Hrun. apply IH. eapply known_members_keys; eauto.
Qed.

Section Acceptance.
Variable py : Python.

Lemma record_star_accepts mid day (lb : Leaderboard) sr star_data :
  accepted_star py star_data = true ->
  dict_get py_eqb mid lb <> None ->
  exists st',
    record_star py mid day (lb, sr) star_data = inr st'
    /\ dict_get py_eqb mid (fst st') <> None.
Proof.
  destruct star_data as [star data]. unfold accepted_star, record_star.
  cbn [fst snd]. intros Hacc Hmid.
  apply andb_true_iff in Hacc. destruct Hacc as [Hstar Hdata].
  destruct (dict_modify_succeeds py_eqb mid (incr_star star) lb Hmid)
    as [lb1 Hlb1].
  { intros v. unfold incr_star. apply orb_true_iff in Hstar.
    destruct (str_eqb star (u "1")); [eexists; reflexivity|].
    destruct Hstar as [Hstar|Hstar]; [discriminate|].
    rewrite Hstar. eexists; reflexivity. }
  rewrite Hlb1. cbn [bindE].
  destruct (getitem data (u "get_star_ts")) as [|ts]; [discriminate|].
  cbn [bindE]. destruct (py_int py ts) as [|n]; [discriminate|].
  cbn [bindE]. destruct (fromtimestamp py n); [|discriminate].
  eexists. split; [reflexivity|]. cbn [fst].
  intros Hnone. apply Hmid.
  apply (proj2 (@dict_get_keys _ _ _ py_eqb mid lb lb1
                  (eq_sym (dict_modify_keys _ _ _ _ Hlb1)))).
  exact Hnone.
Qed.

Lemma record_day_accepts mid st day_stars :
  accepted_day py day_stars = true ->
  dict_get py_eqb mid (fst st) <> None ->
  exists st',
    record_day py mid st day_stars = inr st'
    /\ dict_get py_eqb mid (fst st') <> None.
Proof.
  destruct day_stars as [day stars]. unfold accepted_day, record_day.
  cbn [snd]. destruct stars as [| | | | |stars]; try discriminate.
  intros Hacc Hmid. cbn [items bindE ok].
  apply (foldE_returns (fun s => dict_get py_eqb mid (fst s) <> None));
    [|exact Hmid].
  intros [lb sr] star_data Hin Hs.
  rewrite forallb_forall in Hacc.
  apply record_star_accepts; [apply Hacc; exact Hin | exact Hs].
Qed.

Lemma record_member_accepts st member :
  accepted_member py member = true ->
  exists st', record_member py st member = inr st'.
Proof.
  destruct st as [lb sr]. unfold accepted_member, record_member.
  destruct (getitem member (u "name")) as [|nm] eqn:Hnm; [discriminate|].
  destruct (getitem member (u "id")) as [|mid] eqn:Hid; [discriminate|].
  destruct (getitem member (u "completion_day_level")) as [|cdl];
    [discriminate|].
  destruct cdl as [| | | | |days]; try discriminate.
  intros Hacc. apply andb_true_iff in Hacc. destruct Hacc as [Hh Hdays].
  cbn [bindE]. destruct (truthy nm); cbn [bindE ok]; rewrite Hh;
    cbn [items bindE ok].
  - destruct (foldE_returns
                (fun s => dict_get py_eqb mid (fst s) <> None)
                (record_day py mid) days) with
      (s := (dict_set py_eqb mid
               {| name := nm; score := 0; star_1 := 0; star_2 := 0 |} lb, sr))
      as (st' & Hrun & _).
    + intros s day_stars Hin Hs. rewrite forallb_forall in Hdays.
      apply record_day_accepts; [apply Hdays; exact Hin | exact Hs].
    + cbn [fst]. apply dict_set_self_present, py_eqb_refl, Hh.
    + eauto.
  - destruct (foldE_returns
                (fun s => dict_get py_eqb mid (fst s) <> None)
                (record_day py mid) days) with
      (s := (dict_set py_eqb mid
               {| name := JStr (u "Anonymous #" ++ py_str py mid);
                  score := 0; star_1 := 0; star_2 := 0 |} lb, sr))
      as (st' & Hrun & _).
    + intros s day_stars Hin Hs. rewrite forallb_forall in Hdays.
      apply record_day_accepts; [apply Hdays; exact Hin | exact Hs].
    + cbn [fst]. apply dict_set_self_present, py_eqb_refl, Hh.
    + eauto.
Qed.

Lemma record_star_accepted mid day st star_data st' :
  record_star py mid day st star_data = inr st' ->
  accepted_star py star_data = true.
Proof.
  destruct st as [lb sr]. destruct star_data as [star data].
  unfold record_star, accepted_star. cbn [fst snd]. intros H.
  bind_as H lb1 Hlb1. bind_as H ts Hts. bind_as H n Hn.
  destruct (fromtimestamp py n) eqn:Ht; [|discriminate].
  rewrite Hts, Hn, Ht, andb_true_r.
  destruct (dict_get_modify _ _ _ _ Hlb1) as (v & v' & _ & Hincr & _).
  unfold incr_star in Hincr.
  destruct (str_eqb star (u "1")); [reflexivity|].
  destruct (str_eqb star (u "2")); [reflexivity | discriminate].
Qed.

Lemma record_day_accepted mid st day_stars st' :
  record_day py mid st day_stars = inr st' ->
  accepted_day py day_stars = true.
Proof.
  destruct day_stars as [day stars]. unfold record_day, accepted_day.
  cbn [snd]. intros H. bind_as H star_items Hitems.
  destruct stars as [| | | | |stars]; try discriminate.
  inversion Hitems; subst star_items; clear Hitems.
  apply foldE_each in H. apply forallb_forall. intros star_data Hin.
  rewrite Forall_forall in H. destruct (H _ Hin) as (s0 & s1 & Hrun).
  eapply record_star_accepted; eauto.
Qed.

Lemma record_member_accepted st member st' :
  record_member py st member = inr st' ->
  accepted_member py member = true.
Proof.
  destruct st as [lb sr]. unfold record_member, accepted_member. intros H.
  bind_as H nm Hnm. bind_as H nm' Hnm'. bind_as H mid Hmid.
  destruct (hashable mid) eqn:Hh; [|discriminate].
  bind_as H cdl Hcdl. bind_as H days Hdays.
  rewrite Hnm, Hmid, Hcdl.
  destruct cdl as [| | | | |days']; try discriminate.
  inversion Hdays; subst days'; clear Hdays.
  rewrite Hh. cbn [andb].
  apply foldE_each in H. apply forallb_forall. intros day_stars Hin.
  rewrite Forall_forall in H. destruct (H _ Hin) as (s0 & s1 & Hrun).
  eapply record_day_accepted; eauto.
Qed.
End Acceptance.

(** X12.  The aggregator returns exactly on the inputs whose records it
    takes: each an object with a ["name"], a hashable ["id"] and a
    ["completion_day_level"] that is an object of objects, with no star
    other than ["1"] and ["2"] and a ["get_star_ts"] that [int()] and
    [fromtimestamp] convert.  The ranking, the sort and the statistics
    raise nothing of their own. *)
Theorem aggregator_returns_iff py aoc raw :
  (exists parsed, _parse_raw_leaderboard_data py aoc raw = inr parsed)
  <-> forallb (accepted_member py) (map snd raw) = true.
Proof.
  split.
  - intros [parsed H]. apply parse_stages in H.
    destruct H as (lb & sr & scored & Ht & _).
    unfold transpose in Ht. apply foldE_each in Ht.
    apply forallb_forall. intros member Hin.
    rewrite Forall_forall in Ht. destruct (Ht _ Hin) as (s0 & s1 & Hrun).
    eapply record_member_accepted; eauto.
  - intros Hacc. rewrite forallb_forall in Hacc.
    destruct (foldE_returns (fun _ => True) (record_member py) (map snd raw))
      with (s := (@nil (json * LeaderboardEntry), @nil ((str * str) * list StarResult)))
      as (st & Ht & _); [|exact I|].
    { intros s member Hin _.
      destruct (@record_member_accepts py s member (Hacc _ Hin)) as [s1 Hs1].
      exists s1; split; [exact Hs1 | exact I]. }
    destruct st as [lb sr].
    destruct (@transpose_transposed py raw (lb, sr) Ht) as [Hknown _].
    cbn [fst snd] in Hknown.
    destruct (@score_loop_returns aoc (Z.of_nat (length lb)) sr lb Hknown)
      as [scored Hscored].
    unfold _parse_raw_leaderboard_data. fold (transpose py raw) in Ht.
    rewrite Ht. cbn [bindE]. rewrite Hscored. cbn [bindE].
    eexists; reflexivity.
Qed.

Lemma aggregator_returns_iff_witness :
  exists parsed,
    _parse_raw_leaderboard_data plain_runtime default_config
      spec_example_with_ids = inr parsed.
Proof.
  apply (proj2 (aggregator_returns_iff plain_runtime default_config
                  spec_example_with_ids)).
  reflexivity.
Defined.

(** ** Ties *)

Lemma filter_insert_tied k x (l : Leaderboard) :
  filter (tied_with k)
    (insert_sorted (fun a b => tuple_leb (leaderboard_sorting_function b)
                                         (leaderboard_sorting_function a))
                   x l)
  = filter (tied_with k) (x :: l).
Proof.
  induction l as [|y l IH]; [reflexivity|].
  cbn [insert_sorted].
  destruct (tuple_leb (leaderboard_sorting_function y)
                      (leaderboard_sorting_function x)) eqn:E;
    [reflexivity|].
  cbn [filter] in *. rewrite IH.
  destruct (tied_with k x) eqn:Ex; [|reflexivity].
  destruct (tied_with k y) eqn:Ey; [|reflexivity].
  exfalso. unfold tied_with in Ex, Ey. unfold tuple_leb in E.
  apply andb_true_iff in Ex, Ey. destruct Ex as [Ex1 Ex2], Ey as [Ey1 Ey2].
  apply Z.eqb_eq in Ex1, Ex2, Ey1, Ey2.
  apply orb_false_iff in E. destruct E as [_ E].
  apply andb_false_iff in E. destruct E as [E|E].
  - apply Z.eqb_neq in E. congruence.
  - apply Z.leb_gt in E. lia.
Qed.

Lemma filter_sorted_tied k (l : Leaderboard) :
  filter (tied_with k)
    (sorted (fun a b => tuple_leb (leaderboard_sorting_function b)
                                  (leaderboard_sorting_function a)) l)
  = filter (tied_with k) l.
Proof.
  induction l as [|x l IH]; [reflexivity|].
  cbn [sorted fold_right]. fold (sorted (fun a b =>
    tuple_leb (leaderboard_sorting_function b)
              (leaderboard_sorting_function a)) l).
  rewrite filter_insert_tied. cbn [filter]. rewrite IH. reflexivity.
Qed.

(** ** The participants *)

Section ParticipantFacts.
Variable py : Python.

Lemma record_member_keys (lb : Leaderboard) sr member st1 :
  record_member py (lb, sr) member = inr st1 ->
  exists mid e,
    getitem member (u "id") = inr mid
    /\ hashable mid = true
    /\ map fst (fst st1) = map fst (dict_set py_eqb mid e lb).
Proof.
  unfold record_member. intros H.
  bind_as H nm Hnm. bind_as H nm' Hnm'. bind_as H mid Hmid.
  destruct (hashable mid) eqn:Hh; [|discriminate].
  bind_as H cdl Hcdl. bind_as H days Hdays.
  exists mid, {| name := nm'; score := 0; star_1 := 0; star_2 := 0 |}.
  split; [exact Hmid|]. split; [exact Hh|].
  revert H.
  apply (foldE_invariant
           (fun s => map fst (fst s)
                     = map fst (dict_set py_eqb mid
                                  {| name := nm'; score := 0;
                                     star_1 := 0; star_2 := 0 |} lb)));
    [|reflexivity].
  intros s a s' _ Hs Hb. rewrite <- Hs. eapply record_day_keys; eauto.
Qed.

Lemma dict_set_length mid e (lb : Leaderboard) :
  (length (dict_set py_eqb mid e lb) <= S (length lb))%nat.
Proof.
  induction lb as [|[k v] lb IH]; simpl; [lia|].
  destruct (py_eqb mid k); simpl; lia.
Qed.

Lemma transpose_length members : forall st st1,
  foldE (record_member py) st members = inr st1 ->
  (length (fst st1) <= length (fst st) + length members)%nat.
Proof.
  induction members as [|member members IH]; intros st st1 H; simpl in H.
  - inversion H; subst. lia.
  - destruct (record_member py st member) as [|st0] eqn:E; [discriminate|].
    apply IH in H. destruct st as [lb sr].
    destruct (record_member_keys _ _ _ E) as (mid & e & _ & _ & Hkeys).
    apply (f_equal (@length _)) in Hkeys. rewrite !length_map in Hkeys.
    pose proof (dict_set_length mid e lb). simpl in *. lia.
Qed.

Lemma record_member_keeps st member st1 k :
  record_member py st member = inr st1 ->
  dict_get py_eqb k (fst st) <> None ->
  dict_get py_eqb k (fst st1) <> None.
Proof.
  destruct st as [lb sr]. intros H Hk.
  destruct (record_member_keys _ _ _ H) as (mid & e & _ & _ & Hkeys).
  intros Hnone.
  apply (proj1 (@dict_get_keys _ _ _ py_eqb k _ _ Hkeys)) in Hnone.
  revert Hnone. apply dict_set_present. exact Hk.
Qed.

Lemma record_member_listed st member st1 :
  record_member py st member = inr st1 ->
  exists mid,
    getitem member (u "id") = inr mid
    /\ dict_get py_eqb mid (fst st1) <> None.
Proof.
  destruct st as [lb sr]. intros H.
  destruct (record_member_keys _ _ _ H) as (mid & e & Hid & Hh & Hkeys).
  exists mid. split; [exact Hid|]. intros Hnone.
  apply (proj1 (@dict_get_keys _ _ _ py_eqb mid _ _ Hkeys)) in Hnone.
  revert Hnone. apply dict_set_self_present, py_eqb_refl, Hh.
Qed.
End ParticipantFacts.

Lemma dict_set_keys mid e (lb : Leaderboard) :
  map fst (dict_set py_eqb mid e lb)
  = if existsb (py_eqb mid) (map fst lb) then map fst lb
    else map fst lb ++ [mid].
Proof.
  induction lb as [|[k v] lb IH]; simpl; [reflexivity|].
  destruct (py_eqb mid k); simpl; [reflexivity|].
  rewrite IH. destruct (existsb (py_eqb mid) (map fst lb)); reflexivity.
Qed.

(** The keys of the leaderboard of the first loop are the identifiers of
    the records, each where it first occurs. *)
Lemma transpose_key_order py members : forall st st1,
  foldE (record_member py) st members = inr st1 ->
  map fst (fst st1)
  = fold_left (fun seen k =>
                 if existsb (py_eqb k) seen then seen else seen ++ [k])
              (map id_of members) (map fst (fst st)).
Proof.
  induction members as [|member members IH]; intros st st1 H; simpl in H.
  - inversion H; subst. reflexivity.
  - destruct (record_member py st member) as [|st0] eqn:E; [discriminate|].
    rewrite (IH _ _ H). cbn [map fold_left]. f_equal.
    destruct st as [lb sr].
    destruct (@record_member_keys py lb sr member st0 E)
      as (mid & e & Hid & _ & Hkeys).
    unfold id_of. rewrite Hid, Hkeys. cbn [fst]. apply dict_set_keys.
Qed.

(** X13.  The final sort is stable: participants with the same score and
    the same number of stars stand on the leaderboard in the order they
    had before the sort, and that order, which the ranking keeps, is the
    order in which their identifiers first occur in the records. *)
Theorem ties_keep_their_order py aoc raw parsed :
  _parse_raw_leaderboard_data py aoc raw = inr parsed ->
  exists lb sr scored,
    transpose py raw = inr (lb, sr)
    /\ foldE (score_star aoc (Z.of_nat (length lb))) lb sr = inr scored
    /\ map fst scored = map fst lb
    /\ map fst lb = first_occurrences (map id_of (map snd raw))
    /\ forall k,
         filter (tied_with k) (leaderboard parsed)
         = filter (tied_with k) scored.
Proof.
  intros H. apply parse_stages in H.
  destruct H as (lb & sr & scored & Ht & Hs & _ & Hl & _).
  exists lb, sr, scored. split; [exact Ht|]. split; [exact Hs|].
  split; [eapply score_loop_keys; eauto|]. split.
  - unfold transpose in Ht.
    exact (@transpose_key_order py (map snd raw) ([], []) (lb, sr) Ht).
  - intros k. rewrite Hl. apply filter_sorted_tied.
Qed.

Lemma ties_keep_their_order_witness :
  exists lb sr scored,
    transpose plain_runtime
      [ (JStr (u "7"), snd (member_record 7));
        (JStr (u "3"), snd (member_record 3)) ] = inr (lb, sr)
    /\ foldE (score_star default_config (Z.of_nat (length lb))) lb sr
       = inr scored
    /\ map fst scored = map fst lb
    /\ map fst lb
       = first_occurrences
           (map id_of (map snd [ (JStr (u "7"), snd (member_record 7));
                                 (JStr (u "3"), snd (member_record 3)) ]))
    /\ forall k,
         filter (tied_with k)
           [ (JStr (u "7"),
              {| name := JStr (u "Anonymous #7"); score := 0;
                 star_1 := 0; star_2 := 0 |});
             (JStr (u "3"),
              {| name := JStr (u "Anonymous #3"); score := 0;
                 star_1 := 0; star_2 := 0 |}) ]
         = filter (tied_with k) scored.
Proof.
  apply (@ties_keep_their_order plain_runtime default_config
           [ (JStr (u "7"), snd (member_record 7));
             (JStr (u "3"), snd (member_record 3)) ]
           {| daily_stats := make_daily_stats [];
              leaderboard :=
                [ (JStr (u "7"),
                   {| name := JStr (u "Anonymous #7"); score := 0;
                      star_1 := 0; star_2 := 0 |});
                  (JStr (u "3"),
                   {| name := JStr (u "Anonymous #3"); score := 0;
                      star_1 := 0; star_2 := 0 |}) ] |}).
  vm_compute. reflexivity.
Defined.


(** X14.  Every record has its participant on the leaderboard returned,
    under the ["id"] of the record; the identifiers on the leaderboard
    are different dictionary keys, so that there are at most as many
    participants as records. *)
Theorem every_record_is_listed py aoc raw parsed :
  _parse_raw_leaderboard_data py aoc raw = inr parsed ->
  distinct_keys (leaderboard parsed)
  /\ (length (leaderboard parsed) <= length raw)%nat
  /\ Forall (fun m =>
               exists mid,
                 getitem (snd m) (u "id") = inr mid
                 /\ dict_get py_eqb mid (leaderboard parsed) <> None)
            raw.
Proof.
  intros H. apply parse_stages in H.
  destruct H as (lb & sr & scored & Ht & Hs & _ & Hl & Hd).
  pose proof (score_loop_keys _ _ _ _ Hs) as Hkeys.
  rewrite Hl. split; [|split].
  - eapply distinct_keys_perm; [apply Permutation_sym, sorted_perm | exact Hd].
  - rewrite sorted_length, <- (length_map fst scored), Hkeys, length_map.
    unfold transpose in Ht. apply transpose_length in Ht.
    rewrite length_map in Ht. simpl in Ht. exact Ht.
  - apply Forall_forall. intros m Hm.
    apply in_split in Hm. destruct Hm as (earlier & later & ->).
    unfold transpose in Ht. rewrite map_app, foldE_app in Ht.
    destruct (foldE (record_member py) ([], []) (map snd earlier))
      as [|st0] eqn:E0; [discriminate|].
    cbn [map foldE] in Ht.
    destruct (record_member py st0 (snd m)) as [|st1] eqn:E1; [discriminate|].
    destruct (record_member_listed _ _ _ E1) as (mid & Hid & Hin).
    exists mid. split; [exact Hid|].
    assert (Hlb : dict_get py_eqb mid lb <> None).
    { change (dict_get py_eqb mid (fst (lb, sr)) <> None). revert Ht.
      apply (foldE_invariant
               (fun s => dict_get py_eqb mid (fst s) <> None));
        [|exact Hin].
      intros s a s' _ Hs0 Hrun. eapply record_member_keeps; eauto. }
    rewrite <- (dict_get_perm mid (Permutation_sym (sorted_perm _ scored)))
      by exact Hd.
    intros Hnone. apply Hlb.
    apply (proj1 (@dict_get_keys _ _ _ py_eqb mid scored lb Hkeys)).
    exact Hnone.
Qed.

Lemma every_record_is_listed_witness :
  distinct_keys (leaderboard example_with_day_2_parsed)
  /\ (length (leaderboard example_with_day_2_parsed)
      <= length spec_example_with_day_2)%nat
  /\ Forall (fun m =>
               exists mid,
                 getitem (snd m) (u "id") = inr mid
                 /\ dict_get py_eqb mid (leaderboard example_with_day_2_parsed)
                    <> None)
            spec_example_with_day_2.
Proof.
  apply (@every_record_is_listed plain_runtime ignoring_day_2
           spec_example_with_day_2 example_with_day_2_parsed).
  vm_compute. reflexivity.
Defined.

(** ** What the formatter takes *)

Lemma format_entry_returns rank data :
  (exists line, format_entry rank data = inr line)
  <-> exists s, name data = JStr s.
Proof.
  unfold format_entry, format_name. split.
  - intros [line H]. destruct (name data); try discriminate. eauto.
  - intros [s ->]. eexists; reflexivity.
Qed.

Lemma format_entry_raises rank data e :
  format_entry rank data = inl e -> e = ValueError \/ e = TypeError.
Proof.
  unfold format_entry, format_name.
  destruct (name data); intros H; inversion H; auto.
Qed.

Lemma format_loop_returns (l : list LeaderboardEntry) : forall start init,
  Forall (fun data => exists s, name data = JStr s) l ->
  exists lines,
    foldE (fun leaderboard_lines rank_data =>
             match format_entry (fst rank_data) (snd rank_data) with
             | inl e => inl e
             | inr line => ok (leaderboard_lines ++ [line])
             end)
          init (enumerate start l) = inr lines.
Proof.
  induction l as [|data l IH]; intros start init Hall; simpl.
  - eexists; reflexivity.
  - inversion Hall as [|? ? Hd Hl]; subst.
    destruct (proj2 (format_entry_returns start data) Hd) as [line ->].
    simpl. apply IH. exact Hl.
Qed.

Lemma format_loop_outcome (l : list LeaderboardEntry) : forall start init,
  match foldE (fun leaderboard_lines rank_data =>
                 match format_entry (fst rank_data) (snd rank_data) with
                 | inl e => inl e
                 | inr line => ok (leaderboard_lines ++ [line])
                 end)
              init (enumerate start l) with
  | inr _ => Forall (fun data => exists s, name data = JStr s) l
  | inl e => e = ValueError \/ e = TypeError
  end.
Proof.
  induction l as [|data l IH]; intros start init; simpl; [constructor|].
  destruct (format_entry start data) as [e|line] eqn:E.
  - eapply format_entry_raises; eauto.
  - simpl. specialize (IH (S start) (init ++ [line])).
    destruct (foldE _ (init ++ [line]) (enumerate (S start) l)); [exact IH|].
    constructor; [|exact IH].
    apply (proj1 (format_entry_returns start data)). eauto.
Qed.

Lemma enumerate_app {A} (l1 l2 : list A) : forall start,
  enumerate start (l1 ++ l2)
  = enumerate start l1 ++ enumerate (start + length l1) l2.
Proof.
  induction l1 as [|x l1 IH]; intros start; simpl.
  - rewrite Nat.add_0_r. reflexivity.
  - rewrite IH, Nat.add_succ_r. reflexivity.
Qed.

(** The loop ends with the exception of the first name that is not a
    string. *)
Lemma format_loop_stops (before : list LeaderboardEntry) data after e :
  forall start init,
    Forall (fun data => exists s, name data = JStr s) before ->
    format_name (name data) = inl e ->
    foldE (fun leaderboard_lines rank_data =>
             match format_entry (fst rank_data) (snd rank_data) with
             | inl e => inl e
             | inr line => ok (leaderboard_lines ++ [line])
             end)
          init (enumerate start (before ++ data :: after)) = inl e.
Proof.
  intros start init Hbefore Hdata.
  rewrite enumerate_app, foldE_app.
  destruct (@format_loop_returns before start init Hbefore) as [lines ->].
  cbn [enumerate foldE fst snd]. unfold format_entry. rewrite Hdata.
  reflexivity.
Qed.

(** X15.  The formatter returns when every name on the leaderboard is a
    string, and the first name that is not one decides the exception:
    [ValueError] for an integer or a boolean, [TypeError] for null, a
    list or an object; it raises nothing else.  (A name that is a float
    is no document of [json]; Python formats it.) *)
Theorem formatter_outcome lb :
  (Forall (fun entry => exists s, name (snd entry) = JStr s) lb ->
   exists full, _format_leaderboard lb = inr full)
  /\ (forall before entry after,
        lb = before ++ entry :: after ->
        Forall (fun entry => exists s, name (snd entry) = JStr s) before ->
        match name (snd entry) with
        | JStr _ => True
        | JNum _ | JBool _ => _format_leaderboard lb = inl ValueError
        | JNull | JArr _ | JObj _ => _format_leaderboard lb = inl TypeError
        end)
  /\ (forall e, _format_leaderboard lb = inl e ->
        e = ValueError \/ e = TypeError).
Proof.
  split; [|split].
  - intros Hall. unfold _format_leaderboard.
    destruct (@format_loop_returns (map snd lb) 1%nat [HEADER]) as [lines ->].
    + rewrite Forall_map. exact Hall.
    + eexists; reflexivity.
  - intros before entry after -> Hbefore.
    assert (Hstop : forall e,
              format_name (name (snd entry)) = inl e ->
              _format_leaderboard (before ++ entry :: after) = inl e).
    { intros e He. unfold _format_leaderboard.
      rewrite map_app. cbn [map].
      rewrite (@format_loop_stops (map snd before) (snd entry)
                 (map snd after) e 1%nat [HEADER]);
        [reflexivity | rewrite Forall_map; exact Hbefore | exact He]. }
    destruct (name (snd entry)); try exact I; apply Hstop; reflexivity.
  - unfold _format_leaderboard.
    pose proof (format_loop_outcome (map snd lb) 1 [HEADER]) as Hout.
    intros e H.
    destruct (foldE _ [HEADER] (enumerate 1 (map snd lb)));
      inversion H; subst. exact Hout.
Qed.

Lemma formatter_outcome_witness :
  (exists full, _format_leaderboard example_leaderboard = inr full)
  /\ _format_leaderboard
       (example_leaderboard
        ++ [ (JStr (u "3"),
              {| name := JNum 3; score := 0; star_1 := 0; star_2 := 0 |}) ])
     = inl ValueError.
Proof.
  split.
  - apply (proj1 (formatter_outcome example_leaderboard)).
    repeat constructor; eexists; reflexivity.
  - apply (proj1 (proj2 (formatter_outcome
                           (example_leaderboard
                            ++ [ (JStr (u "3"),
                                  {| name := JNum 3; score := 0;
                                     star_1 := 0; star_2 := 0 |}) ])))
             example_leaderboard
             (JStr (u "3"),
              {| name := JNum 3; score := 0; star_1 := 0; star_2 := 0 |})
             []).
    + reflexivity.
    + repeat constructor; eexists; reflexivity.
Defined.

(** X16.  The top view of a table that has no more entries than the
    number of members displayed is the full table, when every name stays
    on its line. *)
Theorem top_view_of_a_short_table aoc lb full :
  Forall (fun e => one_line_name (name (snd e)) = true) lb ->
  _format_leaderboard lb = inr full ->
  (length lb <= leaderboard_displayed_members aoc)%nat ->
  _get_top_leaderboard aoc full = full.
Proof.
  intros Hnames H Hshort. unfold _format_leaderboard in H.
  destruct (foldE _ [HEADER] (enumerate 1 (map snd lb))) as [|lines] eqn:E;
    [discriminate|].
  inversion H; subst full; clear H.
  destruct (@format_loop_lines (map snd lb) 1%nat [HEADER] lines)
    as (added & -> & Hlen & Hgood); auto.
  { apply Forall_map. exact Hnames. }
  change ([HEADER] ++ added) with (HEADER :: added).
  set (dashes := repeat 45%N (length HEADER_first_line + 2)).
  assert (Hall : Forall (fun l => no_linebreak l = true /\ l <> [])
                   (HEADER_first_line :: dashes :: added)).
  { constructor; [split; [reflexivity | discriminate]|].
    constructor; [split; [reflexivity | discriminate]|]. assumption. }
  assert (Hjoin : join [10%N] (HEADER :: added)
                  = join [10%N] (HEADER_first_line :: dashes :: added)).
  { unfold HEADER. apply join_first_two. }
  unfold _get_top_leaderboard.
  change (TOP_LEADERBOARD_LINES aoc)
    with (2 + leaderboard_displayed_members aoc)%nat.
  rewrite Hjoin at 1. rewrite (splitlines_join Hall).
  rewrite firstn_all2; [symmetry; exact Hjoin|].
  rewrite length_map in Hlen. simpl. lia.
Qed.

Lemma top_view_of_a_short_table_witness :
  exists full,
    _format_leaderboard example_leaderboard = inr full
    /\ _get_top_leaderboard default_config full = full.
Proof.
  pose (run := _format_leaderboard example_leaderboard).
  assert (E : run = inr match run with inr full => full | inl _ => [] end)
    by (vm_compute; reflexivity).
  eexists. split; [exact E|].
  apply (@top_view_of_a_short_table default_config example_leaderboard _).
  - repeat constructor.
  - exact E.
  - simpl. lia.
Defined.

(** X17.  What the aggregator returns, the formatter takes, when every
    truthy name among the records is a string: the names the aggregator
    makes up for the others are strings, and neither the ranking nor the
    sort touches a name. *)
Theorem parsed_leaderboard_is_formatted py aoc raw parsed :
  _parse_raw_leaderboard_data py aoc raw = inr parsed ->
  Forall (fun m => forall nm,
            getitem (snd m) (u "name") = inr nm -> truthy nm = true ->
            exists s, nm = JStr s)
         raw ->
  exists full, _format_leaderboard (leaderboard parsed) = inr full.
Proof.
  intros H Hraw. apply parse_stages in H.
  destruct H as (lb & sr & scored & Ht & Hs & _ & Hl & _).
  assert (Hlb : Forall (fun kv => exists s, name (snd kv) = JStr s) lb).
  { unfold transpose in Ht.
    apply (@transpose_Forall py (fun e => exists s, name e = JStr s)
             (fun nm => exists s, nm = JStr s) (map snd raw))
      with (st := ([], [])) (st1 := (lb, sr)) in Ht; auto.
    - intros star e e1 He [s Hname]. exists s.
      rewrite (incr_star_name _ _ He). exact Hname.
    - rewrite Forall_map. eapply Forall_impl; [|exact Hraw].
      intros m Hm nm mid Hnm _. destruct (truthy nm) eqn:Etruthy.
      + apply Hm; assumption.
      + eexists; reflexivity. }
  assert (Hscored : Forall (fun kv => exists s, name (snd kv) = JStr s) scored).
  { revert Hs.
    apply (@foldE_invariant _ _
             (fun s : Leaderboard =>
                Forall (fun kv => exists s, name (snd kv) = JStr s) s));
      [|exact Hlb].
    intros s [[day star] results] s' _ Hall Hrun. unfold score_star in Hrun.
    destruct (str_in day (ignored_days aoc));
      [inversion Hrun; subst; exact Hall|].
    revert Hrun.
    apply (@foldE_invariant _ _
             (fun s : Leaderboard =>
                Forall (fun kv => exists s, name (snd kv) = JStr s) s));
      [|exact Hall].
    intros t award t' _ Ht0 Hm.
    eapply (@dict_modify_Forall (fun e => exists s, name e = JStr s));
      [| exact Hm | exact Ht0].
    intros e e1 He He0. inversion He; subst; exact He0. }
  unfold _format_leaderboard.
  destruct (@format_loop_returns (map snd (leaderboard parsed)) 1%nat [HEADER])
    as [lines ->]; [|eexists; reflexivity].
  rewrite Forall_map, Hl. apply Forall_forall. intros entry Hentry.
  apply (Permutation_in _ (sorted_perm _ scored)) in Hentry.
  rewrite Forall_forall in Hscored. auto.
Qed.

Lemma parsed_leaderboard_is_formatted_witness :
  exists full,
    _format_leaderboard (leaderboard example_with_day_2_parsed) = inr full.
Proof.
  apply (@parsed_leaderboard_is_formatted plain_runtime ignoring_day_2
           spec_example_with_day_2 example_with_day_2_parsed).
  - vm_compute. reflexivity.
  - repeat constructor; intros nm Hnm _; inversion Hnm; eexists; reflexivity.
Defined.

(** ** The time left to midnight *)

(** X18.  With a clock that does not go back between the two readings,
    the [datetime] returned by [time_left_to_aoc_midnight] is a midnight,
    the first one after the first reading, and the time left is at most a
    day; it is positive exactly when the second reading is still before
    that midnight, so a call that runs across midnight returns a time
    left that is zero or negative. *)
Theorem midnight_is_ahead first_now second_now :
  first_now <= second_now ->
  let tomorrow := fst (time_left_to_aoc_midnight first_now second_now) in
  let left := snd (time_left_to_aoc_midnight first_now second_now) in
  tomorrow mod one_day = 0
  /\ first_now < tomorrow <= first_now + one_day
  /\ left <= one_day
  /\ (0 < left <-> second_now < tomorrow).
Proof.
  intros Hclock. unfold time_left_to_aoc_midnight. cbn [fst snd].
  assert (Hday : 0 < one_day) by (unfold one_day; lia).
  pose proof (Z.mod_pos_bound first_now one_day Hday) as Hmod.
  pose proof (Z.div_mod first_now one_day) as Hdiv.
  split.
  - replace (first_now - first_now mod one_day + one_day)
      with ((first_now / one_day + 1) * one_day) by lia.
    apply Z_mod_mult.
  - lia.
Qed.

Lemma midnight_is_ahead_witness :
  fst (time_left_to_aoc_midnight (3 * one_day + 5) (3 * one_day + 6))
  = 4 * one_day
  /\ snd (time_left_to_aoc_midnight (3 * one_day + 5) (3 * one_day + 6))
     <= one_day.
Proof.
  destruct (@midnight_is_ahead (3 * one_day + 5) (3 * one_day + 6))
    as (_ & _ & Hleft & _).
  - unfold one_day. lia.
  - split; [reflexivity | exact Hleft].
Defined.

(** ** The upload *)

Ltac not_an_object :=
  let Hresp := fresh "Hresp" in
  let Hjson := fresh "Hjson" in
  intros ? ? Hresp Hjson; inversion Hresp; subst; congruence.

(** X19.  Whatever the paste service answers, [_upload_leaderboard]
    issues one request, the POST of the table to the paste service,
    without a session cookie, and changes nothing else.  It returns the
    empty string or a raw URL of the paste service, and it raises only
    what the transport raised or [TypeError]; on an answer that is a
    JSON object it returns, with a URL exactly when the object has a
    ["key"]. *)
Theorem upload_outcomes py env table w :
  let run := _upload_leaderboard py env table w in
  snd run = log_request {| req_method := u "POST"; req_url := PASTE_URL;
                           req_session := None; req_data := Some table |} w
  /\ (forall url, fst run = inr url ->
        url = [] \/ exists key, url = RAW_PASTE_URL_TEMPLATE key)
  /\ (forall e, fst run = inl e ->
        network env (length (requests w)) = inl e \/ e = TypeError)
  /\ (forall resp members,
        network env (length (requests w)) = inr resp ->
        resp_json resp = inr (JObj members) ->
        exists url,
          fst run = inr url
          /\ (url = [] <-> dict_get str_eqb (u "key") members = None)).
Proof.
  intros run. unfold run. rewrite _upload_leaderboard_cases. cbn [fst snd].
  split; [reflexivity|].
  destruct (network env (length (requests w))) as [e0|resp].
  { split; [discriminate|]. split; [|discriminate].
    intros e He; inversion He; auto. }
  destruct (resp_json resp) as [e0|[| | |s|l|members]] eqn:Ejson.
  - split; [intros url H; inversion H; auto|].
    split; [discriminate | not_an_object].
  - split; [discriminate|].
    split; [intros e He; inversion He; auto | not_an_object].
  - split; [discriminate|].
    split; [intros e He; inversion He; auto | not_an_object].
  - split; [discriminate|].
    split; [intros e He; inversion He; auto | not_an_object].
  - destruct (is_substring (u "key") s).
    + split; [discriminate|].
      split; [intros e He; inversion He; auto | not_an_object].
    + split; [intros url H; inversion H; auto|].
      split; [discriminate | not_an_object].
  - destruct (existsb (py_eqb (JStr (u "key"))) l).
    + split; [discriminate|].
      split; [intros e He; inversion He; auto | not_an_object].
    + split; [intros url H; inversion H; auto|].
      split; [discriminate | not_an_object].
  - destruct (dict_get str_eqb (u "key") members) as [key|] eqn:Ekey.
    + split; [intros url H; inversion H; eauto|].
      split; [discriminate|].
      intros resp0 members0 Hresp Hjson.
      inversion Hresp; subst resp0. rewrite Ejson in Hjson.
      inversion Hjson; subst members0.
      rewrite Ekey. eexists. split; [reflexivity|].
      split; [|discriminate].
      unfold RAW_PASTE_URL_TEMPLATE. intros H.
      apply (f_equal (@length _)) in H. rewrite length_app in H.
      simpl in H. lia.
    + split; [intros url H; inversion H; auto|].
      split; [discriminate|].
      intros resp0 members0 Hresp Hjson.
      inversion Hresp; subst resp0. rewrite Ejson in Hjson.
      inversion Hjson; subst members0.
      rewrite Ekey. exists []. repeat split; reflexivity.
Qed.

Lemma upload_outcomes_witness :
  exists url,
    fst (_upload_leaderboard plain_runtime
           (paste_answers (inr (JObj [(u "key", JStr (u "abc"))])))
           (u "table") one_board_world) = inr url
    /\ (url = []
        <-> dict_get str_eqb (u "key") [(u "key", JStr (u "abc"))] = None).
Proof.
  destruct (@upload_outcomes plain_runtime
              (paste_answers (inr (JObj [(u "key", JStr (u "abc"))])))
              (u "table") one_board_world) as (_ & _ & _ & Hobject).
  apply (Hobject {| resp_url := PASTE_URL; status := 200;
                    resp_json := inr (JObj [(u "key", JStr (u "abc"))]) |});
    reflexivity.
Defined.

(** ** What the requests ask for *)

Lemma bindIO_cases {A B} (m : IO A) (k : A -> IO B) w r w' :
  bindIO m k w = (r, w') ->
  (exists e, m w = (inl e, w') /\ r = inl e)
  \/ (exists a w0, m w = (inr a, w0) /\ k a w0 = (r, w')).
Proof.
  unfold bindIO. destruct (m w) as [[e|a] w0]; intros H.
  - left. exists e. inversion H; subst. auto.
  - right. eauto.
Qed.

Lemma same_boards_get w w' board b' :
  same_boards w w' ->
  dict_get str_eqb board (leaderboards w') = Some b' ->
  exists b,
    dict_get str_eqb board (leaderboards w) = Some b
    /\ _session b = _session b'.
Proof.
  unfold same_boards.
  generalize (leaderboards w) (leaderboards w'). intros l l' H.
  induction H as [|[k v] [k' v'] l l' (Hk & Hs & _) _ IH]; simpl;
    [discriminate|].
  simpl in Hk, Hs. subst k'.
  destruct (str_eqb board k); [|exact IH].
  intros Hb; inversion Hb; subst. eauto.
Qed.

Lemma board_credential_request_before aoc w w' q :
  same_boards w w' ->
  board_credential_request aoc w' q -> board_credential_request aoc w q.
Proof.
  intros Hsame (board & b' & Hb' & Hq).
  destruct (same_boards_get _ Hsame Hb') as (b & Hb & Hs).
  exists board, b. rewrite Hs. auto.
Qed.

Section CredentialFacts.
Variables (py : Python) (aoc : AdventOfCode) (env : Env).

Lemma fetch_attempts_credentials attempts :
  forall board participants w r w',
    fetch_attempts aoc env attempts board participants w = (r, w') ->
    exists issued,
      requests w' = requests w ++ issued
      /\ Forall (board_credential_request aoc w) issued.
Proof.
  induction attempts as [|a attempts IH]; intros board participants w r w' H.
  - inversion H; subst. exists []. rewrite app_nil_r. auto.
  - destruct (dict_get str_eqb board (leaderboards w)) as [b|] eqn:Hb.
    + rewrite (@fetch_attempts_step aoc env a attempts board participants
                 b w Hb) in H.
      set (q := board_request aoc board (session aoc b)) in *.
      assert (Hq : board_credential_request aoc w q).
      { exists board, b. split; [exact Hb|]. unfold q, session.
        destruct (use_fallback_session b); auto. }
      assert (Hone : forall r0,
                (r0, log_request q w) = (r, w') ->
                exists issued,
                  requests w' = requests w ++ issued
                  /\ Forall (board_credential_request aoc w) issued).
      { intros r0 Hr; inversion Hr; subst. exists [q].
        split; [reflexivity | constructor; [exact Hq | constructor]]. }
      destruct (request_outcome _ _) as [e|raw_data].
      * destruct e; try (destruct (is_ClientError _); eapply Hone; eauto; fail).
        destruct (str_eqb (session aoc b) (fallback_session aoc));
          [eapply Hone; eauto|].
        apply IH in H. destruct H as (issued & Hreq & Hall).
        exists (q :: issued). split.
        -- rewrite Hreq. cbn [requests set_leaderboards log_request].
           rewrite <- app_assoc. reflexivity.
        -- constructor; [exact Hq|].
           eapply Forall_impl; [|exact Hall].
           intros q0. apply board_credential_request_before.
           apply (same_boards_switch board (log_request q w)).
      * exists [q]. split; [|constructor; [exact Hq | constructor]].
        pose proof (store_participants_requests board participants raw_data
                      (log_request q w)) as Hreq.
        rewrite H in Hreq. exact Hreq.
    + cbn [fetch_attempts] in H. unfold bindIO at 1 in H.
      unfold board_session in H. rewrite Hb in H.
      inversion H; subst. exists []. rewrite app_nil_r. auto.
Qed.

Lemma fetch_leaderboard_data_credentials w r w' :
  _fetch_leaderboard_data aoc env w = (r, w') ->
  exists issued,
    requests w' = requests w ++ issued
    /\ Forall (board_credential_request aoc w) issued.
Proof.
  unfold _fetch_leaderboard_data. rewrite bindIO_gets.
  generalize (map fst (leaderboards w)) as boards.
  generalize (@nil (json * json)) as pooled.
  intros pooled boards. revert pooled w r w'.
  induction boards as [|board boards IH]; intros pooled w r w' H.
  - inversion H; subst. exists []. rewrite app_nil_r. auto.
  - cbn [forIO] in H. apply bindIO_cases in H.
    destruct H as [(e & H & ->) | (pooled1 & w1 & H1 & H)].
    + eapply fetch_attempts_credentials; eauto.
    + pose proof (@evolves_fetch_attempts same_boards same_boards_refl
                    same_boards_trans same_boards_log same_boards_counts
                    same_boards_switch aoc env (range 1 3) board pooled
                    w _ _ H1) as Hsame.
      apply fetch_attempts_credentials in H1.
      destruct H1 as (issued1 & Hreq1 & Hall1).
      apply IH in H. destruct H as (issued2 & Hreq2 & Hall2).
      exists (issued1 ++ issued2). split.
      * rewrite Hreq2, Hreq1, app_assoc. reflexivity.
      * apply Forall_app. split; [exact Hall1|].
        eapply Forall_impl; [|exact Hall2].
        intros q. apply board_credential_request_before. exact Hsame.
Qed.

(** X20.  Every call of [aiohttp.request] that a [fetch_leaderboard]
    makes, however it ends, asks with GET for the URL of the leaderboard
    API for a board of the configuration, with the credential of that
    board or the fallback credential as its session cookie, or else is
    the POST of a table to the paste service, without a cookie: the code
    hands a credential to no request for another URL.  Where the client
    goes inside a call, when it follows a redirect, is no part of the
    statement. *)
Theorem requests_of_a_refresh invalidate_cache w r w' :
  fetch_leaderboard py aoc env invalidate_cache w = (r, w') ->
  exists issued,
    requests w' = requests w ++ issued
    /\ Forall (fun q => board_credential_request aoc w q \/ paste_request q)
              issued.
Proof.
  unfold fetch_leaderboard. rewrite bindIO_gets.
  destruct (invalidate_cache || _).
  - intros H. apply bindIO_cases in H.
    destruct H as [(e & H & ->) | (raw & wa & Hraw & H)].
    { apply fetch_leaderboard_data_credentials in H.
      destruct H as (issued & Hreq & Hall). exists issued.
      split; [exact Hreq|]. eapply Forall_impl; [|exact Hall]. auto. }
    apply fetch_leaderboard_data_credentials in Hraw.
    destruct Hraw as (issued & Hreq & Hall).
    assert (Hleft : Forall (fun q => board_credential_request aoc w q
                                     \/ paste_request q) issued).
    { eapply Forall_impl; [|exact Hall]. auto. }
    assert (Hstop : wa = w' ->
              exists issued0,
                requests w' = requests w ++ issued0
                /\ Forall (fun q => board_credential_request aoc w q
                                    \/ paste_request q) issued0).
    { intros <-. eauto. }
    apply bindIO_cases in H.
    destruct H as [(e & H & ->) | (parsed & wb & Hparsed & H)];
      [inversion H; auto|].
    inversion Hparsed; subst wb; clear Hparsed.
    apply bindIO_cases in H.
    destruct H as [(e & H & ->) | (formatted & wb & Hformatted & H)];
      [inversion H; auto|].
    inversion Hformatted; subst wb; clear Hformatted.
    assert (Hpost : forall w0,
              requests w0
              = requests (log_request
                            {| req_method := u "POST"; req_url := PASTE_URL;
                               req_session := None;
                               req_data := Some formatted |} wa) ->
              exists issued0,
                requests w0 = requests w ++ issued0
                /\ Forall (fun q => board_credential_request aoc w q
                                    \/ paste_request q) issued0).
    { intros w0 Hw0. eexists. split.
      - rewrite Hw0. cbn [requests log_request]. rewrite Hreq, <- app_assoc.
        reflexivity.
      - apply Forall_app. split; [exact Hleft|].
        constructor; [|constructor]. right. eexists; reflexivity. }
    apply bindIO_cases in H.
    destruct H as [(e & H & ->) | (url & wb & Hurl & H)].
    { apply Hpost. rewrite _upload_leaderboard_cases in H.
      inversion H; reflexivity. }
    rewrite _upload_leaderboard_cases in Hurl.
    rewrite bindIO_gets in H.
    apply bindIO_cases in H.
    destruct H as [(e & H & ->) | (x & wc & Hm & H)]; [discriminate|].
    apply Hpost. inversion H; subst. inversion Hm; subst.
    inversion Hurl; reflexivity.
  - intros H; inversion H; subst. exists []. rewrite app_nil_r. auto.
Qed.
End CredentialFacts.

Lemma requests_of_a_refresh_witness :
  exists issued,
    requests (snd (fetch_leaderboard plain_runtime default_config
                     expired_primary true one_board_world))
    = requests one_board_world ++ issued
    /\ Forall (fun q => board_credential_request default_config
                          one_board_world q
                        \/ paste_request q)
              issued.
Proof.
  apply (@requests_of_a_refresh plain_runtime default_config
           expired_primary true one_board_world
           (fst (fetch_leaderboard plain_runtime default_config
                   expired_primary true one_board_world))).
  vm_compute. reflexivity.
Defined.

(** ** An assignment to a board that is gone *)

(** X21.  A user whose stored assignment names a board that is not in
    the configuration, and whose count as [get_public_join_code] reads it
    is below 200 (as it is when the cache holds no count for that board),
    gets no join code and no new assignment: the call raises [KeyError]
    from the lookup of the board. *)
Theorem stale_assignment_raises py aoc env author w cached w1 board :
  fetch_leaderboard py aoc env false w = (inr cached, w1) ->
  dict_get Z.eqb author (assigned_leaderboard w) = Some board ->
  board <> [] ->
  count_of (dict_pop str_eqb (staff_leaderboard_id aoc) (leaderboard_counts w1))
           board < 200 ->
  dict_get str_eqb board (leaderboards w1) = None ->
  get_public_join_code py aoc env author w = (inl KeyError, w1).
Proof.
  intros Hfetch Hprev Hboard Hcount Hgone.
  rewrite (@get_public_join_code_run py aoc env author w cached w1 Hfetch).
  cbv zeta. rewrite Hprev.
  destruct board as [|c board]; [congruence|]. cbn [truthy_str].
  rewrite (proj2 (Z.ltb_lt _ _) Hcount).
  unfold join_code_of. rewrite Hgone. reflexivity.
Qed.

Lemma stale_assignment_raises_witness :
  get_public_join_code plain_runtime default_config public_board_full 7
    stale_assignment_world
  = (inl KeyError, stale_assignment_world).
Proof.
  apply (@stale_assignment_raises plain_runtime default_config
           public_board_full 7 stale_assignment_world
           (leaderboard_cache stale_assignment_world) stale_assignment_world
           (u "retired"));
    [reflexivity | reflexivity | discriminate | reflexivity | reflexivity].
Defined.

(** ** The order of the results of a star *)

Lemma filter_insert_time t x (l : list StarResult) :
  filter (fun r => completion_time r =? t)
    (insert_sorted (fun a b => completion_time a <=? completion_time b) x l)
  = filter (fun r => completion_time r =? t) (x :: l).
Proof.
  induction l as [|y l IH]; [reflexivity|].
  cbn [insert_sorted].
  destruct (completion_time x <=? completion_time y) eqn:E; [reflexivity|].
  cbn [filter] in *. rewrite IH.
  destruct (completion_time x =? t) eqn:Ex; [|reflexivity].
  destruct (completion_time y =? t) eqn:Ey; [|reflexivity].
  apply Z.eqb_eq in Ex, Ey. apply Z.leb_gt in E. lia.
Qed.

Lemma nth_error_enumerate {A} (l : list A) : forall start i,
  nth_error (enumerate start l) i
  = option_map (fun a => ((start + i)%nat, a)) (nth_error l i).
Proof.
  induction l as [|x l IH]; intros start i; destruct i as [|i]; simpl;
    try reflexivity.
  - rewrite Nat.add_0_r. reflexivity.
  - rewrite IH. rewrite Nat.add_succ_r. reflexivity.
Qed.

(** X22.  The points of a star go to its results in the order of their
    completion times, ties in the order in which the results were
    recorded: the results ranked are the results recorded, each once, in
    ascending order of completion time, results with the same time in
    the order they came in, and the result on rank i (from 0) earns
    max_score - i for its participant. *)
Theorem earlier_completions_score_more max_score results :
  let ranked :=
    sorted (fun a b => completion_time a <=? completion_time b) results in
  Permutation ranked results
  /\ StronglySorted (fun a b => completion_time a <= completion_time b) ranked
  /\ (forall t,
        filter (fun r => completion_time r =? t) ranked
        = filter (fun r => completion_time r =? t) results)
  /\ (forall i,
        nth_error (star_awards max_score results) i
        = option_map (fun r => (member_id r, max_score - Z.of_nat i))
                     (nth_error ranked i)).
Proof.
  intros ranked. split; [apply sorted_perm|]. split; [|split].
  - apply Sorted_StronglySorted.
    + intros a b c Hab Hbc. lia.
    + apply sorted_Sorted.
      * intros x y H. apply Z.leb_le in H. exact H.
      * intros x y H. apply Z.leb_gt in H. lia.
  - intros t. unfold ranked. induction results as [|x l IH]; [reflexivity|].
    cbn [sorted fold_right].
    fold (sorted (fun a b => completion_time a <=? completion_time b) l).
    rewrite filter_insert_time. cbn [filter]. rewrite IH. reflexivity.
  - intros i. unfold star_awards. fold ranked.
    rewrite nth_error_map, nth_error_enumerate.
    destruct (nth_error ranked i); reflexivity.
Qed.

(** ** The summary of a fetched leaderboard *)

Lemma fetch_leaderboard_keys py aoc env invalidate_cache w cached w1 :
  fetch_leaderboard py aoc env invalidate_cache w = (inr cached, w1) ->
  forall key, In key REQUIRED_CACHE_KEYS ->
    dict_get str_eqb key cached <> None.
Proof.
  unfold fetch_leaderboard. rewrite bindIO_gets.
  destruct (invalidate_cache || _) eqn:Hcond; intros H.
  - apply bindIO_inr in H. destruct H as (raw & wa & _ & H).
    apply bindIO_inr in H. destruct H as (parsed & wb & _ & H).
    apply bindIO_inr in H. destruct H as (formatted & wc & _ & H).
    apply bindIO_inr in H. destruct H as (url & wd & _ & H).
    apply bindIO_inr in H. destruct H as (fetched_at & we & _ & H).
    apply bindIO_inr in H. destruct H as (x & wf & Hm & H).
    inversion H; subst; clear H.
    intros key Hkey. unfold REQUIRED_CACHE_KEYS in Hkey. cbn [In] in Hkey.
    destruct Hkey as [<-|[<-|[<-|[<-|[<-|[<-|[]]]]]]]; discriminate.
  - inversion H; subst; clear H. intros key Hkey.
    apply orb_false_iff in Hcond. destruct Hcond as [_ Hcond].
    pose proof (existsb_false _ _ Hcond key Hkey) as Hmem.
    apply negb_false_iff in Hmem. unfold dict_mem in Hmem.
    destruct (dict_get str_eqb key (leaderboard_cache w1));
      [discriminate | discriminate Hmem].
Qed.

(** X23.  [get_summary_embed] finds every key it reads in a dictionary
    that [fetch_leaderboard] returned, so it never raises [KeyError] on
    one: it raises only when the cached time of the fetch is not a string
    ([TypeError]) or not in ISO format ([ValueError]).  The embed it
    returns has the field with the link to the full leaderboard exactly
    when the cached URL is truthy, that is, not the empty string an
    upload that failed leaves. *)
Theorem summary_embed_of_a_fetched_leaderboard py aoc env invalidate_cache
    w cached w1 soft_green fromisoformat :
  fetch_leaderboard py aoc env invalidate_cache w = (inr cached, w1) ->
  exists leaderboard_url,
    dict_get str_eqb (u "full_leaderboard_url") cached = Some leaderboard_url
    /\ (forall e,
          get_summary_embed soft_green fromisoformat aoc cached = inl e ->
          e = TypeError \/ e = ValueError)
    /\ (forall embed,
          get_summary_embed soft_green fromisoformat aoc cached = inr embed ->
          ((exists value inline,
              In (add_field (u "Full Leaderboard") value inline)
                 (calls embed))
           <-> redis_truthy leaderboard_url = true)).
Proof.
  intros H. pose proof (fetch_leaderboard_keys _ _ _ _ _ H) as Hkeys.
  unfold get_summary_embed, dict_getitem.
  destruct (dict_get str_eqb (u "full_leaderboard_url") cached)
    as [leaderboard_url|] eqn:Eurl;
    [|exfalso; revert Eurl; apply Hkeys; unfold REQUIRED_CACHE_KEYS;
      simpl; tauto].
  destruct (dict_get str_eqb (u "leaderboard_fetched_at") cached)
    as [fetched_at|] eqn:Efetched;
    [|exfalso; revert Efetched; apply Hkeys; unfold REQUIRED_CACHE_KEYS;
      simpl; tauto].
  destruct (dict_get str_eqb (u "number_of_participants") cached)
    as [number_of_participants|] eqn:Enumber;
    [|exfalso; revert Enumber; apply Hkeys; unfold REQUIRED_CACHE_KEYS;
      simpl; tauto].
  exists leaderboard_url. split; [reflexivity|].
  cbn [bindE ok raise].
  destruct fetched_at as [s|n].
  - destruct (fromisoformat s) as [t|]; cbn [bindE].
    + split; [discriminate|].
      intros embed Hembed. inversion Hembed; subst embed; clear Hembed.
      cbn [calls]. destruct (redis_truthy leaderboard_url).
      * split; [reflexivity|]. intros _. eexists; eexists.
        right; left; reflexivity.
      * split; [|discriminate]. intros (value & inline & Hin).
        simpl in Hin.
        destruct Hin as [Hin|[Hin|[Hin|[Hin|[]]]]]; discriminate.
    + split; [intros e He; inversion He; auto | discriminate].
  - cbn [bindE]. split; [intros e He; inversion He; auto | discriminate].
Qed.

Lemma summary_embed_of_a_fetched_leaderboard_witness :
  exists cached w1 leaderboard_url,
    fetch_leaderboard plain_runtime default_config expired_primary true
      one_board_world = (inr cached, w1)
    /\ dict_get str_eqb (u "full_leaderboard_url") cached
       = Some leaderboard_url
    /\ (forall e,
          get_summary_embed 0 (fun _ => Some 0) default_config cached = inl e ->
          e = TypeError \/ e = ValueError)
    /\ (forall embed,
          get_summary_embed 0 (fun _ => Some 0) default_config cached
            = inr embed ->
          ((exists value inline,
              In (add_field (u "Full Leaderboard") value inline)
                 (calls embed))
           <-> redis_truthy leaderboard_url = true)).
Proof.
  pose (run := fetch_leaderboard plain_runtime default_config expired_primary
                 true one_board_world).
  assert (E : run = (inr match fst run with inr c => c | inl _ => [] end,
                     snd run)) by (vm_compute; reflexivity).
  destruct (@summary_embed_of_a_fetched_leaderboard plain_runtime
              default_config expired_primary true one_board_world _ _
              0 (fun _ => Some 0) E) as (url & Hurl & Hraises & Hfield).
  eexists; eexists; exists url.
  split; [exact E|]. split; [exact Hurl|]. split; [exact Hraises | exact Hfield].
Defined.

(** ** The exceptions of the fetcher *)

Section RaisesOnly.
Variable P : exn -> Prop.

Lemma raises_bind {A B} (m : IO A) (k : A -> IO B) :
  raises_only P m -> (forall a, raises_only P (k a)) ->
  raises_only P (bindIO m k).
Proof.
  intros Hm Hk w e w' H. apply bindIO_inl in H.
  destruct H as [H | (a & w0 & _ & H)]; [eapply Hm | eapply Hk]; eauto.
Qed.

Lemma raises_ret {A} (a : A) : raises_only P (ret a).
Proof. intros w e w' H; discriminate. Qed.

Lemma raises_gets {A} (f : World -> A) : raises_only P (gets f).
Proof. intros w e w' H; discriminate. Qed.

Lemma raises_modify f : raises_only P (modify f).
Proof. intros w e w' H; discriminate. Qed.

Lemma raises_try {A} (m : IO A) : raises_only P (try m).
Proof.
  intros w e w' H. unfold try in H. destruct (m w); discriminate.
Qed.

Lemma raises_throw {A} e : P e -> raises_only P (@throw A e).
Proof. intros He w e' w' H; inversion H; subst; exact He. Qed.

Lemma raises_lift {A} (m : Exc A) :
  (forall e, m = inl e -> P e) -> raises_only P (lift m).
Proof. intros Hm w e w' H; inversion H; subst; auto. Qed.

Lemma raises_forIO {A S} (body : S -> A -> IO S) (l : list A) :
  (forall s a, raises_only P (body s a)) ->
  forall s, raises_only P (forIO body s l).
Proof.
  intros Hb. induction l as [|a l IH]; intros s; simpl.
  - apply raises_ret.
  - apply raises_bind; auto.
Qed.
End RaisesOnly.

Lemma foldE_raises {A S} (P : exn -> Prop) (body : S -> A -> Exc S)
    (l : list A) :
  (forall s a e, body s a = inl e -> P e) ->
  forall s e, foldE body s l = inl e -> P e.
Proof.
  intros Hb. induction l as [|a l IH]; intros s e H; simpl in H;
    [discriminate|].
  destruct (body s a) as [e'|s'] eqn:E; [|eauto].
  inversion H; subst. eauto.
Qed.

Lemma update_from_raises other d e :
  update_from other d = inl e -> is_ClientError e = false.
Proof.
  assert (Hpair : forall d0 elem e0,
            update_pair d0 elem = inl e0 -> is_ClientError e0 = false).
  { intros d0 elem e0. unfold update_pair.
    destruct elem as [| | |s|l|kv]; try (intros H; inversion H; reflexivity).
    - destruct s as [|a [|b [|c s]]]; intros H; inversion H; reflexivity.
    - destruct l as [|k [|v [|x l]]]; try (intros H; inversion H; reflexivity).
      destruct (hashable k); intros H; inversion H; reflexivity.
    - destruct kv as [|[k1 v1] [|[k2 v2] [|x kv]]];
        intros H; inversion H; reflexivity. }
  unfold update_from. destruct other as [| | |s|l|kv];
    try (intros H; inversion H; reflexivity).
  - apply (foldE_raises (fun e => is_ClientError e = false)). exact Hpair.
  - apply (foldE_raises (fun e => is_ClientError e = false)). exact Hpair.
Qed.

(** X24.  No [aiohttp.ClientError] escapes [_fetch_leaderboard_data]:
    neither [UnexpectedRedirect] nor [UnexpectedResponseStatus], which
    [_leaderboard_request] raises, nor an error of the transport of that
    class; each is turned into [FetchingLeaderboardFailed].  What else
    the call raises (an exception of another class from the transport or
    from the decoding, or one from reading the answer: a missing
    ["members"], members that cannot be counted or pooled) is never of
    that class. *)
Theorem client_errors_do_not_escape aoc env w e w' :
  _fetch_leaderboard_data aoc env w = (inl e, w') ->
  is_ClientError e = false.
Proof.
  revert w e w'. change (raises_only (fun e => is_ClientError e = false)
                           (_fetch_leaderboard_data aoc env)).
  unfold _fetch_leaderboard_data.
  apply raises_bind; [apply raises_gets | intros boards].
  apply raises_forIO. intros participants board.
  generalize (range 1 3) as attempts.
  intros attempts; revert participants.
  induction attempts as [|a attempts IH]; intros participants;
    cbn [fetch_attempts].
  - apply raises_throw. reflexivity.
  - apply raises_bind.
    { intros w e w' H. unfold board_session in H.
      destruct (dict_get str_eqb board (leaderboards w));
        inversion H; reflexivity. }
    intros cookie. apply raises_bind; [apply raises_try|].
    intros [e|raw_data].
    + destruct e;
        try (cbn [is_ClientError]; apply raises_throw; reflexivity).
      destruct (str_eqb cookie (fallback_session aoc));
        [apply raises_throw; reflexivity|].
      apply raises_bind; [apply raises_modify | intros _; apply IH].
    + unfold store_participants.
      apply raises_bind.
      { apply raises_lift. intros e. unfold getitem, dict_getitem.
        destruct raw_data; try (intros H; inversion H; reflexivity).
        destruct (dict_get str_eqb (u "members") members);
          intros H; inversion H; reflexivity. }
      intros board_participants. apply raises_bind.
      { apply raises_lift. intros e. unfold len.
        destruct board_participants; intros H; inversion H; reflexivity. }
      intros n. apply raises_bind; [apply raises_modify | intros _].
      apply raises_lift. intros e. apply update_from_raises.
Qed.

Lemma client_errors_do_not_escape_witness :
  fst (_fetch_leaderboard_data default_config redirecting_network
         one_board_world) = inl FetchingLeaderboardFailed
  /\ is_ClientError FetchingLeaderboardFailed = false.
Proof.
  split; [reflexivity|].
  apply (@client_errors_do_not_escape default_config redirecting_network
           one_board_world FetchingLeaderboardFailed
           (snd (_fetch_leaderboard_data default_config redirecting_network
                   one_board_world))).
  vm_compute. reflexivity.
Defined.
